(** * AI_Personalization: the personalization helper and its chatbot integration

    A shallow embedding of [personalization_helper.py] (class
    [PersonalizationHelper]) and of the [EnhancedChatbot] methods of
    [INTEGRATION_EXAMPLE.py], followed by the properties of the
    specification that concern them.

    Python values that come out of [response.json()] are modelled by the
    inductive type [json]; Python strings are lists of Unicode code points;
    the network and the clock are oracles carried by a [world] that every
    effectful method threads through a small state-and-exception monad.
    The readings of [time.time()] are Python floats, that is binary64
    numbers, and their difference is the rounded one of IEEE 754, as the
    standard library's [SpecFloat] defines it. *)

From Stdlib Require Import List NArith ZArith QArith Ascii String Bool Lia.
From Stdlib Require Import SpecFloat.
From Stdlib Require Import DecimalString.
From stdpp Require Import gmap.
Import ListNotations.

Local Open Scope list_scope.
Set Warnings "-register-all".

(* ===================================================================== *)
(** ** Python strings *)
(* ===================================================================== *)

Module Str.

(** A Python [str] is a sequence of code points. *)
Definition char := N.
Definition str := list char.

(** An ASCII literal of the source. *)
Definition lit (s : string) : str :=
  List.map N_of_ascii (list_ascii_of_string s).

Definition sp : char := 32%N.

Fixpoint eqb (s t : str) : bool :=
  match s, t with
  | [], [] => true
  | a :: s', b :: t' => N.eqb a b && eqb s' t'
  | _, _ => false
  end.

(** [s.startswith(p)] *)
Fixpoint starts_with (p s : str) : bool :=
  match p, s with
  | [], _ => true
  | _ :: _, [] => false
  | a :: p', b :: s' => N.eqb a b && starts_with p' s'
  end.

(** [sub in s] *)
Fixpoint contains (sub s : str) : bool :=
  starts_with sub s ||
  match s with
  | [] => false
  | _ :: s' => contains sub s'
  end.

(** The scan of [str.replace] for a non-empty [old]: left to right, each match
    is replaced and the scan resumes after it, so matches never overlap.
    [skip] counts the characters of the current match still to be dropped. *)
Fixpoint replace_from (old new : str) (skip : nat) (s : str) : str :=
  match s with
  | [] => []
  | c :: s' =>
      match skip with
      | S k => replace_from old new k s'
      | O =>
          if starts_with old s
          then new ++ replace_from old new (length old - 1) s'
          else c :: replace_from old new 0 s'
      end
  end.

(** [s.replace(old, new)].  With an empty [old] Python inserts [new] before
    every character and at the end. *)
Definition replace (s old new : str) : str :=
  match old with
  | [] => new ++ flat_map (fun c => c :: new) s
  | _ :: _ => replace_from old new 0 s
  end.

(** [sep.join(parts)] *)
Fixpoint join (sep : str) (parts : list str) : str :=
  match parts with
  | [] => []
  | [p] => p
  | p :: ps => p ++ sep ++ join sep ps
  end.

(** Two strings agree as far as both go. *)
Fixpoint agree (x y : str) : bool :=
  match x, y with
  | a :: x', b :: y' => N.eqb a b && agree x' y'
  | _, _ => true
  end.

(** Whether an occurrence of [q] in some [l ++ w ++ r] can share a character
    with the middle part [w]: either [q] starts inside [w], or a proper,
    non-empty suffix of [q] starts at the first character of [w]. *)
Definition can_touch (q w : str) : bool :=
  existsb (fun d => agree (skipn d w) q) (seq 0 (length w)) ||
  existsb (fun k => agree w (skipn k q)) (seq 1 (length q - 1)).

(** Every occurrence of [q] in [s] has a space right before it and right
    after it.  [before] tells whether the character preceding [s] is a
    space. *)
Fixpoint spaced (q : str) (before : bool) (s : str) : bool :=
  match s with
  | [] => true
  | c :: s' =>
      (negb (starts_with q s)
       || (before && starts_with [sp] (skipn (length q) s)))
      && spaced q (N.eqb c sp) s'
  end.

(** [q] occurs in [s] only as a word of its own: between two spaces, and never
    twice in a row with a single space in between. *)
Definition isolated (q s : str) : bool :=
  spaced q false s && negb (contains (q ++ sp :: q) s).

(** The same in terms of decompositions of [s]: every occurrence of [q] is
    followed by a space, and preceded by one, or starts [s] when [first]
    holds. *)
Definition ends_sp (a : str) : Prop := exists a', a = a' ++ [sp].
Definition starts_sp (b : str) : Prop := exists b', b = sp :: b'.
Definition delimited (q : str) (first : Prop) (s : str) : Prop :=
  forall a b, s = a ++ q ++ b ->
    (ends_sp a \/ (a = [] /\ first)) /\ starts_sp b.

End Str.

Import Str.

(* ===================================================================== *)
(** ** Python values decoded from JSON, and the operations used on them *)
(* ===================================================================== *)

Module Py.

(** What [response.json()] can return.  [JNull] is Python's [None]; an object
    is the decoded [dict], its items in insertion order. *)
Inductive json : Type :=
| JNull
| JBool (b : bool)
| JInt (z : Z)
| JFloat (q : Q)
| JStr (s : str)
| JArr (items : list json)
| JObj (fields : list (str * json)).

Inductive exn : Type :=
| AttributeError
| TypeError
| KeyError
| IndexError.

Inductive result (A : Type) : Type :=
| Ok (a : A)
| Raise (e : exn).
Arguments Ok {A} a.
Arguments Raise {A} e.

Definition rbind {A B} (r : result A) (k : A -> result B) : result B :=
  match r with
  | Ok a => k a
  | Raise e => Raise e
  end.

Notation "x <~ r ;; k" := (rbind r (fun x => k))
  (at level 100, r at next level, right associativity).

(** [bool(v)] *)
Definition truthy (v : json) : bool :=
  match v with
  | JNull => false
  | JBool b => b
  | JInt z => negb (z =? 0)%Z
  | JFloat q => negb (Qeq_bool q 0%Q)
  | JStr s => match s with [] => false | _ :: _ => true end
  | JArr l => match l with [] => false | _ :: _ => true end
  | JObj fs => match fs with [] => false | _ :: _ => true end
  end.

Fixpoint lookup (k : str) (fields : list (str * json)) : option json :=
  match fields with
  | [] => None
  | (k', v) :: rest => if Str.eqb k k' then Some v else lookup k rest
  end.

(** [d.get(k, default)]; only a [dict] has the method. *)
Definition get (d : json) (k : str) (default : json) : result json :=
  match d with
  | JObj fs => Ok (match lookup k fs with Some v => v | None => default end)
  | _ => Raise AttributeError
  end.

(** [d.items()] *)
Definition items (d : json) : result (list (str * json)) :=
  match d with
  | JObj fs => Ok fs
  | _ => Raise AttributeError
  end.

(** The numeric value of the values Python orders against an [int]:
    [bool] is a subclass of [int]. *)
Definition num (v : json) : option Q :=
  match v with
  | JBool b => Some (if b then 1%Q else 0%Q)
  | JInt z => Some (inject_Z z)
  | JFloat q => Some q
  | _ => None
  end.

(** [isinstance(v, (int, float))] *)
Definition is_number (v : json) : bool :=
  match num v with Some _ => true | None => false end.

(** [v >= n], [v > n] and [v == n] for an integer literal [n]. *)
Definition ge (v : json) (n : Z) : result bool :=
  match num v with
  | Some x => Ok (Qle_bool (inject_Z n) x)
  | None => Raise TypeError
  end.

Definition gt (v : json) (n : Z) : result bool :=
  match num v with
  | Some x => Ok (negb (Qle_bool x (inject_Z n)))
  | None => Raise TypeError
  end.

Definition eq_int (v : json) (n : Z) : bool :=
  match num v with
  | Some x => Qeq_bool x (inject_Z n)
  | None => false
  end.

(** [v == "literal"] *)
Definition eq_str (v : json) (s : str) : bool :=
  match v with
  | JStr t => Str.eqb t s
  | _ => false
  end.

(** [len(v)] *)
Definition len (v : json) : result nat :=
  match v with
  | JStr s => Ok (length s)
  | JArr l => Ok (length l)
  | JObj fs => Ok (length fs)
  | _ => Raise TypeError
  end.

(** [v[0]]; the keys of a decoded object are strings, so [0] is never one. *)
Definition first (v : json) : result json :=
  match v with
  | JArr (x :: _) => Ok x
  | JArr [] => Raise IndexError
  | JStr (c :: _) => Ok (JStr [c])
  | JStr [] => Raise IndexError
  | JObj _ => Raise KeyError
  | _ => Raise TypeError
  end.

(** [v[:n]] *)
Definition slice_to (v : json) (n : nat) : result json :=
  match v with
  | JArr l => Ok (JArr (firstn n l))
  | JStr s => Ok (JStr (firstn n s))
  | _ => Raise TypeError
  end.

(** The elements [for x in v] visits. *)
Definition elements (v : json) : result (list json) :=
  match v with
  | JArr l => Ok l
  | JStr s => Ok (List.map (fun c => JStr [c]) s)
  | JObj fs => Ok (List.map (fun kv => JStr (fst kv)) fs)
  | _ => Raise TypeError
  end.

Fixpoint all_str (l : list json) : option (list str) :=
  match l with
  | [] => Some []
  | JStr s :: rest =>
      match all_str rest with
      | Some ss => Some (s :: ss)
      | None => None
      end
  | _ :: _ => None
  end.

(** [sep.join(v)]: every element must be a [str]. *)
Definition join_value (sep : str) (v : json) : result str :=
  xs <~ elements v ;;
  match all_str xs with
  | Some ss => Ok (Str.join sep ss)
  | None => Raise TypeError
  end.

(** Number formatting is left to the interpreter: [py_str v] is [str(v)] of a
    value that is not a string, [fmt_2f v] is [format(v, ".2f")] of a
    number. *)
Class Formatter : Type := {
  py_str : json -> str;
  fmt_2f : json -> str
}.

(** A replacement field [{v}] of an f-string. *)
Definition fmt `{Formatter} (v : json) : str :=
  match v with
  | JStr s => s
  | _ => py_str v
  end.

End Py.

Import Py.

(* ===================================================================== *)
(** ** Python floats *)
(* ===================================================================== *)

Module Float.

(** A Python [float] is an IEEE 754 binary64 number: 53 bits of precision,
    exponents below 1024. *)
Definition prec : Z := 53.
Definition emax : Z := 1024.

Definition float : Type := spec_float.

(** [x - y] on floats: the exact difference, rounded to the nearest float,
    ties to even. *)
Definition sub : float -> float -> float := SFsub prec emax.

(** [float(z)], for an integer within the range of the floats. *)
Definition of_int (z : Z) : float := binary_normalize prec emax z 0 false.

(** [x < z] for a float [x] and an [int] [z].  Python compares the two
    exactly, without converting [z]: a NaN is less than nothing, minus
    infinity less than every integer. *)
Definition lt_int (x : float) (z : Z) : bool :=
  match x with
  | S754_nan => false
  | S754_infinity s => s
  | S754_zero _ => (0 <? z)%Z
  | S754_finite s m e =>
      let n := cond_Zopp s (Zpos m) in
      match e with
      | Zneg p => (n <? z * 2 ^ Zpos p)%Z
      | _ => (n * 2 ^ e <? z)%Z
      end
  end.

(** The floats that are numbers: a zero, or a finite float in the form
    binary64 stores it in.  [time.time()] returns one of these. *)
Definition is_double (x : float) : bool :=
  match x with
  | S754_zero _ => true
  | S754_finite _ m e => bounded prec emax m e
  | _ => false
  end.

(** The exact value of a float that is a number. *)
Definition to_Q (x : float) : Q :=
  match x with
  | S754_finite s m e =>
      let n := cond_Zopp s (Zpos m) in
      match e with
      | Zneg p => n # (2 ^ p)
      | _ => inject_Z (n * 2 ^ e)%Z
      end
  | _ => 0%Q
  end.

End Float.

(* ===================================================================== *)
(** ** The network, the clock and the monad of effectful methods *)
(* ===================================================================== *)

Module Net.

Inductive http_method : Type := GET | POST.

Record request : Type := {
  rq_method : http_method;
  rq_url : str;
  rq_timeout : Z
}.

(** The subclasses of [requests.exceptions.RequestException] a call raises. *)
Inductive failure : Type :=
| Timeout
| ConnectionError
| OtherRequestException.

(** What a call of [requests.get] or [requests.post] comes back with: a
    response with its status code and its decoded body ([None] when the body
    is not JSON, in which case [response.json()] raises
    [requests.exceptions.JSONDecodeError], itself a [RequestException]), or
    an exception. *)
Inductive reply : Type :=
| Response (status : Z) (body : option json)
| Failed (f : failure).

(** [net n] is the outcome of the [n]-th request issued, [sent] the requests
    issued so far; [clock n] is the [n]-th reading of [time.time()], in
    seconds. *)
Record world : Type := {
  net : nat -> reply;
  sent : list request;
  clock : nat -> Float.float;
  reads : nat
}.

Definition M (A : Type) : Type := world -> result A * world.

Definition ret {A} (a : A) : M A := fun w => (Ok a, w).

Definition lift {A} (r : result A) : M A := fun w => (r, w).

Definition bind {A B} (m : M A) (k : A -> M B) : M B :=
  fun w =>
    match m w with
    | (Ok a, w') => k a w'
    | (Raise e, w') => (Raise e, w')
    end.

(** [try: m  except Exception as e: h e] *)
Definition try_except {A} (m : M A) (h : exn -> M A) : M A :=
  fun w =>
    match m w with
    | (Ok a, w') => (Ok a, w')
    | (Raise e, w') => h e w'
    end.

Notation "x <- m ;; k" := (bind m (fun x => k))
  (at level 100, m at next level, right associativity).

(** The world after one more request. *)
Definition issue (w : world) (rq : request) : world :=
  {| net := net w; sent := sent w ++ [rq]; clock := clock w;
     reads := reads w |}.

(** [requests.get] and [requests.post] *)
Definition http (meth : http_method) (url : str) (timeout : Z) : M reply :=
  fun w =>
    (Ok (net w (length (sent w))),
     issue w {| rq_method := meth; rq_url := url; rq_timeout := timeout |}).

(** [time.time()] *)
Definition time_time : M Float.float :=
  fun w =>
    (Ok (clock w (reads w)),
     {| net := net w; sent := sent w; clock := clock w;
        reads := S (reads w) |}).

End Net.

Import Net.

(* ===================================================================== *)
(** ** personalization_helper.py: class PersonalizationHelper *)
(* ===================================================================== *)

Module PersonalizationHelper.

Record t : Type := { api_url : str }.

Definition nl : char := 10%N.

(** The non-ASCII characters of the literals, by code point. *)
Definition waving_hand : char := 128075%N.
Definition bar_chart : char := 128202%N.
Definition chart_up : char := 128200%N.
Definition chart_down : char := 128201%N.
Definition direct_hit : char := 127919%N.
Definition sparkles : char := 10024%N.
Definition thumbs_up : char := 128077%N.
Definition memo : char := 128221%N.
Definition warning_sign : str := [9888%N; 65039%N].
Definition bullet : char := 8226%N.

(** [__init__], with the default of its parameter. *)
Definition init (personalization_api_url : str) : t :=
  {| api_url := personalization_api_url |}.

Definition default_api_url : str := lit "http://localhost:8001".

(** What the [try] block of the two fetching methods returns for a reply:
    the decoded body on status 200, [None] otherwise and on every
    [RequestException]. *)
Definition decoded (r : reply) : json :=
  match r with
  | Response status body =>
      if (status =? 200)%Z
      then match body with
           | Some v => v
           | None => JNull
           end
      else JNull
  | Failed _ => JNull
  end.

(** A [GET] of [{api_url}/user/{username}{what}] with a 5 second timeout. *)
Definition fetch (self : t) (username what : str) : M json :=
  r <- http GET (api_url self ++ lit "/user/" ++ username ++ what) 5 ;;
  ret (decoded r).

Definition get_user_profile (self : t) (username : str) : M json :=
  fetch self username (lit "/profile").

Definition get_user_report (self : t) (username : str) : M json :=
  fetch self username (lit "/report").

(** [not profile or not profile.get("data_available", False)] *)
Definition no_data (profile : json) : result bool :=
  if negb (truthy profile) then Ok true
  else
    d <~ get profile (lit "data_available") (JBool false) ;;
    Ok (negb (truthy d)).

Section Rendering.
Context `{Formatter}.

(** The lines [build_personalization_context] appends for each field, in
    the order of the source. *)
Definition traits_lines (profile : json) : result (list str) :=
  personality_type <~ get profile (lit "personality_traits") (JObj []) ;;
  if truthy personality_type then
    its <~ items personality_type ;;
    let traits_str :=
      join (lit ", ")
        (List.map (fun kv => fst kv ++ lit ": " ++ fmt_2f (snd kv))
           (List.filter (fun kv => is_number (snd kv)) its)) in
    match traits_str with
    | [] => Ok []
    | _ :: _ => Ok [lit "Personality traits: " ++ traits_str]
    end
  else Ok [].

Definition style_lines (profile : json) : result (list str) :=
  comm_style <~ get profile (lit "communication_style") (JObj []) ;;
  if truthy comm_style then
    formality <~ get comm_style (lit "formality") (JStr (lit "mixed")) ;;
    verbosity <~ get comm_style (lit "verbosity") (JStr (lit "moderate")) ;;
    Ok [lit "Communication style: " ++ fmt formality ++ lit ", "
          ++ fmt verbosity]
  else Ok [].

Definition topics_lines (profile : json) : result (list str) :=
  topics <~ get profile (lit "topics_of_interest") (JArr []) ;;
  if truthy topics then
    top <~ slice_to topics 5 ;;
    joined <~ join_value (lit ", ") top ;;
    Ok [lit "Topics of interest: " ++ joined]
  else Ok [].

Definition skills_lines (profile : json) : result (list str) :=
  skills <~ get profile (lit "skill_levels") (JObj []) ;;
  if truthy skills then
    its <~ items skills ;;
    let skills_str :=
      join (lit ", ")
        (List.map (fun kv => fst kv ++ lit ": " ++ fmt (snd kv)) its) in
    Ok [lit "Skill levels: " ++ skills_str]
  else Ok [].

Definition recs_lines (profile : json) : result (list str) :=
  recs <~ get profile (lit "recommendations") (JObj []) ;;
  if truthy recs then
    learning_recs <~ get recs (lit "learning_style") (JArr []) ;;
    if truthy learning_recs then
      top <~ slice_to learning_recs 2 ;;
      joined <~ join_value (lit "; ") top ;;
      Ok [lit "Learning recommendations: " ++ joined]
    else Ok []
  else Ok [].

Definition resume_lines (profile : json) : result (list str) :=
  resume_insights <~ get profile (lit "resume_insights") (JObj []) ;;
  analysed <~
    (if truthy resume_insights then
       total <~ get resume_insights (lit "total_analyses") (JInt 0) ;;
       gt total 0
     else Ok false) ;;
  if analysed : bool then
    avg <~ get resume_insights (lit "average_score") (JInt 0) ;;
    trend <~ get resume_insights (lit "improvement_trend")
               (JStr (lit "stable")) ;;
    Ok [lit "Resume performance: " ++ fmt avg ++ lit "% average score, "
          ++ fmt trend ++ lit " trend"]
  else Ok [].

Definition build_personalization_context (self : t) (username : str)
  : M str :=
  profile <- get_user_profile self username ;;
  absent <- lift (no_data profile) ;;
  if absent : bool then ret []
  else
    lift (
      l1 <~ traits_lines profile ;;
      l2 <~ style_lines profile ;;
      l3 <~ topics_lines profile ;;
      l4 <~ skills_lines profile ;;
      l5 <~ recs_lines profile ;;
      l6 <~ resume_lines profile ;;
      let context_parts :=
        [nl :: lit "[PERSONALIZATION INSIGHTS:]"]
          ++ l1 ++ l2 ++ l3 ++ l4 ++ l5 ++ l6
          ++ [lit "[END PERSONALIZATION INSIGHTS]" ++ [nl]] in
      Ok (join [nl] context_parts)).

Definition no_access_message : str :=
  lit "I don't have access to your resume analysis yet. Please upload your resume through the Resume Analyzer module first.".

Definition no_upload_message : str :=
  lit "You haven't uploaded any resume for analysis yet. Would you like me to guide you through the Resume Analyzer module?".

(** The score tier sentence of the summary. *)
Definition interpretation (avg_score : json) : result str :=
  c80 <~ ge avg_score 80 ;;
  if c80 : bool then Ok (sparkles :: lit " Your resume is in excellent shape! ")
  else
    c70 <~ ge avg_score 70 ;;
    if c70 : bool
    then Ok (thumbs_up :: lit " Your resume is good, with room for improvement. ")
    else
      c60 <~ ge avg_score 60 ;;
      if c60 : bool
      then Ok (memo :: lit " Your resume needs some work to stand out. ")
      else Ok (warning_sign
                 ++ lit " Your resume needs significant improvements. ").

Definition closing (trend : json) : str :=
  if eq_str trend (lit "Improving")
  then lit "Great job on the improvements you've made!"
  else if eq_str trend (lit "Declining")
  then lit "Let's work on getting your resume back on track."
  else lit "Keep refining your resume with each application.".

(** The part of the summary built from the profile, before the report is
    fetched. *)
Definition score_summary (resume_insights : json) : result str :=
  total <~ get resume_insights (lit "total_analyses") (JInt 0) ;;
  avg_score <~ get resume_insights (lit "average_score") (JInt 0) ;;
  latest_score <~ get resume_insights (lit "latest_score") (JInt 0) ;;
  trend <~ get resume_insights (lit "improvement_trend")
             (JStr (lit "stable")) ;;
  target_roles <~ get resume_insights (lit "target_roles") (JArr []) ;;
  let summary :=
    lit "Based on your " ++ fmt total ++ lit " resume analysis/analyses:"
      ++ [nl; nl]
      ++ bar_chart :: lit " **Average Score**: " ++ fmt avg_score
      ++ lit "%" ++ [nl]
      ++ chart_up :: lit " **Latest Score**: " ++ fmt latest_score
      ++ lit "%" ++ [nl]
      ++ chart_down :: lit " **Trend**: " ++ fmt trend ++ [nl] in
  summary <~
    (if truthy target_roles then
       top <~ slice_to target_roles 3 ;;
       joined <~ join_value (lit ", ") top ;;
       Ok (summary ++ direct_hit :: lit " **Target Roles**: " ++ joined
             ++ [nl])
     else Ok summary) ;;
  let summary := summary ++ [nl] in
  tier <~ interpretation avg_score ;;
  Ok (summary ++ tier ++ closing trend).

(** The bullets appended from the report. *)
Definition focus_areas (report : json) : result str :=
  wanted <~
    (if truthy report then
       has_data <~ get report (lit "has_data") (JBool false) ;;
       Ok (truthy has_data)
     else Ok false) ;;
  if wanted : bool then
    improvements <~ get report (lit "areas_for_improvement") (JArr []) ;;
    if truthy improvements then
      top <~ slice_to improvements 3 ;;
      imps <~ elements top ;;
      Ok ([nl; nl] ++ lit "**Key areas to focus on**:" ++ [nl]
            ++ List.concat
                 (List.map (fun imp => bullet :: lit " " ++ fmt imp ++ [nl])
                    imps))
    else Ok []
  else Ok [].

Definition get_resume_summary_for_chat (self : t) (username : str)
  : M str :=
  profile <- get_user_profile self username ;;
  if negb (truthy profile) then ret no_access_message
  else
    resume_insights <- lift (get profile (lit "resume_insights") (JObj [])) ;;
    unanalysed <- lift
      (if negb (truthy resume_insights) then Ok true
       else
         total <~ get resume_insights (lit "total_analyses") (JInt 0) ;;
         Ok (eq_int total 0)) ;;
    if unanalysed : bool then ret no_upload_message
    else
      summary <- lift (score_summary resume_insights) ;;
      report <- get_user_report self username ;;
      extra <- lift (focus_areas report) ;;
      ret (summary ++ extra).

End Rendering.

Definition should_personalize_response (self : t) (username : str)
  : M bool :=
  profile <- get_user_profile self username ;;
  if negb (truthy profile) then ret false
  else
    total_interactions <-
      lift (get profile (lit "total_interactions") (JInt 0)) ;;
    lift (ge total_interactions 5).

Definition plain_greeting (username : str) : str :=
  lit "Hi " ++ username ++ lit "! " ++ [waving_hand].

Section Greeting.
Context `{Formatter}.

Definition get_personalized_greeting (self : t) (username : str) : M str :=
  profile <- get_user_profile self username ;;
  absent <- lift (no_data profile) ;;
  if absent : bool then ret (plain_greeting username)
  else
    lift (
      comm_style <~ get profile (lit "communication_style") (JObj []) ;;
      formality <~ get comm_style (lit "formality") (JStr (lit "mixed")) ;;
      resume_insights <~ get profile (lit "resume_insights") (JObj []) ;;
      total <~ get resume_insights (lit "total_analyses") (JInt 0) ;;
      has_resume <~ gt total 0 ;;
      let greeting :=
        if eq_str formality (lit "formal")
        then lit "Hello " ++ username ++ lit ","
        else lit "Hey " ++ username ++ lit "! " ++ [waving_hand] in
      topics <~ get profile (lit "topics_of_interest") (JArr []) ;;
      has_topics <~
        (if truthy topics then
           n <~ len topics ;;
           Ok (0 <? n)%nat
         else Ok false) ;;
      if has_topics : bool then
        topic <~ first topics ;;
        Ok (greeting ++ lit " Ready to explore " ++ fmt topic
              ++ lit " today?")
      else if has_resume : bool then
        Ok (greeting
              ++ lit " How can I help you with your academic or career goals today?")
      else
        Ok (greeting ++ lit " What would you like to learn about today?")).

End Greeting.

(** A [POST] with a 10 second timeout; [True] on status 200 only. *)
Definition trigger_profile_update (self : t) (username : str) : M bool :=
  r <- http POST (api_url self ++ lit "/user/" ++ username ++ lit "/update")
         10 ;;
  match r with
  | Response status _ => ret (status =? 200)%Z
  | Failed _ => ret false
  end.

End PersonalizationHelper.

(* ===================================================================== *)
(** ** INTEGRATION_EXAMPLE.py: class EnhancedChatbot *)
(* ===================================================================== *)

Module EnhancedChatbot.

(** The attributes the personalization steps add to the chatbot. *)
Record t : Type := {
  personalization : PersonalizationHelper.t;
  profile_cache : gmap str (json * Float.float);
  cache_ttl : Z
}.

Definition init : t :=
  {| personalization :=
       PersonalizationHelper.init (lit "http://localhost:8001");
     profile_cache := ∅;
     cache_ttl := 300 |}.

(** The cached profile of [username], when there is one for which
    [now - timestamp < self.cache_ttl] holds: a difference of two floats,
    compared with an [int]. *)
Definition cached (self : t) (username : str) (now : Float.float)
  : option json :=
  match profile_cache self !! username with
  | Some (profile, timestamp) =>
      if Float.lt_int (Float.sub now timestamp) (cache_ttl self)
      then Some profile
      else None
  | None => None
  end.

(** Returns the profile together with the chatbot, whose cache the call may
    have updated. *)
Definition _get_cached_profile (self : t) (username : str) : M (json * t) :=
  now <- time_time ;;
  match cached self username now with
  | Some profile => ret (profile, self)
  | None =>
      profile <-
        PersonalizationHelper.get_user_profile (personalization self)
          username ;;
      if truthy profile then
        ret (profile,
             {| personalization := personalization self;
                profile_cache :=
                  <[username := (profile, now)]> (profile_cache self);
                cache_ttl := cache_ttl self |})
      else ret (profile, self)
  end.

(** The characters the source file holds after the space of the casual
    marker, and after the fallback greeting's exclamation mark. *)
Definition casual_marker : str := [240%N; 376%N; 732%N; 352%N].
Definition fallback_marker : str := [240%N; 376%N; 8216%N; 8249%N].

Definition _adapt_response_style (response : str) (profile : json)
  : result str :=
  comm_style <~ get profile (lit "communication_style") (JObj []) ;;
  formality <~ get comm_style (lit "formality") (JStr (lit "mixed")) ;;
  if eq_str formality (lit "formal") then
    let response := replace response (lit "Hey") (lit "Hello") in
    let response := replace response (lit "!") (lit ".") in
    let response := replace response (lit " gonna ") (lit " going to ") in
    let response := replace response (lit " wanna ") (lit " want to ") in
    Ok response
  else if eq_str formality (lit "casual") then
    let response := replace response (lit "Hello") (lit "Hey") in
    if negb (contains (lit "!") response) && (50 <? length response)%nat
    then Ok (response ++ lit " " ++ casual_marker)
    else Ok response
  else Ok response.

Definition get_personalized_greeting `{Formatter} (self : t)
  (username : str) : M str :=
  try_except
    (PersonalizationHelper.get_personalized_greeting (personalization self)
       username)
    (fun _ =>
       ret (lit "Hi " ++ username ++ lit "! " ++ fallback_marker
              ++ lit " How can I help you today?")).

(** [message_count > 0 and message_count % 10 == 0] *)
Definition _should_update_profile (username : str) (message_count : Z)
  : bool :=
  (0 <? message_count)%Z && (message_count mod 10 =? 0)%Z.

(** What is left to the interpreter: [str_title s] is [s.title()],
    [str_lower s] is [s.lower()], [exn_str e] is [str(e)] of a caught
    exception. *)
Class Interpreter : Type := {
  str_title : str -> str;
  str_lower : str -> str;
  exn_str : exn -> str
}.

(** The float literals [0.5] and [0.7], by the exact value of the double. *)
Definition half : Q := 1 # 2.
Definition seven_tenths : Q := 3152519739159347 # 4503599627370496.

(** [v == c] and [v > c] for a float literal [c]. *)
Definition eq_float (v : json) (c : Q) : bool :=
  match num v with
  | Some x => Qeq_bool x c
  | None => false
  end.

Definition gt_float (v : json) (c : Q) : result bool :=
  match num v with
  | Some x => Ok (negb (Qle_bool x c))
  | None => Raise TypeError
  end.

(** [d.values()] *)
Definition values (d : json) : result (list json) :=
  its <~ items d ;;
  Ok (List.map snd its).

Section Insights.
Context `{Interpreter}.

(** [[k.replace('_', ' ').title() for k, v in traits.items() if v > 0.7]] *)
Fixpoint high_traits (its : list (str * json)) : result (list str) :=
  match its with
  | [] => Ok []
  | (k, v) :: rest =>
      high <~ gt_float v seven_tenths ;;
      others <~ high_traits rest ;;
      Ok (if high : bool
          then str_title (replace k (lit "_") (lit " ")) :: others
          else others)
  end.

Definition _format_personality_type (profile : json) : result str :=
  traits <~ get profile (lit "personality_traits") (JObj []) ;;
  unknown <~
    (if negb (truthy traits) then Ok true
     else
       vs <~ values traits ;;
       Ok (forallb (fun v => eq_float v half) vs)) ;;
  if unknown : bool then Ok (lit "Still learning about you...")
  else
    its <~ items traits ;;
    high <~ high_traits its ;;
    match high with
    | [] => Ok (lit "Balanced learner")
    | _ :: _ =>
        Ok (lit "You show strong " ++ join (lit ", ") (firstn 2 high))
    end.

Definition no_insights : json :=
  JObj [(lit "has_insights", JBool false);
        (lit "message",
         JStr (lit "Chat with me more to unlock personalized insights!"))].

(** The dictionary [get_user_insights_for_ui] builds from the profile it
    got. *)
Definition insights_of (profile : json) : result json :=
  hidden <~
    (if negb (truthy profile) then Ok true
     else
       d <~ get profile (lit "data_available") JNull ;;
       Ok (negb (truthy d))) ;;
  if hidden : bool then Ok no_insights
  else
    resume_insights <~ get profile (lit "resume_insights") (JObj []) ;;
    personality_type <~ _format_personality_type profile ;;
    comm_style <~ get profile (lit "communication_style") (JObj []) ;;
    formality <~ get comm_style (lit "formality") (JStr (lit "mixed")) ;;
    topics <~ get profile (lit "topics_of_interest") (JArr []) ;;
    top <~ slice_to topics 3 ;;
    total <~ get resume_insights (lit "total_analyses") (JInt 0) ;;
    analysed <~ gt total 0 ;;
    resume_score <~
      (if analysed : bool
       then get resume_insights (lit "average_score") (JInt 0)
       else Ok JNull) ;;
    total_interactions <~ get profile (lit "total_interactions") (JInt 0) ;;
    Ok (JObj [(lit "has_insights", JBool true);
              (lit "personality_type", JStr personality_type);
              (lit "communication_preference", formality);
              (lit "topics_of_interest", top);
              (lit "resume_score", resume_score);
              (lit "total_interactions", total_interactions)]).

(** Returns the insights, or the exception raised, together with the
    chatbot, whose cache the call may have updated before raising. *)
Definition get_user_insights_for_ui (self : t) (username : str) (w : world)
  : result json * t * world :=
  match _get_cached_profile self username w with
  | (Ok (profile, self'), w') => (insights_of profile, self', w')
  | (Raise e, w') => (Raise e, self, w')
  end.

End Insights.

(** The chatbot's own code that the integration calls: [db] is the state of
    its database, [llm_invoke system user] the content of the answer of
    [self.llm.invoke] to the two messages, [count_messages] the length of
    [self._get_messages(chat_id)], [isoformat_now] the text of
    [datetime.now().isoformat()].  None of them is taken to raise. *)
Class Host (db : Type) : Type := {
  _get_chat_history : db -> str -> str;
  llm_invoke : str -> str -> str;
  _save_message_to_db : db -> str -> str -> str -> str -> db;
  count_messages : db -> str -> nat;
  isoformat_now : str
}.

(** The dictionary [chat_with_personalization] returns. *)
Record chat_reply : Type := {
  response : str;
  is_recommendation : bool;
  timestamp : str;
  personalized : json
}.

Definition resume_keywords : list str :=
  [lit "resume"; lit "cv"; lit "my application"; lit "job application";
   lit "my profile"; lit "career"; lit "how am i doing"].

(** [any(keyword in user_message.lower() for keyword in resume_keywords)] *)
Definition asks_about_resume `{Interpreter} (user_message : str) : bool :=
  existsb (fun keyword => contains keyword (str_lower user_message))
    resume_keywords.

Definition system_prompt (personalization_context chat_history : str)
  : str :=
  let nl := PersonalizationHelper.nl in
  lit "You are a friendly, helpful academic advisor chatbot for Indian students."
  ++ [nl; nl] ++ personalization_context ++ [nl; nl]
  ++ lit "IMPORTANT: Use the personalization insights above to:" ++ [nl]
  ++ lit "1. Match the user's communication style (formal/casual)" ++ [nl]
  ++ lit "2. Adjust explanation depth based on their skill levels" ++ [nl]
  ++ lit "3. Reference their topics of interest when relevant" ++ [nl]
  ++ lit "4. Provide recommendations aligned with their personality traits"
  ++ [nl]
  ++ lit "5. Be aware of their resume performance if applicable" ++ [nl; nl]
  ++ lit "Guidelines:" ++ [nl]
  ++ lit "- Be conversational and supportive" ++ [nl]
  ++ lit "- Provide actionable advice" ++ [nl]
  ++ lit "- Ask clarifying questions when needed" ++ [nl]
  ++ lit "- Reference past interactions naturally" ++ [nl; nl]
  ++ lit "Current conversation:" ++ [nl]
  ++ chat_history ++ [nl; nl]
  ++ lit "Respond to the user's message naturally and helpfully.".

(** [profile and profile.get("data_available")] decides whether the answer
    is adapted. *)
Definition adapted (assistant_response : str) (profile : json)
  : result str :=
  if truthy profile then
    d <~ get profile (lit "data_available") JNull ;;
    if truthy d then _adapt_response_style assistant_response profile
    else Ok assistant_response
  else Ok assistant_response.

(** [profile is not None and profile.get("data_available", False)] *)
Definition personalized_flag (profile : json) : result json :=
  match profile with
  | JNull => Ok (JBool false)
  | _ => get profile (lit "data_available") (JBool false)
  end.

(** Returns the reply, or the exception raised, with the chatbot and the
    database as the call left them. *)
Definition chat_with_personalization `{Formatter} `{Interpreter}
  {db : Type} `{Host db} (self : t) (store : db)
  (username user_message chat_id : str) (w : world)
  : result chat_reply * t * db * world :=
  if asks_about_resume user_message then
    match PersonalizationHelper.get_resume_summary_for_chat
            (personalization self) username w with
    | (Ok resume_summary, w1) =>
        (Ok {| response := resume_summary;
               is_recommendation := false;
               timestamp := isoformat_now;
               personalized := JBool true |}, self, store, w1)
    | (Raise e, w1) => (Raise e, self, store, w1)
    end
  else
    match PersonalizationHelper.build_personalization_context
            (personalization self) username w with
    | (Raise e, w1) => (Raise e, self, store, w1)
    | (Ok personalization_context, w1) =>
        let chat_history := _get_chat_history store chat_id in
        let assistant_response :=
          llm_invoke (system_prompt personalization_context chat_history)
            user_message in
        match _get_cached_profile self username w1 with
        | (Raise e, w2) => (Raise e, self, store, w2)
        | (Ok (profile, self1), w2) =>
            match adapted assistant_response profile with
            | Raise e => (Raise e, self1, store, w2)
            | Ok assistant_response =>
                let store1 :=
                  _save_message_to_db store chat_id username user_message
                    assistant_response in
                let message_count :=
                  Z.of_nat (count_messages store1 chat_id) in
                let w3 :=
                  if _should_update_profile username message_count
                  then snd (PersonalizationHelper.trigger_profile_update
                              (personalization self1) username w2)
                  else w2 in
                match personalized_flag profile with
                | Ok flag =>
                    (Ok {| response := assistant_response;
                           is_recommendation := false;
                           timestamp := isoformat_now;
                           personalized := flag |}, self1, store1, w3)
                | Raise e => (Raise e, self1, store1, w3)
                end
            end
        end
    end.

End EnhancedChatbot.

(* ===================================================================== *)
(** ** INTEGRATION_EXAMPLE.py: the endpoints and the module functions *)
(* ===================================================================== *)

Module Endpoints.

(** [GET /user/{username}/insights], on the chatbot the application holds. *)
Definition get_user_insights `{EnhancedChatbot.Interpreter}
  (chatbot : EnhancedChatbot.t) (username : str) (w : world)
  : json * EnhancedChatbot.t * world :=
  match EnhancedChatbot.get_user_insights_for_ui chatbot username w with
  | (Ok insights, chatbot', w') => (insights, chatbot', w')
  | (Raise e, chatbot', w') =>
      (JObj [(lit "has_insights", JBool false);
             (lit "error", JStr (EnhancedChatbot.exn_str e))],
       chatbot', w')
  end.

(** [GET /user/{username}/greeting] *)
Definition get_greeting `{Formatter} (chatbot : EnhancedChatbot.t)
  (username : str) : M json :=
  try_except
    (greeting <- EnhancedChatbot.get_personalized_greeting chatbot username ;;
     ret (JObj [(lit "greeting", JStr greeting)]))
    (fun _ =>
       ret (JObj [(lit "greeting",
                   JStr (lit "Hi " ++ username ++ lit "! "
                           ++ EnhancedChatbot.fallback_marker))])).

(** [safe_get_personalization]; every handler returns the empty dict. *)
Definition safe_get_personalization
  (personalization : PersonalizationHelper.t) (username : str) : M json :=
  try_except
    (profile <- PersonalizationHelper.get_user_profile personalization
                  username ;;
     ret (if truthy profile then profile else JObj []))
    (fun _ => ret (JObj [])).

End Endpoints.

(** The text [_adapt_response_style] returns for a profile whose formality is
    ["formal"], as the four replacements of that branch. *)
Definition formal_text (response : str) : str :=
  replace
    (replace
       (replace (replace response (lit "Hey") (lit "Hello"))
          (lit "!") (lit "."))
       (lit " gonna ") (lit " going to "))
    (lit " wanna ") (lit " want to ").

(** [profile["communication_style"]["formality"] == "formal"], evaluated the
    way [_adapt_response_style] reads it. *)
Definition is_formal (profile : json) : bool :=
  match
    (comm_style <~ get profile (lit "communication_style") (JObj []) ;;
     formality <~ get comm_style (lit "formality") (JStr (lit "mixed")) ;;
     Ok (eq_str formality (lit "formal")))
  with
  | Ok b => b
  | Raise _ => false
  end.

(** A profile of a user who writes formally. *)
Definition formal_profile : json :=
  JObj [(lit "data_available", JBool true);
        (lit "communication_style",
         JObj [(lit "formality", JStr (lit "formal"))])].

(** The reply the network gives to the next request. *)
Definition next_reply (w : world) : reply := net w (length (sent w)).

(** The number of requests issued between two worlds. *)
Definition requests_between (w w' : world) : nat :=
  (length (sent w') - length (sent w))%nat.

(** A profile typed as the data model describes the fields the greeting
    reads: [communication_style] and [resume_insights] are objects when
    present, [total_analyses] is a number, [topics_of_interest] a list. *)
Definition typed_for_greeting (profile : json) : bool :=
  match profile with
  | JObj fs =>
      match lookup (lit "communication_style") fs with
      | None | Some (JObj _) => true
      | Some _ => false
      end
      && match lookup (lit "resume_insights") fs with
         | None => true
         | Some (JObj ri) =>
             match lookup (lit "total_analyses") ri with
             | None => true
             | Some v => is_number v
             end
         | Some _ => false
         end
      && match lookup (lit "topics_of_interest") fs with
         | None | Some (JArr _) => true
         | Some _ => false
         end
  | _ => false
  end.

(** *** Sample data *)

(** A formatter that writes integers in decimal. *)
Definition sample_format : Formatter :=
  {| py_str := fun v =>
       match v with
       | JInt z => lit (NilZero.string_of_int (Z.to_int z))
       | JBool true => lit "True"
       | JBool false => lit "False"
       | JNull => lit "None"
       | _ => lit "..."
       end;
     fmt_2f := fun v =>
       match v with
       | JInt z => lit (NilZero.string_of_int (Z.to_int z)) ++ lit ".00"
       | _ => lit "..."
       end |}.

(** A world that answers the successive requests with [replies], then with
    connection errors, and whose clock advances 100 seconds per reading. *)
Definition sample_world (replies : list reply) : world :=
  {| net := fun n => nth n replies (Failed ConnectionError);
     sent := [];
     clock := fun n => Float.of_int (100 * Z.of_nat n);
     reads := 0 |}.

Definition sample_helper : PersonalizationHelper.t :=
  PersonalizationHelper.init PersonalizationHelper.default_api_url.

(** A profile the service returns before it has data on the user. *)
Definition new_user_fields : list (str * json) :=
  [(lit "username", JStr (lit "asha"));
   (lit "data_available", JBool false);
   (lit "total_interactions", JInt 7)].

Definition new_user_profile : json := JObj new_user_fields.

(** A profile without resume insights, and one with no analysis yet. *)
Definition no_insights_profile : json :=
  JObj [(lit "username", JStr (lit "asha"));
        (lit "data_available", JBool true)].

Definition zero_analyses_profile : json :=
  JObj [(lit "username", JStr (lit "asha"));
        (lit "data_available", JBool true);
        (lit "resume_insights", JObj [(lit "total_analyses", JInt 0)])].

(** The profile and the report of the summary scenario of the
    specification. *)
Definition scenario_profile : json :=
  JObj [(lit "data_available", JBool true);
        (lit "communication_style",
         JObj [(lit "formality", JStr (lit "formal"))]);
        (lit "topics_of_interest", JArr [JStr (lit "ml"); JStr (lit "ai")]);
        (lit "resume_insights",
         JObj [(lit "total_analyses", JInt 3);
               (lit "average_score", JInt 82);
               (lit "latest_score", JInt 85);
               (lit "improvement_trend", JStr (lit "Improving"))])].

Definition scenario_world : world :=
  sample_world [Response 200 (Some scenario_profile); Response 500 None].

(** Four successive calls of [_get_cached_profile] for one username, with
    the number of requests they issued. *)
Definition four_cached_calls (bot : EnhancedChatbot.t) (username : str)
  (w : world) : list json * nat :=
  match
    (r1 <- EnhancedChatbot._get_cached_profile bot username ;;
     r2 <- EnhancedChatbot._get_cached_profile (snd r1) username ;;
     r3 <- EnhancedChatbot._get_cached_profile (snd r2) username ;;
     r4 <- EnhancedChatbot._get_cached_profile (snd r3) username ;;
     ret [fst r1; fst r2; fst r3; fst r4]) w
  with
  | (Ok ps, w') => (ps, requests_between w w')
  | (Raise _, w') => ([], requests_between w w')
  end.

(** The text [_adapt_response_style] returns for a profile whose formality is
    ["casual"]. *)
Definition casual_text (response : str) : str :=
  let response := replace response (lit "Hello") (lit "Hey") in
  if negb (contains (lit "!") response) && (50 <? length response)%nat
  then response ++ lit " " ++ EnhancedChatbot.casual_marker
  else response.

(** [profile["communication_style"]["formality"]], with the defaults of the
    two [get]s. *)
Definition formality_of (profile : json) : result json :=
  comm_style <~ get profile (lit "communication_style") (JObj []) ;;
  get comm_style (lit "formality") (JStr (lit "mixed")).

Definition is_casual (profile : json) : bool :=
  match formality_of profile with
  | Ok f => eq_str f (lit "casual")
  | Raise _ => false
  end.

Definition casual_profile : json :=
  JObj [(lit "data_available", JBool true);
        (lit "communication_style",
         JObj [(lit "formality", JStr (lit "casual"))])].

(** Every profile the cache holds is truthy. *)
Definition cache_sound (bot : EnhancedChatbot.t) : Prop :=
  forall username profile timestamp,
    EnhancedChatbot.profile_cache bot !! username
    = Some (profile, timestamp) ->
    truthy profile = true.

(** The chatbot and the world a call of [_get_cached_profile] leaves. *)
Definition bot_after (bot : EnhancedChatbot.t) (username : str) (w : world)
  : EnhancedChatbot.t :=
  match fst (EnhancedChatbot._get_cached_profile bot username w) with
  | Ok (_, bot') => bot'
  | Raise _ => bot
  end.

Definition world_after (bot : EnhancedChatbot.t) (username : str)
  (w : world) : world :=
  snd (EnhancedChatbot._get_cached_profile bot username w).

(** An interpreter that maps the case of ASCII letters only. *)
Definition ascii_lower (c : char) : char :=
  if (65 <=? c)%N && (c <=? 90)%N then (c + 32)%N else c.

Definition ascii_upper (c : char) : char :=
  if (97 <=? c)%N && (c <=? 122)%N then (c - 32)%N else c.

Definition ascii_letter (c : char) : bool :=
  ((65 <=? c)%N && (c <=? 90)%N) || ((97 <=? c)%N && (c <=? 122)%N).

Fixpoint ascii_title (inside : bool) (s : str) : str :=
  match s with
  | [] => []
  | c :: s' =>
      (if inside then ascii_lower c else ascii_upper c)
        :: ascii_title (ascii_letter c) s'
  end.

Definition sample_interpreter : EnhancedChatbot.Interpreter :=
  {| EnhancedChatbot.str_title := ascii_title false;
     EnhancedChatbot.str_lower := List.map ascii_lower;
     EnhancedChatbot.exn_str := fun e =>
       match e with
       | AttributeError => lit "AttributeError"
       | TypeError => lit "TypeError"
       | KeyError => lit "KeyError"
       | IndexError => lit "IndexError"
       end |}.

(** A host whose database is the list of saved messages, and whose model
    always gives the same answer. *)
Definition sample_host : EnhancedChatbot.Host (list (str * str)) :=
  {| EnhancedChatbot._get_chat_history := fun _ _ => [];
     EnhancedChatbot.llm_invoke := fun _ _ =>
       lit "Hey! We are gonna look at colleges.";
     EnhancedChatbot._save_message_to_db := fun store _ _ message answer =>
       store ++ [(message, answer)];
     EnhancedChatbot.count_messages := fun store _ => length store;
     EnhancedChatbot.isoformat_now := lit "2025-01-01T00:00:00" |}.

(** A chatbot that cached a profile at time 0, and a world 400 seconds later
    in which the service does not answer. *)
Definition warm_bot : EnhancedChatbot.t :=
  bot_after EnhancedChatbot.init (lit "asha")
    (sample_world [Response 200 (Some new_user_profile)]).

Definition offline_world : world :=
  {| net := fun _ => Failed Timeout;
     sent := [];
     clock := fun _ => Float.of_int 400;
     reads := 0 |}.

(** Whether the fields [fs] of a profile record at least one resume
    analysis. *)
Definition has_analyses (fs : list (str * json)) : bool :=
  match lookup (lit "resume_insights") fs with
  | Some (JObj ri) =>
      match lookup (lit "total_analyses") ri with
      | Some v =>
          match gt v 0 with
          | Ok b => b
          | Raise _ => false
          end
      | None => false
      end
  | _ => false
  end.

(** The two requests of the helper's fetching methods. *)
Definition profile_request (self : PersonalizationHelper.t) (username : str)
  : request :=
  {| rq_method := GET;
     rq_url := PersonalizationHelper.api_url self ++ lit "/user/"
               ++ username ++ lit "/profile";
     rq_timeout := 5 |}.

Definition report_request (self : PersonalizationHelper.t) (username : str)
  : request :=
  {| rq_method := GET;
     rq_url := PersonalizationHelper.api_url self ++ lit "/user/"
               ++ username ++ lit "/report";
     rq_timeout := 5 |}.

Definition update_request (self : PersonalizationHelper.t) (username : str)
  : request :=
  {| rq_method := POST;
     rq_url := PersonalizationHelper.api_url self ++ lit "/user/"
               ++ username ++ lit "/update";
     rq_timeout := 10 |}.

Definition scenario_fields : list (str * json) :=
  match scenario_profile with
  | JObj fs => fs
  | _ => []
  end.

(** A profile of a user with two marked traits and one that is not. *)
Definition traits_fields : list (str * json) :=
  [(lit "data_available", JBool true);
   (lit "personality_traits",
    JObj [(lit "openness", JFloat (3 # 4));
          (lit "risk_taking", JFloat (1 # 2));
          (lit "curiosity", JInt 1)])].

(** The parts of what [chat_with_personalization] leaves. *)
Definition chat_result {db : Type}
  (out : result EnhancedChatbot.chat_reply * EnhancedChatbot.t * db * world)
  : result EnhancedChatbot.chat_reply := fst (fst (fst out)).

Definition chat_bot {db : Type}
  (out : result EnhancedChatbot.chat_reply * EnhancedChatbot.t * db * world)
  : EnhancedChatbot.t := snd (fst (fst out)).

Definition chat_store {db : Type}
  (out : result EnhancedChatbot.chat_reply * EnhancedChatbot.t * db * world)
  : db := snd (fst out).

Definition chat_world {db : Type}
  (out : result EnhancedChatbot.chat_reply * EnhancedChatbot.t * db * world)
  : world := snd out.

(** A chat call on the sample host, with an empty message store. *)
Definition sample_chat (bot : EnhancedChatbot.t) (user_message : str)
  (w : world)
  : result EnhancedChatbot.chat_reply * EnhancedChatbot.t
    * list (str * str) * world :=
  @EnhancedChatbot.chat_with_personalization sample_format
    sample_interpreter (list (str * str)) sample_host bot []
    (lit "asha") user_message (lit "chat-1") w.

Definition formal_world : world :=
  sample_world [Response 200 (Some formal_profile);
                Response 200 (Some formal_profile)].

Definition formal_fields : list (str * json) :=
  match formal_profile with
  | JObj fs => fs
  | _ => []
  end.

(** A world whose service answers every request with an empty list. *)
Definition empty_list_world : world :=
  sample_world [Response 200 (Some (JArr [])); Response 200 (Some (JArr []))].

(** [v / 2 ^ k], rounded to the nearest integer, a tie to the even one. *)
Definition rne (v k : Z) : Z :=
  let q := (v / 2 ^ k)%Z in
  match (2 * (v mod 2 ^ k) ?= 2 ^ k)%Z with
  | Lt => q
  | Eq => if Z.even q then q else (q + 1)%Z
  | Gt => (q + 1)%Z
  end.

(** A natural number rounded to 53 significant bits. *)
Definition round53 (v : Z) : Z :=
  let k := Z.max (Z.log2 v - 52) 0 in (rne v k * 2 ^ k)%Z.

Definition round_signed (d : Z) : Z :=
  if (d <? 0)%Z then (- round53 (- d))%Z else round53 d.

(** The value of a float that is a number, in units of [2 ^ -1074], the
    least positive float. *)
Definition scaled (x : Float.float) : Z :=
  match x with
  | S754_finite s m e => (cond_Zopp s (Zpos m) * 2 ^ (e + 1074))%Z
  | _ => 0%Z
  end.

(** The float [r] has the sign [sx] and the magnitude [rs], in units of
    [2 ^ -1074]; a magnitude from [2 ^ 1024] on is infinite. *)
Definition rounds_to (sx : bool) (rs : Z) (r : Float.float) : Prop :=
  match r with
  | S754_zero s => s = sx /\ rs = 0%Z
  | S754_infinity s => s = sx /\ (2 ^ 2098 <= rs)%Z
  | S754_finite s m e =>
      s = sx /\ (-1074 <= e)%Z /\ (Zpos m * 2 ^ (e + 1074))%Z = rs
  | S754_nan => False
  end.

(** The float [2 ** -60], and a world whose clock reads it and then 300.0:
    less than 300 seconds apart. *)
Definition two_pow_minus_60 : Float.float :=
  S754_finite false 4503599627370496 (-112).

Definition rounding_world (replies : list reply) : world :=
  {| net := fun n => nth n replies (Failed ConnectionError);
     sent := [];
     clock := fun n =>
       match n with
       | O => two_pow_minus_60
       | S _ => Float.of_int 300
       end;
     reads := 0 |}.

(* ===================================================================== *)
(** ** Facts about strings *)
(* ===================================================================== *)

Section StrFacts.

(** Brings both sides of an equation between concatenations to the same
    right-nested form. *)
Ltac app_norm :=
  repeat first [rewrite <- app_assoc | rewrite app_nil_r | progress simpl].

Lemma starts_with_app (p t : str) : starts_with p (p ++ t) = true.
Proof.
  induction p as [|a p IH]; simpl; [reflexivity|].
  rewrite N.eqb_refl. exact IH.
Qed.

Lemma starts_with_inv (p s : str) :
  starts_with p s = true -> exists t, s = p ++ t.
Proof.
  revert s. induction p as [|a p IH]; intros s Hs.
  - exists s. reflexivity.
  - destruct s as [|b s]; simpl in Hs; [discriminate|].
    apply andb_prop in Hs. destruct Hs as [Hab Hs].
    apply N.eqb_eq in Hab. subst b.
    destruct (IH s Hs) as [t Ht]. exists t. simpl. congruence.
Qed.

Lemma contains_prefix (p s : str) :
  starts_with p s = true -> contains p s = true.
Proof. intros H. destruct s; simpl; rewrite H; reflexivity. Qed.

Lemma contains_intro (p a b : str) : contains p (a ++ p ++ b) = true.
Proof.
  induction a as [|c a IH]; simpl.
  - apply contains_prefix, starts_with_app.
  - rewrite IH. apply orb_true_r.
Qed.

Lemma contains_inv (p s : str) :
  contains p s = true -> exists a b, s = a ++ p ++ b.
Proof.
  induction s as [|c s IH]; simpl; intros H.
  - rewrite orb_false_r in H. apply starts_with_inv in H.
    destruct H as [t Ht]. exists [], t. exact Ht.
  - apply orb_prop in H. destruct H as [H|H].
    + apply starts_with_inv in H. destruct H as [t Ht].
      exists [], t. exact Ht.
    + destruct (IH H) as (a & b & Hab). exists (c :: a), b.
      simpl. congruence.
Qed.

Lemma contains_false (p s : str) :
  contains p s = false -> forall a b, s <> a ++ p ++ b.
Proof.
  intros H a b E. subst s. rewrite contains_intro in H. discriminate.
Qed.

Lemma not_contains (p s : str) :
  (forall a b, s <> a ++ p ++ b) -> contains p s = false.
Proof.
  intros H. destruct (contains p s) eqn:E; [|reflexivity].
  apply contains_inv in E. destruct E as (a & b & E).
  exfalso. exact (H a b E).
Qed.

(** An occurrence in a part is an occurrence in the whole. *)
Lemma contains_app (p x s y : str) :
  contains p s = true -> contains p (x ++ s ++ y) = true.
Proof.
  intros H. apply contains_inv in H. destruct H as (a & b & ->).
  replace (x ++ (a ++ p ++ b) ++ y) with ((x ++ a) ++ p ++ (b ++ y)).
  - apply contains_intro.
  - rewrite <- !app_assoc. reflexivity.
Qed.

Lemma contains_app_l (p s y : str) :
  contains p s = true -> contains p (s ++ y) = true.
Proof. intros H. exact (contains_app p [] s y H). Qed.

Lemma contains_app_r (p x s : str) :
  contains p s = true -> contains p (x ++ s) = true.
Proof.
  intros H. pose proof (contains_app p x s [] H) as H'.
  rewrite app_nil_r in H'. exact H'.
Qed.

Lemma contains_inner (p x y s : str) :
  contains (x ++ p ++ y) s = true -> contains p s = true.
Proof.
  intros H. apply contains_inv in H. destruct H as (a & b & ->).
  replace (a ++ (x ++ p ++ y) ++ b) with ((a ++ x) ++ p ++ (y ++ b)).
  - apply contains_intro.
  - rewrite <- !app_assoc. reflexivity.
Qed.

Lemma contains_shorter (p s : str) :
  (length s < length p)%nat -> contains p s = false.
Proof.
  intros Hlen. apply not_contains. intros a b E.
  apply (f_equal (@length _)) in E. rewrite !length_app in E. lia.
Qed.

Lemma agree_app (x y r r' : str) : x ++ r = y ++ r' -> agree x y = true.
Proof.
  revert y. induction x as [|c x IH]; intros [|d y] E; simpl; try reflexivity.
  simpl in E. injection E as -> E. rewrite N.eqb_refl. exact (IH y E).
Qed.

Lemma skipn_length_app (l l' : str) : skipn (length l) (l ++ l') = l'.
Proof. induction l as [|c l IH]; simpl; [reflexivity|exact IH]. Qed.

Lemma can_touch_inside (q l l' : str) :
  l' <> [] -> agree l' q = true -> can_touch q (l ++ l') = true.
Proof.
  intros Hne Hag. unfold can_touch. apply orb_true_intro. left.
  apply existsb_exists. exists (length l). split.
  - apply in_seq. rewrite length_app. destruct l'; [congruence|].
    simpl. lia.
  - rewrite skipn_length_app. exact Hag.
Qed.

Lemma can_touch_before (w l l' : str) :
  l <> [] -> l' <> [] -> agree w l' = true -> can_touch (l ++ l') w = true.
Proof.
  intros Hl Hl' Hag. unfold can_touch. apply orb_true_intro. right.
  apply existsb_exists. exists (length l). split.
  - apply in_seq. rewrite length_app.
    destruct l; [congruence|]. destruct l'; [congruence|]. simpl. lia.
  - rewrite skipn_length_app. exact Hag.
Qed.

(** When [q] cannot touch [w], an occurrence of [q] in [l ++ w ++ r] lies
    within [l] or within [r]. *)
Lemma no_touch (q w l r a b : str) :
  can_touch q w = false ->
  l ++ w ++ r = a ++ q ++ b ->
  (exists c, l = a ++ q ++ c /\ b = c ++ w ++ r) \/
  (exists c, r = c ++ q ++ b /\ a = l ++ w ++ c).
Proof.
  intros Hct E.
  apply app_eq_inv in E. destruct E as [(k & -> & E)|(k & -> & E)].
  - (* the occurrence starts within [l] *)
    apply app_eq_inv in E. destruct E as [(k' & -> & E)|(k' & -> & ->)].
    + destruct k' as [|c k'].
      * left. exists []. simpl in E. subst b. rewrite !app_nil_r. auto.
      * pose proof (agree_app _ _ _ _ E) as Hag.
        destruct k as [|c0 k].
        -- destruct w as [|x w].
           ++ right. exists []. simpl in E. subst r.
              rewrite !app_nil_r. auto.
           ++ exfalso.
              pose proof (can_touch_inside (c :: k') [] (x :: w)) as Hc.
              simpl in Hc, Hct. rewrite Hc in Hct;
                [discriminate|congruence|exact Hag].
        -- exfalso.
           rewrite (can_touch_before w (c0 :: k) (c :: k')) in Hct;
             [discriminate|congruence|congruence|exact Hag].
    + left. exists k'. auto.
  - (* the occurrence starts at or after the first character of [w] *)
    apply app_eq_inv in E. destruct E as [(k' & -> & E)|(k' & -> & ->)].
    + destruct k' as [|c k'].
      * right. exists []. simpl in E. subst r. rewrite !app_nil_r. auto.
      * exfalso. symmetry in E. pose proof (agree_app _ _ _ _ E) as Hag.
        rewrite (can_touch_inside q k (c :: k')) in Hct;
          [discriminate|congruence|exact Hag].
    + right. exists k'. auto.
Qed.

(** The same for [contains]. *)
Lemma contains_no_touch (q w l r : str) :
  can_touch q w = false ->
  contains q (l ++ w ++ r) = true ->
  contains q l = true \/ contains q r = true.
Proof.
  intros Hct H. apply contains_inv in H. destruct H as (a & b & E).
  destruct (no_touch q w l r a b Hct E) as [(c & -> & _)|(c & -> & _)].
  - left. apply contains_intro.
  - right. apply contains_intro.
Qed.

Lemma starts_with_app_l (p x y : str) :
  starts_with p x = true -> starts_with p (x ++ y) = true.
Proof.
  intros H. apply starts_with_inv in H. destruct H as [t ->].
  rewrite <- app_assoc. apply starts_with_app.
Qed.

Lemma starts_with_longer (p x y : str) :
  (length p <= length x)%nat ->
  starts_with p (x ++ y) = true -> starts_with p x = true.
Proof.
  revert x. induction p as [|a p IH]; intros x Hlen H; [reflexivity|].
  destruct x as [|b x]; simpl in Hlen; [lia|].
  simpl in *. apply andb_prop in H. destruct H as [-> H]. simpl.
  apply IH; [lia|exact H].
Qed.

Lemma replace_from_skip (old new : str) (k : nat) (s : str) :
  replace_from old new k s = replace_from old new 0 (skipn k s).
Proof.
  revert k. induction s as [|c s IH]; intros k.
  - destruct k; reflexivity.
  - destruct k as [|k]; [reflexivity|]. simpl. apply IH.
Qed.

Lemma replace_from_match (old new rest : str) :
  old <> [] ->
  replace_from old new 0 (old ++ rest) = new ++ replace_from old new 0 rest.
Proof.
  intros Hne. destruct old as [|c o]; [congruence|].
  change ((c :: o) ++ rest) with (c :: (o ++ rest)).
  cbn [replace_from]. change (c :: o ++ rest) with ((c :: o) ++ rest).
  rewrite starts_with_app. f_equal.
  rewrite replace_from_skip. simpl. rewrite Nat.sub_0_r.
  rewrite skipn_length_app. reflexivity.
Qed.

Lemma replace_from_none (old new s : str) :
  old <> [] -> contains old s = false -> replace_from old new 0 s = s.
Proof.
  intros Hne. induction s as [|c s IH]; intros H; [reflexivity|].
  simpl in H. apply orb_false_elim in H. destruct H as [H1 H2].
  cbn [replace_from]. rewrite H1. f_equal. exact (IH H2).
Qed.

Lemma replace_from_first (old new u rest : str) :
  old <> [] ->
  contains old (u ++ removelast old) = false ->
  replace_from old new 0 (u ++ old ++ rest)
  = u ++ new ++ replace_from old new 0 rest.
Proof.
  intros Hne. induction u as [|c u IH]; intros H.
  - simpl. apply replace_from_match. exact Hne.
  - change ((c :: u) ++ removelast old) with (c :: (u ++ removelast old))
      in H.
    cbn [contains] in H. apply orb_false_elim in H. destruct H as [H1 H2].
    change ((c :: u) ++ old ++ rest) with (c :: (u ++ old ++ rest)).
    cbn [replace_from].
    destruct (starts_with old (c :: u ++ old ++ rest)) eqn:Hs.
    + exfalso.
      pose proof (app_removelast_last sp Hne) as Eo.
      assert (E : c :: u ++ old ++ rest
                  = (c :: u ++ removelast old) ++ [List.last old sp] ++ rest).
      { simpl. rewrite <- !app_assoc. f_equal. f_equal.
        rewrite Eo at 1. rewrite <- app_assoc. reflexivity. }
      rewrite E in Hs. apply starts_with_longer in Hs.
      * rewrite Hs in H1. discriminate.
      * apply (f_equal (@length _)) in Eo. rewrite length_app in Eo.
        simpl in *. rewrite length_app. lia.
    + simpl. f_equal. exact (IH H2).
Qed.

(** A string that contains [old] splits at its first occurrence. *)
Lemma first_occurrence (old s : str) :
  old <> [] -> contains old s = true ->
  exists u rest,
    s = u ++ old ++ rest /\ contains old (u ++ removelast old) = false.
Proof.
  intros Hne. induction s as [|c s IH]; intros H.
  - simpl in H. rewrite orb_false_r in H. destruct old; [congruence|].
    discriminate.
  - destruct (starts_with old (c :: s)) eqn:Hs.
    + apply starts_with_inv in Hs. destruct Hs as [rest E].
      exists [], rest. split; [exact E|]. simpl.
      apply contains_shorter.
      rewrite (app_removelast_last sp Hne) at 2.
      rewrite length_app. simpl. lia.
    + simpl in H. rewrite Hs in H. simpl in H.
      destruct (IH H) as (u & rest & -> & Hu).
      exists (c :: u), rest. split; [reflexivity|].
      change ((c :: u) ++ removelast old) with (c :: (u ++ removelast old)).
      cbn [contains]. rewrite Hu, orb_false_r.
      destruct (starts_with old (c :: u ++ removelast old)) eqn:Hs';
        [|reflexivity].
      exfalso.
      pose proof (app_removelast_last sp Hne) as Eo.
      apply (starts_with_app_l _ _ ([List.last old sp] ++ rest)) in Hs'.
      assert (E : (c :: u ++ removelast old) ++ [List.last old sp] ++ rest
                  = c :: u ++ old ++ rest).
      { simpl. rewrite <- !app_assoc. f_equal. f_equal.
        symmetry. rewrite Eo at 1. rewrite <- app_assoc. reflexivity. }
      rewrite E in Hs'. rewrite Hs in Hs'. discriminate.
Qed.

Lemma replace_nonempty (s old new : str) :
  old <> [] -> replace s old new = replace_from old new 0 s.
Proof. intros Hne. destruct old; [congruence|reflexivity]. Qed.

(** Reasoning on [replace] by the occurrences it rewrites: a string without
    [old] is returned as it is, otherwise the part before the first
    occurrence is kept, [new] is written, and the rest is processed. *)
Lemma replace_ind (old new : str) (P : str -> str -> Prop) :
  old <> [] ->
  (forall s, contains old s = false -> P s s) ->
  (forall u rest out,
      contains old (u ++ removelast old) = false ->
      P rest out -> P (u ++ old ++ rest) (u ++ new ++ out)) ->
  forall s, P s (replace s old new).
Proof.
  intros Hne Hnone Hstep s. rewrite (replace_nonempty _ _ _ Hne).
  remember (length s) as n eqn:Hn. revert s Hn.
  induction n as [n IH] using lt_wf_ind. intros s Hn.
  destruct (contains old s) eqn:Hc.
  - destruct (first_occurrence old s Hne Hc) as (u & rest & -> & Hu).
    rewrite (replace_from_first _ _ _ _ Hne Hu).
    apply Hstep; [exact Hu|].
    apply (IH (length rest)); [|reflexivity].
    subst n. rewrite !length_app. destruct old; [congruence|]. simpl. lia.
  - rewrite (replace_from_none _ _ _ Hne Hc). apply Hnone. exact Hc.
Qed.

Lemma replace_none (s old new : str) :
  old <> [] -> contains old s = false -> replace s old new = s.
Proof.
  intros Hne H. rewrite (replace_nonempty _ _ _ Hne).
  apply replace_from_none; assumption.
Qed.

(** A replacement whose [new] text cannot touch [q] creates no occurrence
    of [q]. *)
Lemma contains_replace (q s old new : str) :
  old <> [] -> can_touch q new = false ->
  contains q (replace s old new) = true -> contains q s = true.
Proof.
  intros Hne Hct. revert s.
  apply (replace_ind old new
           (fun s out => contains q out = true -> contains q s = true) Hne).
  - intros s _ H. exact H.
  - intros u rest out _ IH H.
    destruct (contains_no_touch q new u out Hct H) as [Hu|Ho].
    + apply contains_app_l. exact Hu.
    + rewrite app_assoc. apply contains_app_r. exact (IH Ho).
Qed.

Lemma replace_keeps_absent (q s old new : str) :
  old <> [] -> can_touch q new = false ->
  contains q s = false -> contains q (replace s old new) = false.
Proof.
  intros Hne Hct H. destruct (contains q (replace s old new)) eqn:E;
    [|reflexivity].
  apply contains_replace in E; [congruence|exact Hne|exact Hct].
Qed.

(** A replacement whose [new] text cannot touch [old] leaves no [old]. *)
Lemma replace_removes (s old new : str) :
  old <> [] -> can_touch old new = false ->
  contains old (replace s old new) = false.
Proof.
  intros Hne Hct. revert s.
  apply (replace_ind old new (fun _ out => contains old out = false) Hne).
  - intros s H. exact H.
  - intros u rest out Hu IH.
    destruct (contains old (u ++ new ++ out)) eqn:E; [|reflexivity].
    destruct (contains_no_touch old new u out Hct E) as [H|H].
    + apply (contains_app_l _ _ (removelast old)) in H. congruence.
    + congruence.
Qed.

Lemma starts_sp_app (x y : str) : starts_sp x -> starts_sp (x ++ y).
Proof. intros [x' ->]. exists (x' ++ y). reflexivity. Qed.

Lemma starts_sp_app_inv (x y : str) :
  x <> [] -> starts_sp (x ++ y) -> starts_sp x.
Proof.
  intros Hne [b E]. destruct x as [|c x]; [congruence|].
  simpl in E. injection E as -> _. exists x. reflexivity.
Qed.

Lemma ends_sp_app (x y : str) : ends_sp y -> ends_sp (x ++ y).
Proof. intros [y' ->]. exists (x ++ y'). apply app_assoc. Qed.

Lemma ends_sp_app_inv (x y : str) :
  y <> [] -> ends_sp (x ++ y) -> ends_sp y.
Proof.
  intros Hne [a E].
  destruct (exists_last Hne) as (y' & z & ->).
  rewrite app_assoc in E. apply app_inj_tail in E. destruct E as [_ ->].
  exists y'. reflexivity.
Qed.

Lemma delimited_weaken (q : str) (B B' : Prop) (s : str) :
  (B -> B') -> delimited q B s -> delimited q B' s.
Proof.
  intros HB H a b E. destruct (H a b E) as [[Ha|[Ha Hb]] Hs]; split; auto.
Qed.

(** The executable check implies the property on decompositions. *)
Lemma spaced_sound (q : str) (before : bool) (s : str) :
  q <> [] -> spaced q before s = true -> delimited q (before = true) s.
Proof.
  intros Hq. revert before. induction s as [|c s IH]; intros before H a b E.
  - destruct a; [|discriminate]. destruct q; [congruence|discriminate].
  - cbn [spaced] in H. apply andb_prop in H. destruct H as [H1 H2].
    destruct a as [|c' a].
    + simpl in E. rewrite E in H1. rewrite starts_with_app in H1.
      cbn [negb orb] in H1. apply andb_prop in H1. destruct H1 as [-> H1].
      rewrite skipn_length_app in H1.
      split; [right; auto|].
      destruct b as [|x b]; [discriminate|]. cbn [starts_with] in H1.
      rewrite andb_true_r in H1. apply N.eqb_eq in H1. subst x.
      exists b. reflexivity.
    + simpl in E. injection E as <- E.
      destruct (IH _ H2 a b E) as [[Ha|[-> Hc]] Hs]; split; auto; left.
      * apply (ends_sp_app [c]). exact Ha.
      * apply N.eqb_eq in Hc. subst c. exists []. reflexivity.
Qed.

(** A replacement that cannot touch [q] and keeps a leading and a trailing
    space of the text it rewrites leaves the occurrences of [q] delimited. *)
Lemma delimited_replace (q old new : str) :
  old <> [] -> can_touch q new = false ->
  (starts_sp old -> starts_sp new) ->
  (ends_sp old -> ends_sp new) ->
  forall s (B : Prop),
    delimited q B s -> delimited q B (replace s old new).
Proof.
  intros Hne Hct Hfirst Hlast s.
  apply (replace_ind old new
           (fun s out => forall B : Prop,
                delimited q B s -> delimited q B out) Hne).
  - intros s0 _ B H. exact H.
  - intros u rest out _ IH B H.
    assert (Hrest : delimited q (ends_sp old) rest).
    { intros a b E.
      destruct (H (u ++ old ++ a) b) as [[Ha|[Ha _]] Hb].
      - rewrite E, <- !app_assoc. reflexivity.
      - split; [|exact Hb]. destruct a as [|x a].
        + right. split; [reflexivity|].
          rewrite app_nil_r in Ha. apply ends_sp_app_inv in Ha; auto.
        + left. rewrite app_assoc in Ha.
          apply ends_sp_app_inv in Ha; [exact Ha|congruence].
      - exfalso. destruct u; destruct old; try congruence; discriminate. }
    pose proof (IH _ Hrest) as Hout.
    intros a b E.
    destruct (no_touch q new u out a b Hct E) as [(c & -> & ->)|(c & -> & ->)].
    + destruct (H a (c ++ old ++ rest)) as [Ha Hb].
      { rewrite <- !app_assoc. reflexivity. }
      split; [exact Ha|]. destruct c as [|x c].
      * simpl in *. apply starts_sp_app, Hfirst.
        apply (starts_sp_app_inv old rest); assumption.
      * apply (starts_sp_app_inv (x :: c)) in Hb; [|congruence].
        apply starts_sp_app. exact Hb.
    + destruct (Hout c b eq_refl) as [[Hc|[-> Ho]] Hb]; split; auto; left.
      * rewrite app_assoc. apply ends_sp_app. exact Hc.
      * rewrite app_nil_r. apply ends_sp_app, Hlast, Ho.
Qed.

(** Replacing the word [q] between two spaces removes every [q] from a text
    in which [q] occurs only that way and never twice in a row. *)
Lemma replace_word_removes (q new s : str) :
  q <> [] -> can_touch q new = false ->
  delimited q False s ->
  contains (q ++ sp :: q) s = false ->
  contains q (replace s (sp :: q ++ [sp]) new) = false.
Proof.
  intros Hq Hct. revert s.
  assert (Hne : sp :: q ++ [sp] <> []) by discriminate.
  assert (Hrl : removelast (sp :: q ++ [sp]) = sp :: q).
  { change (sp :: q ++ [sp]) with ((sp :: q) ++ [sp]).
    apply removelast_last. }
  apply (replace_ind (sp :: q ++ [sp]) new
           (fun s out => delimited q False s ->
                         contains (q ++ sp :: q) s = false ->
                         contains q out = false) Hne).
  - intros s Hs Hd _.
    apply not_contains. intros a b E.
    destruct (Hd a b E) as [[[a' ->]|[_ []]] [b' ->]].
    subst s. apply (contains_false _ _ Hs a' b').
    simpl. rewrite <- !app_assoc. reflexivity.
  - intros u rest out Hu IH Hd Hdouble. rewrite Hrl in Hu.
    assert (Hrest : delimited q False rest).
    { intros a b E.
      destruct (Hd (u ++ (sp :: q ++ [sp]) ++ a) b) as [[Ha|[Ha _]] Hb].
      - rewrite E, <- !app_assoc. reflexivity.
      - split; [|exact Hb]. left. destruct a as [|x a].
        + exfalso. simpl in E. subst rest.
          apply (contains_false _ _ Hdouble (u ++ [sp]) b).
          simpl. rewrite <- !app_assoc. reflexivity.
        + rewrite app_assoc in Ha.
          apply ends_sp_app_inv in Ha; [exact Ha|congruence].
      - exfalso. destruct u; discriminate. }
    assert (Hdr : contains (q ++ sp :: q) rest = false).
    { destruct (contains (q ++ sp :: q) rest) eqn:E; [|reflexivity].
      rewrite app_assoc in Hdouble.
      apply (contains_app_r _ (u ++ sp :: q ++ [sp])) in E. congruence. }
    pose proof (IH Hrest Hdr) as Hout.
    destruct (contains q (u ++ new ++ out)) eqn:E; [|reflexivity].
    exfalso.
    destruct (contains_no_touch q new u out Hct E) as [H|H]; [|congruence].
    apply contains_inv in H. destruct H as (a & c & ->).
    destruct (Hd a (c ++ (sp :: q ++ [sp]) ++ rest)) as [[[a' ->]|[_ []]] Hb].
    { rewrite <- !app_assoc. reflexivity. }
    apply (contains_false _ _ Hu a'
             (match c with [] => q | _ :: c' => c' ++ sp :: q end)).
    destruct c as [|x c].
    + app_norm. reflexivity.
    + apply (starts_sp_app_inv (x :: c)) in Hb; [|congruence].
      destruct Hb as [c' Hc]. injection Hc as -> ->.
      app_norm. reflexivity.
Qed.

End StrFacts.

(* ===================================================================== *)
(** ** Formal-mode style adaptation *)
(* ===================================================================== *)

Section FormalMode.

Lemma replace_length (s old new : str) :
  old <> [] -> (length old < length new)%nat ->
  (length s <= length (replace s old new))%nat /\
  (contains old s = true -> (length s < length (replace s old new))%nat).
Proof.
  intros Hne Hlen. revert s.
  apply (replace_ind old new
           (fun s out => (length s <= length out)%nat /\
                         (contains old s = true ->
                          (length s < length out)%nat)) Hne).
  - intros s Hs. split; [lia|congruence].
  - intros u rest out _ [IH _]. rewrite !length_app. split; intros; lia.
Qed.

Lemma adapt_formal (response : str) (profile : json) :
  is_formal profile = true ->
  EnhancedChatbot._adapt_response_style response profile
  = Ok (formal_text response).
Proof.
  unfold is_formal, EnhancedChatbot._adapt_response_style, formal_text.
  destruct (get profile _ _) as [cs|]; cbn [rbind]; [|discriminate].
  destruct (get cs _ _) as [f|]; cbn [rbind]; [|discriminate].
  intros ->. reflexivity.
Qed.

Lemma formal_profile_is_formal : is_formal formal_profile = true.
Proof. reflexivity. Qed.

Lemma formal_no_hey (t : str) : contains (lit "Hey") (formal_text t) = false.
Proof.
  unfold formal_text.
  do 3 (apply replace_keeps_absent; [discriminate|reflexivity|]).
  apply replace_removes; [discriminate|reflexivity].
Qed.

Lemma formal_no_bang (t : str) : contains (lit "!") (formal_text t) = false.
Proof.
  unfold formal_text.
  do 2 (apply replace_keeps_absent; [discriminate|reflexivity|]).
  apply replace_removes; [discriminate|reflexivity].
Qed.

(** The first two replacements keep a word isolated. *)
Lemma isolated_prepared (q t : str) :
  q <> [] ->
  can_touch q (lit "Hello") = false -> can_touch q (lit ".") = false ->
  can_touch (q ++ sp :: q) (lit "Hello") = false ->
  can_touch (q ++ sp :: q) (lit ".") = false ->
  isolated q t = true ->
  let t2 := replace (replace t (lit "Hey") (lit "Hello")) (lit "!") (lit ".")
  in delimited q False t2 /\ contains (q ++ sp :: q) t2 = false.
Proof.
  intros Hq H1 H2 H3 H4 Hiso. unfold isolated in Hiso.
  apply andb_prop in Hiso. destruct Hiso as [Hsp Hdb].
  apply negb_true_iff in Hdb.
  apply (spaced_sound q false t Hq) in Hsp.
  apply (delimited_weaken q _ False) in Hsp; [|discriminate].
  split.
  - apply delimited_replace; [discriminate|exact H2| | |].
    + intros [b E]. discriminate.
    + intros [[|x [|y a]] E]; discriminate.
    + apply delimited_replace; [discriminate|exact H1| | |exact Hsp].
      * intros [b E]. discriminate.
      * intros [[|x [|y [|z [|z' a]]]] E]; discriminate.
  - apply replace_keeps_absent; [discriminate|exact H4|].
    apply replace_keeps_absent; [discriminate|exact H3|exact Hdb].
Qed.

(** On a text in which "gonna" and "wanna" are isolated words the formal
    text holds neither. *)
Lemma formal_clean (t : str) :
  isolated (lit "gonna") t = true -> isolated (lit "wanna") t = true ->
  contains (lit "gonna") (formal_text t) = false /\
  contains (lit "wanna") (formal_text t) = false.
Proof.
  intros Hg Hw.
  destruct (isolated_prepared (lit "gonna") t) as [Hgd Hgn];
    [discriminate|reflexivity..|exact Hg|].
  destruct (isolated_prepared (lit "wanna") t) as [Hwd Hwn];
    [discriminate|reflexivity..|exact Hw|].
  unfold formal_text.
  set (t2 := replace (replace t (lit "Hey") (lit "Hello")) (lit "!") (lit "."))
    in *.
  split.
  - apply replace_keeps_absent; [discriminate|reflexivity|].
    apply (replace_word_removes (lit "gonna") (lit " going to ") t2);
      [discriminate|reflexivity|exact Hgd|exact Hgn].
  - apply (replace_word_removes (lit "wanna") (lit " want to "));
      [discriminate|reflexivity| |].
    + apply delimited_replace; [discriminate|reflexivity| | |exact Hwd].
      * intros _. exists (lit "going to "). reflexivity.
      * intros _. exists (lit " going to"). reflexivity.
    + apply replace_keeps_absent; [discriminate|reflexivity|exact Hwn].
Qed.

(** A formal text is left as it is by a second pass exactly when it holds
    neither of the two space-delimited tokens. *)
Lemma formal_fixed_point (r : str) :
  contains (lit "Hey") r = false -> contains (lit "!") r = false ->
  (formal_text r = r <->
   contains (lit " gonna ") r = false /\ contains (lit " wanna ") r = false).
Proof.
  intros Hh Hb. unfold formal_text.
  rewrite (replace_none r (lit "Hey")); [|discriminate|exact Hh].
  rewrite (replace_none r (lit "!")); [|discriminate|exact Hb].
  split.
  - intros E.
    destruct (replace_length r (lit " gonna ") (lit " going to "))
      as [L1 L1']; [discriminate|simpl; lia|].
    destruct (replace_length (replace r (lit " gonna ") (lit " going to "))
                (lit " wanna ") (lit " want to "))
      as [L2 L2']; [discriminate|simpl; lia|].
    rewrite E in L2, L2'.
    assert (Hg : contains (lit " gonna ") r = false).
    { destruct (contains (lit " gonna ") r); [|reflexivity].
      specialize (L1' eq_refl). lia. }
    split; [exact Hg|].
    rewrite (replace_none r (lit " gonna ")) in L2';
      [|discriminate|exact Hg].
    destruct (contains (lit " wanna ") r); [|reflexivity].
    specialize (L2' eq_refl). lia.
  - intros [Hg Hw].
    rewrite (replace_none r (lit " gonna ")); [|discriminate|exact Hg].
    apply replace_none; [discriminate|exact Hw].
Qed.

End FormalMode.

(** C2, as the specification states it, fails: the text [" gonna gonna "]
    becomes [" going to gonna "], which a second pass turns into
    [" going to going to "]. *)
Lemma formal_mode_not_idempotent :
  ~ (forall (t : str) (profile : json) (r : str),
        is_formal profile = true ->
        EnhancedChatbot._adapt_response_style t profile = Ok r ->
        EnhancedChatbot._adapt_response_style r profile = Ok r).
Proof.
  intros H.
  specialize (H (lit " gonna gonna ") formal_profile
                (lit " going to gonna ") eq_refl eq_refl).
  vm_compute in H. discriminate.
Qed.

(** C2 (amended): for a profile whose formality is "formal", a second pass of
    [_adapt_response_style] returns the adapted text unchanged exactly when
    that text holds neither " gonna " nor " wanna "; this is the case for
    every input in which "gonna" and "wanna" occur only as isolated words
    (a space on each side, never twice in a row around a single space). *)
Theorem formal_mode_idempotent_on_isolated (t : str) (profile : json) :
  is_formal profile = true ->
  exists r,
    EnhancedChatbot._adapt_response_style t profile = Ok r /\
    (EnhancedChatbot._adapt_response_style r profile = Ok r <->
     contains (lit " gonna ") r = false /\
     contains (lit " wanna ") r = false) /\
    (isolated (lit "gonna") t = true -> isolated (lit "wanna") t = true ->
     EnhancedChatbot._adapt_response_style r profile = Ok r).
Proof.
  intros Hf. exists (formal_text t).
  split; [apply adapt_formal; exact Hf|].
  rewrite (adapt_formal _ _ Hf).
  pose proof (formal_fixed_point (formal_text t) (formal_no_hey t)
                (formal_no_bang t)) as Hfix.
  split.
  - split.
    + intros [= E]. apply Hfix. exact E.
    + intros E. f_equal. apply Hfix. exact E.
  - intros Hg Hw. f_equal. apply Hfix.
    destruct (formal_clean t Hg Hw) as [Cg Cw]. split.
    + destruct (contains (lit " gonna ") (formal_text t)) eqn:E;
        [|reflexivity].
      apply (contains_inner (lit "gonna") [sp] [sp]) in E. congruence.
    + destruct (contains (lit " wanna ") (formal_text t)) eqn:E;
        [|reflexivity].
      apply (contains_inner (lit "wanna") [sp] [sp]) in E. congruence.
Qed.

Lemma formal_mode_idempotent_witness :
  is_formal formal_profile = true /\
  exists r,
    EnhancedChatbot._adapt_response_style
      (lit "Hey! I am gonna go and you wanna stay") formal_profile = Ok r /\
    (EnhancedChatbot._adapt_response_style r formal_profile = Ok r <->
     contains (lit " gonna ") r = false /\
     contains (lit " wanna ") r = false) /\
    (isolated (lit "gonna") (lit "Hey! I am gonna go and you wanna stay")
     = true ->
     isolated (lit "wanna") (lit "Hey! I am gonna go and you wanna stay")
     = true ->
     EnhancedChatbot._adapt_response_style r formal_profile = Ok r).
Proof.
  split; [reflexivity|].
  apply (formal_mode_idempotent_on_isolated
           (lit "Hey! I am gonna go and you wanna stay") formal_profile).
  reflexivity.
Defined.

(** C3, as the specification states it, fails: a "gonna" that starts the
    text has no space before it and is kept. *)
Lemma formal_mode_leaves_gonna :
  ~ (forall (t : str) (profile : json) (r : str),
        is_formal profile = true ->
        EnhancedChatbot._adapt_response_style t profile = Ok r ->
        contains (lit "gonna") r = false /\
        contains (lit "wanna") r = false).
Proof.
  intros H.
  destruct (H (lit "gonna be late") formal_profile (lit "gonna be late")
              eq_refl eq_refl) as [H1 _].
  vm_compute in H1. discriminate.
Qed.

(** C3 (amended): for a profile whose formality is "formal" and an input in
    which "gonna" and "wanna" occur only as isolated words (a space on each
    side, never twice in a row around a single space), the text
    [_adapt_response_style] returns contains neither "gonna" nor "wanna". *)
Theorem formal_mode_removes_isolated (t : str) (profile : json) :
  is_formal profile = true ->
  isolated (lit "gonna") t = true ->
  isolated (lit "wanna") t = true ->
  exists r,
    EnhancedChatbot._adapt_response_style t profile = Ok r /\
    contains (lit "gonna") r = false /\
    contains (lit "wanna") r = false.
Proof.
  intros Hf Hg Hw. exists (formal_text t).
  split; [apply adapt_formal; exact Hf|].
  apply formal_clean; assumption.
Qed.

Lemma formal_mode_removes_witness :
  is_formal formal_profile = true /\
  isolated (lit "gonna") (lit "Hey! I am gonna go and you wanna stay") = true /\
  isolated (lit "wanna") (lit "Hey! I am gonna go and you wanna stay") = true /\
  exists r,
    EnhancedChatbot._adapt_response_style
      (lit "Hey! I am gonna go and you wanna stay") formal_profile = Ok r /\
    contains (lit "gonna") r = false /\
    contains (lit "wanna") r = false.
Proof.
  split; [reflexivity|]. split; [reflexivity|]. split; [reflexivity|].
  apply (formal_mode_removes_isolated
           (lit "Hey! I am gonna go and you wanna stay") formal_profile);
    reflexivity.
Defined.

(* ===================================================================== *)
(** ** The helper's methods *)
(* ===================================================================== *)

Section Helper.

Import PersonalizationHelper.

Lemma bind_run {A B} (m : M A) (k : A -> M B) (w w' : world) (a : A) :
  m w = (Ok a, w') -> bind m k w = k a w'.
Proof. intros E. unfold bind. rewrite E. reflexivity. Qed.

(** A fetch never raises: it returns what [decoded] makes of the reply and
    leaves one more request in the log. *)
Lemma fetch_run (self : t) (username what : str) (w : world) :
  exists rq, fetch self username what w
             = (Ok (decoded (next_reply w)), issue w rq).
Proof. eexists. reflexivity. Qed.

Lemma get_user_profile_run (self : t) (username : str) (w : world) :
  exists rq, get_user_profile self username w
             = (Ok (decoded (next_reply w)), issue w rq).
Proof. apply fetch_run. Qed.

Lemma fetched (self : t) (username : str) (w : world) (p : json) :
  fst (get_user_profile self username w) = Ok p ->
  exists w', get_user_profile self username w = (Ok p, w').
Proof.
  destruct (get_user_profile_run self username w) as [rq E].
  rewrite E. simpl. intros [= <-]. eexists. reflexivity.
Qed.

Lemma Ok_inj {A} (a b : A) : Ok a = Ok b -> a = b.
Proof. intros [= E]. exact E. Qed.

Lemma no_data_absent : no_data JNull = Ok true.
Proof. reflexivity. Qed.

Lemma no_data_flag (fs : list (str * json)) :
  lookup (lit "data_available") fs = Some (JBool false) ->
  no_data (JObj fs) = Ok true.
Proof.
  intros E. unfold no_data.
  destruct (negb (truthy (JObj fs))); [reflexivity|].
  unfold get. rewrite E. reflexivity.
Qed.

Lemma no_data_cases (p : json) :
  p = JNull \/
  (exists fs, p = JObj fs /\
              lookup (lit "data_available") fs = Some (JBool false)) ->
  no_data p = Ok true.
Proof.
  intros [->|(fs & -> & E)]; [apply no_data_absent|apply no_data_flag, E].
Qed.

Lemma Qle_bool_inject (a b : Z) :
  Qle_bool (inject_Z a) (inject_Z b) = (a <=? b)%Z.
Proof. unfold Qle_bool, inject_Z. simpl. rewrite !Z.mul_1_r. reflexivity. Qed.

Lemma context_without_data `{Formatter}
  (self : t) (username : str) (w : world) (p : json) :
  fst (get_user_profile self username w) = Ok p ->
  no_data p = Ok true ->
  fst (build_personalization_context self username w) = Ok [].
Proof.
  intros Hp Hn. destruct (fetched _ _ _ _ Hp) as [w' E].
  unfold build_personalization_context.
  rewrite (bind_run _ _ _ _ _ E).
  unfold bind, lift. rewrite Hn. reflexivity.
Qed.

Lemma should_personalize_count
  (self : t) (username : str) (w : world) (fs : list (str * json)) (n : Z) :
  fst (get_user_profile self username w) = Ok (JObj fs) ->
  lookup (lit "total_interactions") fs = Some (JInt n) ->
  fst (should_personalize_response self username w) = Ok (5 <=? n)%Z.
Proof.
  intros Hp Hn. destruct (fetched _ _ _ _ Hp) as [w' E].
  unfold should_personalize_response.
  rewrite (bind_run _ _ _ _ _ E).
  destruct fs as [|kv fs]; [discriminate|].
  cbn [truthy negb]. unfold bind, lift, get. rewrite Hn.
  unfold ge, num. rewrite Qle_bool_inject. reflexivity.
Qed.

Lemma should_personalize_default
  (self : t) (username : str) (w : world) (fs : list (str * json)) :
  fst (get_user_profile self username w) = Ok (JObj fs) ->
  lookup (lit "total_interactions") fs = None ->
  fst (should_personalize_response self username w) = Ok false.
Proof.
  intros Hp Hn. destruct (fetched _ _ _ _ Hp) as [w' E].
  unfold should_personalize_response.
  rewrite (bind_run _ _ _ _ _ E).
  destruct fs as [|kv fs]; [reflexivity|].
  cbn [truthy negb]. unfold bind, lift, get. rewrite Hn. reflexivity.
Qed.

Lemma should_personalize_absent
  (self : t) (username : str) (w : world) :
  fst (get_user_profile self username w) = Ok JNull ->
  fst (should_personalize_response self username w) = Ok false.
Proof.
  intros Hp. destruct (fetched _ _ _ _ Hp) as [w' E].
  unfold should_personalize_response.
  rewrite (bind_run _ _ _ _ _ E). reflexivity.
Qed.

End Helper.

(** C5: when the profile fetch returns nothing, and when the fetched profile
    has [data_available] false, [build_personalization_context] returns the
    empty string. *)
Theorem context_empty_without_data `{Formatter}
  (self : PersonalizationHelper.t) (username : str) (w : world) (p : json) :
  fst (PersonalizationHelper.get_user_profile self username w) = Ok p ->
  p = JNull \/
  (exists fs, p = JObj fs /\
              lookup (lit "data_available") fs = Some (JBool false)) ->
  fst (PersonalizationHelper.build_personalization_context self username w)
  = Ok [].
Proof.
  intros Hp Hcase.
  apply (context_without_data self username w p Hp).
  apply no_data_cases. exact Hcase.
Qed.

Lemma context_empty_witness :
  fst (PersonalizationHelper.get_user_profile sample_helper (lit "asha")
         (sample_world [Response 200 (Some new_user_profile)]))
  = Ok new_user_profile /\
  fst (@PersonalizationHelper.build_personalization_context sample_format
         sample_helper (lit "asha")
         (sample_world [Response 200 (Some new_user_profile)]))
  = Ok [].
Proof.
  split; [reflexivity|].
  apply (@context_empty_without_data sample_format sample_helper
           (lit "asha") (sample_world [Response 200 (Some new_user_profile)])
           new_user_profile).
  - reflexivity.
  - right. eexists. split; reflexivity.
Defined.

(** C6: [should_personalize_response] is false when the fetch returns
    nothing, and for a fetched profile it is true exactly when
    [total_interactions] is at least 5: false for 0, 1, 2, 3 and 4, true from
    5 on; a profile without the field counts as 0 interactions. *)
Theorem should_personalize_threshold
  (self : PersonalizationHelper.t) (username : str) (w : world) (p : json) :
  fst (PersonalizationHelper.get_user_profile self username w) = Ok p ->
  (p = JNull ->
   fst (PersonalizationHelper.should_personalize_response self username w)
   = Ok false) /\
  (forall fs n,
      p = JObj fs ->
      lookup (lit "total_interactions") fs = Some (JInt n) ->
      fst (PersonalizationHelper.should_personalize_response self username w)
      = Ok (5 <=? n)%Z) /\
  (forall fs,
      p = JObj fs ->
      lookup (lit "total_interactions") fs = None ->
      fst (PersonalizationHelper.should_personalize_response self username w)
      = Ok false).
Proof.
  intros Hp. split; [|split].
  - intros ->. apply should_personalize_absent. exact Hp.
  - intros fs n -> Hn. apply (should_personalize_count _ _ _ fs n Hp Hn).
  - intros fs -> Hn. apply (should_personalize_default _ _ _ fs Hp Hn).
Qed.

Lemma should_personalize_witness :
  fst (PersonalizationHelper.get_user_profile sample_helper (lit "asha")
         (sample_world [Response 200 (Some new_user_profile)]))
  = Ok new_user_profile /\
  fst (PersonalizationHelper.should_personalize_response sample_helper
         (lit "asha") (sample_world [Response 200 (Some new_user_profile)]))
  = Ok true.
Proof.
  split; [reflexivity|].
  refine (proj1 (proj2 (should_personalize_threshold sample_helper
                          (lit "asha")
                          (sample_world
                             [Response 200 (Some new_user_profile)])
                          new_user_profile eq_refl))
            _ 7%Z eq_refl eq_refl).
Defined.


Section GreetingFacts.
Context `{Formatter}.

Lemma helper_greeting_without_data
  (self : PersonalizationHelper.t) (username : str) (w : world) (p : json) :
  fst (PersonalizationHelper.get_user_profile self username w) = Ok p ->
  PersonalizationHelper.no_data p = Ok true ->
  fst (PersonalizationHelper.get_personalized_greeting self username w)
  = Ok (PersonalizationHelper.plain_greeting username).
Proof.
  intros Hp Hn. destruct (fetched _ _ _ _ Hp) as [w' E].
  unfold PersonalizationHelper.get_personalized_greeting.
  rewrite (bind_run _ _ _ _ _ E).
  unfold bind, lift. rewrite Hn. reflexivity.
Qed.

(** Every greeting the helper returns holds the username. *)
Lemma helper_greeting_contains
  (self : PersonalizationHelper.t) (username : str) (w : world) (g : str) :
  fst (PersonalizationHelper.get_personalized_greeting self username w) = Ok g
  -> contains username g = true.
Proof.
  destruct (get_user_profile_run self username w) as [rq E].
  unfold PersonalizationHelper.get_personalized_greeting.
  rewrite (bind_run _ _ _ _ _ E).
  unfold bind, lift, ret. cbv beta iota.
  destruct (PersonalizationHelper.no_data _) as [[|]|e]; cbv beta iota.
  - intros [= <-]. unfold PersonalizationHelper.plain_greeting.
    apply contains_intro.
  - cbn [fst].
    repeat match goal with
           | |- context [rbind ?r _] =>
               destruct r as [?|?]; cbn [rbind]; [|discriminate]
           | |- context [if ?b then _ else _] => destruct b
           end;
      intros Hg; apply Ok_inj in Hg; subst g; rewrite <- ?app_assoc;
      apply contains_intro.
  - discriminate.
Qed.

(** On a profile typed as the data model says, the helper's greeting does
    not raise. *)
Lemma helper_greeting_typed
  (self : PersonalizationHelper.t) (username : str) (w : world) (p : json) :
  fst (PersonalizationHelper.get_user_profile self username w) = Ok p ->
  typed_for_greeting p = true ->
  exists g,
    fst (PersonalizationHelper.get_personalized_greeting self username w)
    = Ok g.
Proof.
  intros Hp Ht. destruct (fetched _ _ _ _ Hp) as [w' E].
  unfold PersonalizationHelper.get_personalized_greeting.
  rewrite (bind_run _ _ _ _ _ E).
  destruct p as [| | | | | |fs]; try discriminate.
  unfold typed_for_greeting in Ht.
  apply andb_prop in Ht. destruct Ht as [Ht Htopics].
  apply andb_prop in Ht. destruct Ht as [Hstyle Hresume].
  unfold bind, lift, ret, PersonalizationHelper.no_data, get.
  destruct (negb (truthy (JObj fs))); cbv beta iota; [eauto|].
  cbn [rbind]. destruct (negb _); cbv beta iota; [eauto|].
  cbn [fst].
  assert (Hcs : exists cs,
             match lookup (lit "communication_style") fs with
             | Some v => v
             | None => JObj []
             end = JObj cs).
  { destruct (lookup (lit "communication_style") fs) as [[]|];
      try discriminate; eauto. }
  destruct Hcs as [cs ->].
  assert (Hri : exists ri,
             match lookup (lit "resume_insights") fs with
             | Some v => v
             | None => JObj []
             end = JObj ri /\
             is_number (match lookup (lit "total_analyses") ri with
                        | Some v => v
                        | None => JInt 0
                        end) = true).
  { destruct (lookup (lit "resume_insights") fs) as [[| | | | | |ri]|];
      try discriminate.
    - exists ri. split; [reflexivity|].
      destruct (lookup (lit "total_analyses") ri); [exact Hresume|].
      reflexivity.
    - exists []. split; reflexivity. }
  destruct Hri as (ri & -> & Hnum).
  cbn [rbind]. unfold gt. unfold is_number in Hnum.
  destruct (num _) as [x|]; [|discriminate].
  cbn [rbind].
  assert (Htp : exists l,
             match lookup (lit "topics_of_interest") fs with
             | Some v => v
             | None => JArr []
             end = JArr l).
  { destruct (lookup (lit "topics_of_interest") fs) as [[]|];
      try discriminate; eauto. }
  destruct Htp as [l ->].
  destruct l as [|topic l]; cbn [truthy rbind len first length Nat.ltb
                                   Nat.leb];
    [destruct (negb _)|]; eauto.
Qed.

End GreetingFacts.

(** C8: the greeting holds the username whatever the fetch returns: the
    chatbot's [get_personalized_greeting] always returns a string, and it
    contains the username; so does every string the helper's method returns,
    which it does for an absent profile, for a profile without data and for
    every profile typed as the data model describes, whatever its
    formality. *)
Theorem greeting_contains_username `{Formatter}
  (bot : EnhancedChatbot.t) (username : str) (w : world) :
  (exists g,
      fst (EnhancedChatbot.get_personalized_greeting bot username w) = Ok g
      /\ contains username g = true) /\
  (forall g,
      fst (PersonalizationHelper.get_personalized_greeting
             (EnhancedChatbot.personalization bot) username w) = Ok g ->
      contains username g = true) /\
  (forall p,
      fst (PersonalizationHelper.get_user_profile
             (EnhancedChatbot.personalization bot) username w) = Ok p ->
      p = JNull \/
      (exists fs, p = JObj fs /\
                  lookup (lit "data_available") fs = Some (JBool false)) \/
      typed_for_greeting p = true ->
      exists g,
        fst (PersonalizationHelper.get_personalized_greeting
               (EnhancedChatbot.personalization bot) username w) = Ok g).
Proof.
  split; [|split].
  - unfold EnhancedChatbot.get_personalized_greeting, try_except.
    destruct (PersonalizationHelper.get_personalized_greeting _ _ _)
      as [[g|e] w'] eqn:E.
    + exists g. split; [reflexivity|].
      apply (helper_greeting_contains
               (EnhancedChatbot.personalization bot) username w).
      rewrite E. reflexivity.
    + eexists. split; [reflexivity|]. apply contains_intro.
  - apply helper_greeting_contains.
  - intros p Hp [Hn|[Hd|Ht]].
    + eexists. apply (helper_greeting_without_data _ _ _ _ Hp).
      apply no_data_cases. left. exact Hn.
    + eexists. apply (helper_greeting_without_data _ _ _ _ Hp).
      apply no_data_cases. right. exact Hd.
    + apply (helper_greeting_typed _ _ _ _ Hp Ht).
Qed.

(** C10: for a fetched profile whose [data_available] is false, as for an
    absent one, the helper's greeting is exactly "Hi {username}! " followed
    by the waving hand (U+1F44B), whatever else the profile holds. *)
Theorem greeting_plain_without_data `{Formatter}
  (self : PersonalizationHelper.t) (username : str) (w : world) (p : json) :
  fst (PersonalizationHelper.get_user_profile self username w) = Ok p ->
  p = JNull \/
  (exists fs, p = JObj fs /\
              lookup (lit "data_available") fs = Some (JBool false)) ->
  fst (PersonalizationHelper.get_personalized_greeting self username w)
  = Ok (lit "Hi " ++ username ++ lit "! " ++ [128075%N]).
Proof.
  intros Hp Hcase.
  apply (helper_greeting_without_data self username w p Hp).
  apply no_data_cases. exact Hcase.
Qed.

Lemma greeting_plain_witness :
  fst (PersonalizationHelper.get_user_profile sample_helper (lit "asha")
         (sample_world [Response 200 (Some new_user_profile)]))
  = Ok new_user_profile /\
  fst (@PersonalizationHelper.get_personalized_greeting sample_format
         sample_helper (lit "asha")
         (sample_world [Response 200 (Some new_user_profile)]))
  = Ok (lit "Hi " ++ lit "asha" ++ lit "! " ++ [128075%N]).
Proof.
  split; [reflexivity|].
  apply (@greeting_plain_without_data sample_format sample_helper
           (lit "asha") (sample_world [Response 200 (Some new_user_profile)])
           new_user_profile).
  - reflexivity.
  - right. eexists. split; reflexivity.
Defined.

(** C9: [should_personalize_response] does not look at [data_available]: for
    a fetched profile with [data_available] false and at least 5
    interactions it returns true, while the context block is empty and the
    greeting is the plain one. *)
Theorem threshold_ignores_data_available `{Formatter}
  (self : PersonalizationHelper.t) (username : str) (w : world)
  (fs : list (str * json)) (n : Z) :
  fst (PersonalizationHelper.get_user_profile self username w)
  = Ok (JObj fs) ->
  lookup (lit "data_available") fs = Some (JBool false) ->
  lookup (lit "total_interactions") fs = Some (JInt n) ->
  (5 <= n)%Z ->
  fst (PersonalizationHelper.should_personalize_response self username w)
  = Ok true /\
  fst (PersonalizationHelper.build_personalization_context self username w)
  = Ok [] /\
  fst (PersonalizationHelper.get_personalized_greeting self username w)
  = Ok (PersonalizationHelper.plain_greeting username).
Proof.
  intros Hp Hd Hn Hge. split; [|split].
  - rewrite (should_personalize_count self username w fs n Hp Hn).
    f_equal. apply Z.leb_le. exact Hge.
  - apply (context_without_data self username w _ Hp).
    apply no_data_flag. exact Hd.
  - apply (helper_greeting_without_data self username w _ Hp).
    apply no_data_flag. exact Hd.
Qed.

Lemma threshold_ignores_witness :
  fst (PersonalizationHelper.get_user_profile sample_helper (lit "asha")
         (sample_world [Response 200 (Some new_user_profile)]))
  = Ok new_user_profile /\
  (5 <= 7)%Z /\
  fst (PersonalizationHelper.should_personalize_response sample_helper
         (lit "asha") (sample_world [Response 200 (Some new_user_profile)]))
  = Ok true /\
  fst (@PersonalizationHelper.build_personalization_context sample_format
         sample_helper (lit "asha")
         (sample_world [Response 200 (Some new_user_profile)]))
  = Ok [] /\
  fst (@PersonalizationHelper.get_personalized_greeting sample_format
         sample_helper (lit "asha")
         (sample_world [Response 200 (Some new_user_profile)]))
  = Ok (PersonalizationHelper.plain_greeting (lit "asha")).
Proof.
  split; [reflexivity|]. split; [lia|].
  apply (@threshold_ignores_data_available sample_format sample_helper
           (lit "asha") (sample_world [Response 200 (Some new_user_profile)])
           new_user_fields 7%Z); [reflexivity|reflexivity|reflexivity|lia].
Defined.

(* ===================================================================== *)
(** ** The resume summary *)
(* ===================================================================== *)

Section Resume.
Context `{Formatter}.

Import PersonalizationHelper.

Lemma resume_summary_absent
  (self : t) (username : str) (w : world) (p : json) :
  fst (get_user_profile self username w) = Ok p ->
  truthy p = false ->
  fst (get_resume_summary_for_chat self username w) = Ok no_access_message.
Proof.
  intros Hp Hf. destruct (fetched _ _ _ _ Hp) as [w' E].
  unfold get_resume_summary_for_chat.
  rewrite (bind_run _ _ _ _ _ E). rewrite Hf. reflexivity.
Qed.

Lemma resume_summary_unanalysed
  (self : t) (username : str) (w : world) (fs : list (str * json))
  (ri : json) :
  fst (get_user_profile self username w) = Ok (JObj fs) ->
  fs <> [] ->
  get (JObj fs) (lit "resume_insights") (JObj []) = Ok ri ->
  truthy ri = false \/
  (exists rfs, ri = JObj rfs /\
               (lookup (lit "total_analyses") rfs = None \/
                lookup (lit "total_analyses") rfs = Some (JInt 0))) ->
  fst (get_resume_summary_for_chat self username w) = Ok no_upload_message.
Proof.
  intros Hp Hne Hri Hcase. destruct (fetched _ _ _ _ Hp) as [w' E].
  unfold get_resume_summary_for_chat.
  rewrite (bind_run _ _ _ _ _ E).
  destruct fs as [|kv fs]; [congruence|]. cbn [truthy negb].
  unfold bind, lift. rewrite Hri.
  destruct Hcase as [Hf|(rfs & -> & Hz)].
  - rewrite Hf. reflexivity.
  - destruct (negb (truthy (JObj rfs))); [reflexivity|].
    unfold get. destruct Hz as [-> | ->]; reflexivity.
Qed.

(** A summary with scores starts with the count of analyses. *)
Lemma score_summary_shape (ri : json) (s : str) :
  score_summary ri = Ok s -> starts_with (lit "Based on your ") s = true.
Proof.
  unfold score_summary, interpretation.
  repeat match goal with
         | |- context [if ?b then _ else _] => destruct b
         | |- context [rbind (rbind ?r _) _] =>
             destruct r as [?|?]; cbn [rbind]; [|discriminate]
         | |- context [rbind ?r _] =>
             destruct r as [?|?]; cbn [rbind]; [|discriminate]
         end;
    intros Hs; apply Ok_inj in Hs; subst s; rewrite <- ?app_assoc;
    apply starts_with_app.
Qed.

Lemma canned_not_scores (ri : json) (s extra : str) :
  score_summary ri = Ok s ->
  no_access_message <> s ++ extra /\ no_upload_message <> s ++ extra.
Proof.
  intros Hs. apply score_summary_shape in Hs.
  apply (starts_with_app_l _ _ extra) in Hs.
  split; intros E; rewrite <- E in Hs; vm_compute in Hs; discriminate.
Qed.

End Resume.

(** C4, as the specification states it, fails: there are not three messages,
    since a profile without resume insights and a profile with zero analyses
    get the same one; and the condition that holds does not determine the
    message, since the empty profile, which has no resume insights, gets
    the message of the absent profile and not the one of the other profiles
    without resume insights. *)
Lemma resume_messages_are_two :
  ~ (exists m_absent m_missing m_zero : str,
        m_absent <> m_missing /\ m_absent <> m_zero /\ m_missing <> m_zero /\
        fst (@PersonalizationHelper.get_resume_summary_for_chat sample_format
               sample_helper (lit "asha") (sample_world [Failed Timeout]))
        = Ok m_absent /\
        fst (@PersonalizationHelper.get_resume_summary_for_chat sample_format
               sample_helper (lit "asha")
               (sample_world [Response 200 (Some no_insights_profile)]))
        = Ok m_missing /\
        fst (@PersonalizationHelper.get_resume_summary_for_chat sample_format
               sample_helper (lit "asha")
               (sample_world [Response 200 (Some zero_analyses_profile)]))
        = Ok m_zero) /\
  ~ (forall fs : list (str * json),
        lookup (lit "resume_insights") fs = None ->
        fst (@PersonalizationHelper.get_resume_summary_for_chat sample_format
               sample_helper (lit "asha")
               (sample_world [Response 200 (Some (JObj fs))]))
        = fst (@PersonalizationHelper.get_resume_summary_for_chat
                 sample_format sample_helper (lit "asha")
                 (sample_world [Response 200 (Some no_insights_profile)]))).
Proof.
  split.
  - intros (m1 & m2 & m3 & _ & _ & Hneq & _ & H2 & H3).
    vm_compute in H2, H3. apply Hneq. congruence.
  - intros H. specialize (H [] eq_refl). vm_compute in H. discriminate.
Qed.

(** C4 (amended): for a profile that is absent or empty, the test being
    [not profile], [get_resume_summary_for_chat] returns the fixed "no
    access" message; for a non-empty profile without [resume_insights] and
    for one whose [resume_insights] has zero [total_analyses] it returns one
    and the same fixed "no upload" message; neither message is a summary
    with scores. *)
Theorem resume_summary_without_analyses `{Formatter}
  (self : PersonalizationHelper.t) (username : str) (w : world) (p : json) :
  fst (PersonalizationHelper.get_user_profile self username w) = Ok p ->
  (p = JNull \/ p = JObj [] ->
   fst (PersonalizationHelper.get_resume_summary_for_chat self username w)
   = Ok PersonalizationHelper.no_access_message) /\
  (forall fs,
      p = JObj fs -> fs <> [] ->
      lookup (lit "resume_insights") fs = None ->
      fst (PersonalizationHelper.get_resume_summary_for_chat self username w)
      = Ok PersonalizationHelper.no_upload_message) /\
  (forall fs ri,
      p = JObj fs ->
      lookup (lit "resume_insights") fs = Some (JObj ri) ->
      lookup (lit "total_analyses") ri = Some (JInt 0) ->
      fst (PersonalizationHelper.get_resume_summary_for_chat self username w)
      = Ok PersonalizationHelper.no_upload_message) /\
  (forall ri s extra,
      PersonalizationHelper.score_summary ri = Ok s ->
      PersonalizationHelper.no_access_message <> s ++ extra /\
      PersonalizationHelper.no_upload_message <> s ++ extra).
Proof.
  intros Hp. split; [|split; [|split]].
  - intros Hfalsy. apply (resume_summary_absent self username w p Hp).
    destruct Hfalsy as [-> | ->]; reflexivity.
  - intros fs -> Hne Hri.
    apply (resume_summary_unanalysed self username w fs (JObj []) Hp Hne).
    + unfold get. rewrite Hri. reflexivity.
    + left. reflexivity.
  - intros fs ri -> Hri Hz.
    apply (resume_summary_unanalysed self username w fs (JObj ri) Hp).
    + intros ->. discriminate.
    + unfold get. rewrite Hri. reflexivity.
    + right. exists ri. split; [reflexivity|]. right. exact Hz.
  - apply canned_not_scores.
Qed.

Lemma resume_summary_witness :
  fst (PersonalizationHelper.get_user_profile sample_helper (lit "asha")
         (sample_world [Response 200 (Some (JObj []))]))
  = Ok (JObj []) /\
  fst (@PersonalizationHelper.get_resume_summary_for_chat sample_format
         sample_helper (lit "asha")
         (sample_world [Response 200 (Some (JObj []))]))
  = Ok PersonalizationHelper.no_access_message.
Proof.
  split; [reflexivity|].
  refine (proj1 (@resume_summary_without_analyses sample_format sample_helper
                   (lit "asha")
                   (sample_world [Response 200 (Some (JObj []))])
                   (JObj []) eq_refl) _).
  right. reflexivity.
Defined.

(* ===================================================================== *)
(** ** Differences of clock readings *)
(* ===================================================================== *)

(** The difference of two floats is computed by [SpecFloat]'s [SFsub]: the
    mantissas are aligned, subtracted, and the result is shifted right bit
    by bit, with a round bit and a sticky bit, then rounded to the nearest
    even.  This section relates that computation to [round53], the rounding
    of the exact difference counted in units of [2 ** -1074], and derives
    what the age test of the cache needs: rounding is monotone, leaves the
    integers up to [2 ** 53] as they are, and passes 300 half a unit in the
    last place below it. *)

Section FloatFacts.

Local Open Scope Z_scope.

Lemma digits2_size (m : positive) : digits2_pos m = Pos.size m.
Proof. induction m; simpl; congruence. Qed.

Lemma digits2_log2 (m : positive) :
  Zpos (digits2_pos m) = Z.log2 (Zpos m) + 1.
Proof.
  rewrite digits2_size. destruct m; simpl; lia.
Qed.

Lemma digits2_bounds (m : positive) :
  2 ^ (Zpos (digits2_pos m) - 1) <= Zpos m < 2 ^ Zpos (digits2_pos m).
Proof.
  rewrite digits2_log2.
  replace (Z.log2 (Zpos m) + 1 - 1) with (Z.log2 (Zpos m)) by lia.
  replace (Z.log2 (Zpos m) + 1) with (Z.succ (Z.log2 (Zpos m))) by lia.
  apply Z.log2_spec. lia.
Qed.

Lemma iter_xO (m p : positive) :
  Zpos (Pos.iter xO m p) = Zpos m * 2 ^ Zpos p.
Proof.
  induction p as [|p IH] using Pos.peano_ind.
  - simpl. lia.
  - rewrite Pos.iter_succ. rewrite Pos2Z.inj_xO, IH.
    rewrite Pos2Z.inj_succ. rewrite Z.pow_succ_r by lia. lia.
Qed.

Lemma iter_pos_iter {A : Type} (f : A -> A) (p : positive) (x : A) :
  SpecFloat.iter_pos f p x = Pos.iter f x p.
Proof.
  revert x. induction p as [p IH|p IH|]; intros x; simpl.
  - rewrite !IH. rewrite <- Pos.iter_swap. rewrite <- Pos.iter_swap. reflexivity.
  - rewrite !IH. reflexivity.
  - reflexivity.
Qed.

Lemma shr_1_spec (m : Z) (r s : bool) :
  0 <= m ->
  shr_1 (Build_shr_record m r s)
  = Build_shr_record (m / 2) (Z.odd m) (r || s).
Proof.
  intros Hm. rewrite <- Z.div2_div.
  destruct m as [|[p|p|]|p]; try reflexivity; lia.
Qed.

Lemma shr_iter (v : Z) (p : positive) :
  0 <= v ->
  Pos.iter shr_1 (Build_shr_record v false false) p
  = Build_shr_record (v / 2 ^ Zpos p)
      (Z.odd (v / 2 ^ (Zpos p - 1)))
      (negb (v mod 2 ^ (Zpos p - 1) =? 0)).
Proof.
  intros Hv. induction p as [|p IH] using Pos.peano_ind.
  - change (Pos.iter shr_1 (Build_shr_record v false false) 1)
      with (shr_1 (Build_shr_record v false false)).
    rewrite shr_1_spec by exact Hv.
    change (2 ^ (1 - 1)) with 1. rewrite Z.div_1_r, Z.mod_1_r.
    reflexivity.
  - rewrite Pos.iter_succ, IH.
    assert (Hp : 0 < 2 ^ (Zpos p - 1)) by (apply Z.pow_pos_nonneg; lia).
    assert (Hq : 0 <= v / 2 ^ Zpos p) by (apply Z.div_pos; [lia|apply Z.pow_pos_nonneg; lia]).
    rewrite shr_1_spec by exact Hq.
    rewrite Pos2Z.inj_succ.
    replace (Z.succ (Zpos p) - 1) with (Zpos p) by lia.
    f_equal.
    + rewrite Z.pow_succ_r by lia. rewrite (Z.mul_comm 2).
      rewrite Z.div_div by lia. reflexivity.
    + assert (E : 2 ^ Zpos p = 2 ^ (Zpos p - 1) * 2).
      { replace (Zpos p) with ((Zpos p - 1) + 1) at 1 by lia.
        rewrite Z.pow_add_r by lia. reflexivity. }
      rewrite E.
      rewrite Z.rem_mul_r by lia.
      set (a := v / 2 ^ (Zpos p - 1)).
      set (l := v mod 2 ^ (Zpos p - 1)).
      assert (Hl : 0 <= l < 2 ^ (Zpos p - 1)) by (apply Z.mod_pos_bound; lia).
      assert (Ha : a mod 2 = 0 \/ a mod 2 = 1)
        by (pose proof (Z.mod_pos_bound a 2); lia).
      rewrite Zodd_mod.
      set (P := 2 ^ (Zpos p - 1)) in *.
      destruct (Z.eqb_spec (a mod 2) 1), (Z.eqb_spec l 0),
        (Z.eqb_spec (l + P * (a mod 2)) 0);
        cbn [orb negb]; try reflexivity; exfalso; nia.
Qed.

Lemma round_shr (v : Z) (p : positive) :
  0 <= v ->
  let mrs := SpecFloat.iter_pos shr_1 p (Build_shr_record v false false) in
  round_nearest_even (shr_m mrs) (loc_of_shr_record mrs) = rne v (Zpos p).
Proof.
  intros Hv. cbv zeta. rewrite iter_pos_iter, shr_iter by exact Hv.
  cbn [shr_m loc_of_shr_record]. unfold rne.
  assert (E : 2 ^ Zpos p = 2 ^ (Zpos p - 1) * 2).
  { replace (Zpos p) with ((Zpos p - 1) + 1) at 1 by lia.
    rewrite Z.pow_add_r by lia. reflexivity. }
  assert (Hp : 0 < 2 ^ (Zpos p - 1)) by (apply Z.pow_pos_nonneg; lia).
  rewrite E. rewrite Z.rem_mul_r by lia.
  set (P := 2 ^ (Zpos p - 1)) in *.
  set (q := v / (P * 2)).
  set (a := v / P). set (l := v mod P).
  assert (Hl : 0 <= l < P) by (apply Z.mod_pos_bound; lia).
  pose proof (Z.mod_pos_bound a 2 ltac:(lia)) as Ha.
  rewrite Zodd_mod.
  destruct (Z.eqb_spec (a mod 2) 1) as [Ha1|Ha1];
    destruct (Z.eqb_spec l 0) as [Hl0|Hl0]; cbn [negb round_nearest_even];
    destruct (Z.compare_spec (2 * (l + P * (a mod 2))) (P * 2));
    try reflexivity; exfalso; nia.
Qed.

(** *** Rounding a quotient by a power of two *)

Lemma rne_cases (v k : Z) :
  0 <= k ->
  exists q r,
    v = q * 2 ^ k + r /\ 0 <= r < 2 ^ k /\
    (rne v k = q \/ rne v k = q + 1) /\
    (2 * r < 2 ^ k -> rne v k = q) /\
    (2 ^ k < 2 * r -> rne v k = q + 1) /\
    (2 * r = 2 ^ k -> Z.even q = true -> rne v k = q) /\
    (2 * r = 2 ^ k -> Z.even q = false -> rne v k = q + 1).
Proof.
  intros Hk. assert (Hp : 0 < 2 ^ k) by (apply Z.pow_pos_nonneg; lia).
  exists (v / 2 ^ k), (v mod 2 ^ k).
  pose proof (Z.div_mod v (2 ^ k) ltac:(lia)) as Hdm.
  pose proof (Z.mod_pos_bound v (2 ^ k) Hp) as Hb.
  unfold rne.
  destruct (Z.compare_spec (2 * (v mod 2 ^ k)) (2 ^ k));
    destruct (Z.even (v / 2 ^ k)); repeat split; intros; try lia;
    try congruence; auto.
Qed.

Lemma rne_lower (v k c : Z) :
  0 <= k -> c * 2 ^ k <= v -> c <= rne v k.
Proof.
  intros Hk Hv. destruct (rne_cases v k Hk) as (q & r & E & Hr & Hc & _).
  assert (Hp : 0 < 2 ^ k) by (apply Z.pow_pos_nonneg; lia).
  assert (c <= q) by nia. lia.
Qed.

Lemma rne_upper (v k c : Z) :
  0 <= k -> v <= c * 2 ^ k -> rne v k <= c.
Proof.
  intros Hk Hv.
  destruct (rne_cases v k Hk) as (q & r & E & Hr & Hc & Hlt & _).
  assert (Hp : 0 < 2 ^ k) by (apply Z.pow_pos_nonneg; lia).
  destruct (Z.eq_dec r 0) as [Hr0|Hr0].
  - rewrite Hlt by lia. nia.
  - assert (q < c) by nia. lia.
Qed.

Lemma rne_below (v k c : Z) :
  0 <= k -> 2 * v < (2 * c - 1) * 2 ^ k -> rne v k < c.
Proof.
  intros Hk Hv.
  destruct (rne_cases v k Hk) as (q & r & E & Hr & Hc & Hlt & Hgt & He & Ho).
  assert (Hp : 0 < 2 ^ k) by (apply Z.pow_pos_nonneg; lia).
  destruct (Z.lt_total (2 * r) (2 ^ k)) as [Hlow|[Htie|Hhigh]].
  - rewrite Hlt by exact Hlow. nia.
  - assert (q + 1 < c) by nia. lia.
  - assert (q + 1 < c) by nia. lia.
Qed.

Lemma rne_tie_up (v k c : Z) :
  0 <= k -> Z.even c = true -> (2 * c - 1) * 2 ^ k <= 2 * v ->
  c <= rne v k.
Proof.
  intros Hk Hev Hv.
  destruct (rne_cases v k Hk) as (q & r & E & Hr & Hc & Hlt & Hgt & He & Ho).
  assert (Hp : 0 < 2 ^ k) by (apply Z.pow_pos_nonneg; lia).
  assert (Hq : c - 1 <= q) by nia.
  destruct (Z.eq_dec q (c - 1)) as [Hq1|Hq1]; [|lia].
  destruct (Z.lt_total (2 * r) (2 ^ k)) as [Hlow|[Htie|Hhigh]].
  - exfalso. nia.
  - rewrite Ho; [lia|exact Htie|].
    subst q. replace (c - 1) with (Z.pred c) by lia.
    rewrite Z.even_pred. rewrite <- Z.negb_even. rewrite Hev. reflexivity.
  - rewrite Hgt by exact Hhigh. lia.
Qed.

Lemma rne_exact (c k : Z) : 0 <= k -> rne (c * 2 ^ k) k = c.
Proof.
  intros Hk. assert (Hp : 0 < 2 ^ k) by (apply Z.pow_pos_nonneg; lia).
  unfold rne. rewrite Z.div_mul by lia. rewrite Z.mod_mul by lia.
  assert (E : (2 * 0 ?= 2 ^ k) = Lt) by (apply Z.compare_lt_iff; lia).
  rewrite E. reflexivity.
Qed.

Lemma rne_mono (v w k : Z) :
  0 <= k -> v <= w -> rne v k <= rne w k.
Proof.
  intros Hk Hvw.
  destruct (rne_cases v k Hk)
    as (q & r & E & Hr & Hc & Hlt & Hgt & He & Ho).
  destruct (rne_cases w k Hk)
    as (q' & r' & E' & Hr' & Hc' & Hlt' & Hgt' & He' & Ho').
  assert (Hp : 0 < 2 ^ k) by (apply Z.pow_pos_nonneg; lia).
  assert (Hq : q <= q') by nia.
  destruct (Z.eq_dec q q') as [Heq|Hne]; [|lia].
  subst q'. assert (Hrr : r <= r') by lia.
  destruct (Z.lt_total (2 * r) (2 ^ k)) as [Hlow|[Htie|Hhigh]].
  - rewrite Hlt by exact Hlow. lia.
  - destruct (Z.lt_total (2 * r') (2 ^ k)) as [Hlow'|[Htie'|Hhigh']].
    + lia.
    + destruct (Z.even q) eqn:Hev.
      * rewrite He, He' by (assumption || reflexivity). lia.
      * rewrite Ho, Ho' by (assumption || reflexivity). lia.
    + rewrite Hgt' by exact Hhigh'. lia.
  - rewrite Hgt by exact Hhigh. rewrite Hgt' by lia. lia.
Qed.

Lemma rne_scale (v k j : Z) :
  0 <= k -> 0 <= j -> rne (v * 2 ^ j) (k + j) = rne v k.
Proof.
  intros Hk Hj. unfold rne.
  assert (Hpk : 0 < 2 ^ k) by (apply Z.pow_pos_nonneg; lia).
  assert (Hpj : 0 < 2 ^ j) by (apply Z.pow_pos_nonneg; lia).
  rewrite Z.pow_add_r by lia.
  rewrite Z.div_mul_cancel_r by lia.
  rewrite Z.mul_mod_distr_r by lia.
  replace (2 * (v mod 2 ^ k * 2 ^ j) ?= 2 ^ k * 2 ^ j)
    with (2 * (v mod 2 ^ k) ?= 2 ^ k); [reflexivity|].
  replace (2 * (v mod 2 ^ k * 2 ^ j)) with (2 * (v mod 2 ^ k) * 2 ^ j)
    by ring.
  apply Zmult_compare_compat_r. lia.
Qed.

(** *** Rounding to 53 significant bits *)

Lemma round53_0 : round53 0 = 0.
Proof. reflexivity. Qed.

Lemma round53_le_pow (v : Z) : 0 < v -> round53 v <= 2 ^ (Z.log2 v + 1).
Proof.
  intros Hv. unfold round53.
  set (k := Z.max (Z.log2 v - 52) 0).
  pose proof (Z.log2_nonneg v) as Hl.
  assert (Hk : 0 <= k <= Z.log2 v + 1) by lia.
  assert (Hp : 0 < 2 ^ k) by (apply Z.pow_pos_nonneg; lia).
  assert (E : 2 ^ (Z.log2 v + 1) = 2 ^ (Z.log2 v + 1 - k) * 2 ^ k).
  { rewrite <- Z.pow_add_r by lia. f_equal. lia. }
  rewrite E. apply Z.mul_le_mono_nonneg_r; [lia|].
  apply rne_upper; [lia|]. rewrite <- E.
  pose proof (Z.log2_spec v Hv). lia.
Qed.

Lemma round53_ge_pow (v : Z) : 0 < v -> 2 ^ Z.log2 v <= round53 v.
Proof.
  intros Hv. unfold round53.
  set (k := Z.max (Z.log2 v - 52) 0).
  pose proof (Z.log2_nonneg v) as Hl.
  assert (Hk : 0 <= k <= Z.log2 v) by lia.
  assert (Hp : 0 < 2 ^ k) by (apply Z.pow_pos_nonneg; lia).
  assert (E : 2 ^ Z.log2 v = 2 ^ (Z.log2 v - k) * 2 ^ k).
  { rewrite <- Z.pow_add_r by lia. f_equal. lia. }
  rewrite E. apply Z.mul_le_mono_nonneg_r; [lia|].
  apply rne_lower; [lia|]. rewrite <- E.
  pose proof (Z.log2_spec v Hv). lia.
Qed.

Lemma round53_nonneg (v : Z) : 0 <= v -> 0 <= round53 v.
Proof.
  intros Hv. destruct (Z.eq_dec v 0) as [->|Hne]; [rewrite round53_0; lia|].
  pose proof (round53_ge_pow v ltac:(lia)).
  pose proof (Z.pow_pos_nonneg 2 (Z.log2 v) ltac:(lia) (Z.log2_nonneg v)).
  lia.
Qed.

Lemma round53_mono (v w : Z) : 0 <= v -> v <= w -> round53 v <= round53 w.
Proof.
  intros Hv Hvw.
  destruct (Z.eq_dec v 0) as [->|Hne].
  { rewrite round53_0. apply round53_nonneg. lia. }
  pose proof (Z.log2_le_mono v w Hvw) as Hlog.
  pose proof (Z.log2_nonneg v) as Hlv.
  destruct (Z.eq_dec (Z.max (Z.log2 v - 52) 0) (Z.max (Z.log2 w - 52) 0))
    as [Hk|Hk].
  - unfold round53. rewrite <- Hk.
    set (k := Z.max (Z.log2 v - 52) 0).
    assert (Hp : 0 < 2 ^ k) by (apply Z.pow_pos_nonneg; lia).
    apply Z.mul_le_mono_nonneg_r; [lia|]. apply rne_mono; lia.
  - assert (Hlt : Z.log2 v + 1 <= Z.log2 w) by lia.
    pose proof (round53_le_pow v ltac:(lia)).
    pose proof (round53_ge_pow w ltac:(lia)).
    pose proof (Z.pow_le_mono_r 2 _ _ ltac:(lia) Hlt).
    lia.
Qed.

(** A value with at most 53 significant bits is left as it is. *)
Lemma round53_fix (c j : Z) :
  0 <= c < 2 ^ 53 -> 0 <= j -> round53 (c * 2 ^ j) = c * 2 ^ j.
Proof.
  intros Hc Hj.
  destruct (Z.eq_dec c 0) as [->|Hne]; [reflexivity|].
  unfold round53.
  rewrite Z.log2_mul_pow2 by lia.
  assert (Hl : Z.log2 c < 53) by (apply Z.log2_lt_pow2; lia).
  pose proof (Z.log2_nonneg c) as Hl0.
  set (k := Z.max (j + Z.log2 c - 52) 0).
  assert (Hk : 0 <= k <= j) by lia.
  assert (E : c * 2 ^ j = c * 2 ^ (j - k) * 2 ^ k).
  { rewrite <- Z.mul_assoc. rewrite <- Z.pow_add_r by lia.
    do 2 f_equal. lia. }
  rewrite E at 1. rewrite rne_exact by lia. symmetry. exact E.
Qed.

Lemma round_signed_mono (d d' : Z) :
  d <= d' -> round_signed d <= round_signed d'.
Proof.
  intros Hd. unfold round_signed.
  destruct (Z.ltb_spec d 0), (Z.ltb_spec d' 0).
  - pose proof (round53_mono (- d') (- d) ltac:(lia) ltac:(lia)). lia.
  - pose proof (round53_nonneg (- d) ltac:(lia)).
    pose proof (round53_nonneg d' ltac:(lia)). lia.
  - lia.
  - apply round53_mono; lia.
Qed.

Lemma round_signed_fix (c j : Z) :
  Z.abs c < 2 ^ 53 -> 0 <= j -> round_signed (c * 2 ^ j) = c * 2 ^ j.
Proof.
  intros Hc Hj. unfold round_signed.
  assert (Hp : 0 < 2 ^ j) by (apply Z.pow_pos_nonneg; lia).
  destruct (Z.ltb_spec (c * 2 ^ j) 0).
  - replace (- (c * 2 ^ j)) with ((- c) * 2 ^ j) by ring.
    rewrite round53_fix by (try lia; nia). ring.
  - apply round53_fix; [nia|lia].
Qed.

Lemma round_signed_pow53 (j : Z) :
  0 <= j -> round_signed (2 ^ 53 * 2 ^ j) = 2 ^ 53 * 2 ^ j.
Proof.
  intros Hj.
  replace (2 ^ 53 * 2 ^ j) with (2 ^ 52 * 2 ^ (j + 1)).
  - apply round_signed_fix; lia.
  - rewrite Z.pow_add_r by lia. change (2 ^ 53) with (2 ^ 52 * 2 ^ 1). ring.
Qed.

(** The time to live of the chatbot: where the rounded difference passes
    300. *)
Lemma round_signed_300 (d : Z) :
  round_signed d < 300 * 2 ^ 1074 <-> d < (300 * 2 ^ 45 - 1) * 2 ^ 1029.
Proof.
  split.
  - intros Hr.
    destruct (Z.lt_ge_cases d ((300 * 2 ^ 45 - 1) * 2 ^ 1029)) as [|Hge];
      [assumption|exfalso].
    destruct (Z.lt_ge_cases d (512 * 2 ^ 1074)) as [Hlt|Hbig].
    + assert (Hlog : Z.log2 d = 1082) by (apply Z.log2_unique; lia).
      unfold round_signed in Hr.
      destruct (Z.ltb_spec d 0); [lia|].
      unfold round53 in Hr. rewrite Hlog in Hr.
      change (Z.max (1082 - 52) 0) with 1030 in Hr.
      pose proof (rne_tie_up d 1030 (300 * 2 ^ 44) ltac:(lia) eq_refl
                    ltac:(lia)) as Hup.
      lia.
    + pose proof (round_signed_mono _ _ Hbig) as Hm.
      rewrite (round_signed_fix 512 1074) in Hm by lia. lia.
  - intros Hd.
    destruct (Z.lt_ge_cases d (256 * 2 ^ 1074)) as [Hsmall|Hge].
    + pose proof (round_signed_mono d (256 * 2 ^ 1074) ltac:(lia)) as Hm.
      rewrite (round_signed_fix 256 1074) in Hm by lia. lia.
    + assert (Hlog : Z.log2 d = 1082) by (apply Z.log2_unique; lia).
      unfold round_signed.
      destruct (Z.ltb_spec d 0); [lia|].
      unfold round53. rewrite Hlog.
      change (Z.max (1082 - 52) 0) with 1030.
      pose proof (rne_below d 1030 (300 * 2 ^ 44) ltac:(lia) ltac:(lia))
        as Hlow.
      lia.
Qed.

(** *** The rounding of [SpecFloat] *)

Lemma fexp_eq (x : Z) : fexp 53 1024 x = Z.max (x - 53) (-1074).
Proof. reflexivity. Qed.

Lemma shr_fexp_exact (m e : Z) :
  shr_fexp 53 1024 m e loc_Exact
  = shr (Build_shr_record m false false) e
      (Z.max (Zdigits2 m + e - 53) (-1074) - e).
Proof. reflexivity. Qed.

Lemma Zdigits2_log2 (m : Z) : 0 < m -> Zdigits2 m = Z.log2 m + 1.
Proof.
  intros Hm. destruct m as [|p|p]; try lia. apply digits2_log2.
Qed.

Lemma binary_round_aux_correct (sx : bool) (mz : positive) (ez : Z) :
  -1074 <= ez ->
  ez <= Z.max (Zpos (digits2_pos mz) + ez - 53) (-1074) ->
  rounds_to sx (round53 (Zpos mz * 2 ^ (ez + 1074)))
    (binary_round_aux 53 1024 sx (Zpos mz) ez loc_Exact).
Proof.
  intros Hez Hfe.
  unfold binary_round_aux. rewrite shr_fexp_exact.
  cbn [Zdigits2].
  pose proof (digits2_bounds mz) as Hd.
  pose proof (digits2_log2 mz) as Hlog.
  set (d := Zpos (digits2_pos mz)) in *.
  set (fe := Z.max (d + ez - 53) (-1074)) in *.
  assert (HlogV : Z.log2 (Zpos mz * 2 ^ (ez + 1074)) = ez + 1074 + (d - 1)).
  { rewrite Z.log2_mul_pow2 by lia. lia. }
  destruct (fe - ez) as [|p|p] eqn:Hk; [| |lia].
  - (* no shift *)
    cbn [shr round_nearest_even shr_m loc_of_shr_record].
    rewrite shr_fexp_exact. cbn [Zdigits2]. fold d. fold fe. rewrite Hk.
    cbn [shr shr_m].
    assert (Hd53 : d <= 53) by lia.
    assert (Hm : Zpos mz < 2 ^ 53).
    { pose proof (Z.pow_le_mono_r 2 d 53 ltac:(lia) Hd53). lia. }
    rewrite round53_fix by lia.
    destruct (Z.leb_spec ez (1024 - 53)) as [Hle|Hgt]; cbn [rounds_to].
    + repeat split; lia.
    + split; [reflexivity|].
      assert (Hd' : d = 53) by lia.
      assert (H52 : 2 ^ 52 <= Zpos mz) by (rewrite Hd' in Hd; apply Hd).
      assert (Hp : 2 ^ 2046 <= 2 ^ (ez + 1074))
        by (apply Z.pow_le_mono_r; lia).
      change (2 ^ 2098) with (2 ^ 52 * 2 ^ 2046).
      apply Z.mul_le_mono_nonneg; lia.
  - (* a shift by [p] bits *)
    cbn [shr]. rewrite (round_shr (Zpos mz) p) by lia.
    assert (Hfe' : fe = d + ez - 53) by lia.
    assert (Hkd : Zpos p = d - 53) by lia.
    assert (Hlo : 2 ^ 52 <= rne (Zpos mz) (Zpos p)).
    { apply rne_lower; [lia|]. rewrite <- Z.pow_add_r by lia.
      replace (52 + Zpos p) with (d - 1) by lia. apply Hd. }
    assert (Hhi : rne (Zpos mz) (Zpos p) <= 2 ^ 53).
    { apply rne_upper; [lia|]. rewrite <- Z.pow_add_r by lia.
      replace (53 + Zpos p) with d by lia. lia. }
    assert (HV : round53 (Zpos mz * 2 ^ (ez + 1074))
                 = rne (Zpos mz) (Zpos p) * 2 ^ (fe + 1074)).
    { unfold round53. rewrite HlogV.
      replace (Z.max (ez + 1074 + (d - 1) - 52) 0)
        with (Zpos p + (ez + 1074)) by lia.
      rewrite rne_scale by lia. do 2 f_equal. lia. }
    rewrite HV.
    set (m1 := rne (Zpos mz) (Zpos p)) in *.
    replace (ez + Zpos p) with fe by lia.
    rewrite shr_fexp_exact.
    destruct (Z.eq_dec m1 (2 ^ 53)) as [E53|N53].
    + rewrite E53.
      change (Zdigits2 (2 ^ 53)) with 54.
      replace (Z.max (54 + fe - 53) (-1074) - fe) with 1 by lia.
      cbn [shr SpecFloat.iter_pos]. rewrite shr_1_spec by lia. cbn [shr_m].
      change (2 ^ 53 / 2) with (Zpos 4503599627370496). cbv beta iota.
      destruct (Z.leb_spec (fe + 1) (1024 - 53)) as [Hle|Hgt];
        cbn [rounds_to].
      * split; [reflexivity|]. split; [lia|].
        replace (fe + 1 + 1074) with (1 + (fe + 1074)) by lia.
        rewrite Z.pow_add_r by lia.
        change (Zpos 4503599627370496) with (2 ^ 52).
        change (2 ^ 53) with (2 ^ 52 * 2 ^ 1). ring.
      * split; [reflexivity|].
        assert (Hp : 2 ^ 2045 <= 2 ^ (fe + 1074))
          by (apply Z.pow_le_mono_r; lia).
        change (2 ^ 2098) with (2 ^ 53 * 2 ^ 2045).
        apply Z.mul_le_mono_nonneg; lia.
    + assert (Hdig : Zdigits2 m1 = 53).
      { rewrite Zdigits2_log2 by lia.
        rewrite (Z.log2_unique m1 52); lia. }
      rewrite Hdig.
      replace (Z.max (53 + fe - 53) (-1074) - fe) with 0 by lia.
      cbn [shr shr_m].
      destruct m1 as [|p1|p1] eqn:Em1; [lia| |lia].
      destruct (Z.leb_spec fe (1024 - 53)) as [Hle|Hgt]; cbn [rounds_to].
      * repeat split; lia.
      * split; [reflexivity|].
        assert (Hp : 2 ^ 2046 <= 2 ^ (fe + 1074))
          by (apply Z.pow_le_mono_r; lia).
        change (2 ^ 2098) with (2 ^ 52 * 2 ^ 2046).
        apply Z.mul_le_mono_nonneg; lia.
Qed.

Lemma binary_round_correct (sx : bool) (m : positive) (e : Z) :
  -1074 <= e ->
  rounds_to sx (round53 (Zpos m * 2 ^ (e + 1074)))
    (binary_round 53 1024 sx m e).
Proof.
  intros He. unfold binary_round. rewrite fexp_eq. unfold shl_align.
  set (fe := Z.max (Zpos (digits2_pos m) + e - 53) (-1074)).
  destruct (fe - e) as [|p|p] eqn:Hk.
  - apply binary_round_aux_correct; [lia|]. fold fe. lia.
  - apply binary_round_aux_correct; [lia|]. fold fe. lia.
  - assert (Hm : Zpos (digits2_pos (Pos.iter xO m p))
                 = Zpos (digits2_pos m) + Zpos p).
    { rewrite !digits2_log2, iter_xO.
      rewrite Z.log2_mul_pow2 by lia. lia. }
    replace (Zpos m * 2 ^ (e + 1074))
      with (Zpos (Pos.iter xO m p) * 2 ^ (fe + 1074)).
    + apply binary_round_aux_correct; [lia|]. rewrite Hm. lia.
    + rewrite iter_xO. rewrite <- Z.mul_assoc.
      rewrite <- Z.pow_add_r by lia. do 2 f_equal. lia.
Qed.

(** The scaled value of a double, and what [lt_int] compares. *)
Lemma lt_int_finite (s : bool) (m : positive) (e z : Z) :
  -1074 <= e ->
  Float.lt_int (S754_finite s m e) z
  = (cond_Zopp s (Zpos m) * 2 ^ (e + 1074) <? z * 2 ^ 1074).
Proof.
  intros He. unfold Float.lt_int. cbv zeta.
  set (n := cond_Zopp s (Zpos m)).
  assert (HP : 0 < 2 ^ 1074) by (apply Z.pow_pos_nonneg; lia).
  destruct e as [|p|p].
  - rewrite Z.add_0_l. change (2 ^ 0) with 1.
    destruct (Z.ltb_spec (n * 1) z), (Z.ltb_spec (n * 2 ^ 1074) (z * 2 ^ 1074));
      try reflexivity; exfalso; nia.
  - rewrite Z.pow_add_r by lia.
    assert (Hp : 0 < 2 ^ Zpos p) by (apply Z.pow_pos_nonneg; lia).
    destruct (Z.ltb_spec (n * 2 ^ Zpos p) z),
      (Z.ltb_spec (n * (2 ^ Zpos p * 2 ^ 1074)) (z * 2 ^ 1074));
      try reflexivity; exfalso; nia.
  - assert (Hp : 0 < 2 ^ Zpos p) by (apply Z.pow_pos_nonneg; lia).
    assert (Hq : 0 < 2 ^ (Zneg p + 1074)) by (apply Z.pow_pos_nonneg; lia).
    assert (E : 2 ^ 1074 = 2 ^ Zpos p * 2 ^ (Zneg p + 1074)).
    { rewrite <- Z.pow_add_r by lia. f_equal. lia. }
    rewrite E.
    destruct (Z.ltb_spec n (z * 2 ^ Zpos p)),
      (Z.ltb_spec (n * 2 ^ (Zneg p + 1074))
         (z * (2 ^ Zpos p * 2 ^ (Zneg p + 1074))));
      try reflexivity; exfalso; nia.
Qed.

Lemma lt_int_rounds (sx : bool) (rs : Z) (r : Float.float) (z : Z) :
  rounds_to sx rs r -> 0 <= rs -> Z.abs z <= 2 ^ 53 ->
  Float.lt_int r z = (cond_Zopp sx rs <? z * 2 ^ 1074).
Proof.
  intros Hr Hrs Hz.
  assert (HP : 0 < 2 ^ 1074) by (apply Z.pow_pos_nonneg; lia).
  destruct r as [s|s| |s m e]; cbn [rounds_to] in Hr.
  - destruct Hr as [-> ->]. cbn [Float.lt_int].
    replace (cond_Zopp sx 0) with 0 by (destruct sx; reflexivity).
    destruct (Z.ltb_spec 0 z), (Z.ltb_spec 0 (z * 2 ^ 1074));
      try reflexivity; exfalso; nia.
  - destruct Hr as [-> Hbig]. cbn [Float.lt_int].
    assert (Hz' : Z.abs z * 2 ^ 1074 < 2 ^ 2098).
    { change (2 ^ 2098) with (2 ^ 1024 * 2 ^ 1074).
      apply Z.mul_lt_mono_pos_r; lia. }
    destruct sx; cbn [cond_Zopp]; symmetry.
    + apply Z.ltb_lt. nia.
    + apply Z.ltb_ge. nia.
  - contradiction.
  - destruct Hr as (-> & He & <-). rewrite lt_int_finite by exact He.
    destruct sx; cbn [cond_Zopp]; f_equal; ring.
Qed.

Lemma double_finite (s : bool) (m : positive) (e : Z) :
  Float.is_double (S754_finite s m e) = true ->
  -1074 <= e <= 971 /\ Zpos m < 2 ^ 53.
Proof.
  unfold Float.is_double, bounded, canonical_mantissa.
  rewrite fexp_eq. intros H. apply andb_true_iff in H as [Hc Hb].
  apply Z.eqb_eq in Hc. apply Z.leb_le in Hb.
  change (Float.emax - Float.prec) with 971 in Hb.
  split; [lia|].
  pose proof (digits2_bounds m) as Hd.
  assert (Hd53 : Zpos (digits2_pos m) <= 53) by lia.
  pose proof (Z.pow_le_mono_r 2 _ 53 ltac:(lia) Hd53). lia.
Qed.

Lemma scaled_double (x : Float.float) :
  Float.is_double x = true -> round_signed (scaled x) = scaled x.
Proof.
  intros Hx. destruct x as [s|s| |s m e]; try reflexivity.
  destruct (double_finite s m e Hx) as [He Hm].
  cbn [scaled]. apply round_signed_fix; [|lia].
  destruct s; cbn [cond_Zopp]; lia.
Qed.

Lemma lt_int_double (x : Float.float) (z : Z) :
  Float.is_double x = true ->
  Float.lt_int x z = (scaled x <? z * 2 ^ 1074).
Proof.
  intros Hx. destruct x as [s|s| |s m e]; try discriminate.
  - cbn [Float.lt_int scaled].
    assert (HP : 0 < 2 ^ 1074) by (apply Z.pow_pos_nonneg; lia).
    destruct (Z.ltb_spec 0 z), (Z.ltb_spec 0 (z * 2 ^ 1074));
      try reflexivity; exfalso; nia.
  - destruct (double_finite s m e Hx) as [He Hm].
    rewrite lt_int_finite by lia. reflexivity.
Qed.

Lemma shl_align_fst (m : positive) (e e' : Z) :
  e' <= e -> Zpos (fst (shl_align m e e')) = Zpos m * 2 ^ (e - e').
Proof.
  intros He. unfold shl_align.
  destruct (e' - e) as [|p|p] eqn:Hk; cbn [fst].
  - replace (e - e') with 0 by lia. change (2 ^ 0) with 1. lia.
  - lia.
  - rewrite iter_xO. do 2 f_equal. lia.
Qed.

Lemma lt_int_normalize (n e z : Z) :
  -1074 <= e -> Z.abs z <= 2 ^ 53 ->
  Float.lt_int (binary_normalize 53 1024 n e false) z
  = (round_signed (n * 2 ^ (e + 1074)) <? z * 2 ^ 1074).
Proof.
  intros He Hz.
  assert (Hp : 0 < 2 ^ (e + 1074)) by (apply Z.pow_pos_nonneg; lia).
  destruct n as [|p|p]; cbn [binary_normalize].
  - rewrite Z.mul_0_l. cbn [Float.lt_int].
    change (round_signed 0) with 0.
    assert (HP : 0 < 2 ^ 1074) by (apply Z.pow_pos_nonneg; lia).
    destruct (Z.ltb_spec 0 z), (Z.ltb_spec 0 (z * 2 ^ 1074));
      try reflexivity; exfalso; nia.
  - rewrite (lt_int_rounds false _ _ z (binary_round_correct false p e He))
      by (try apply round53_nonneg; lia).
    cbn [cond_Zopp]. unfold round_signed.
    destruct (Z.ltb_spec (Zpos p * 2 ^ (e + 1074)) 0); [lia|reflexivity].
  - rewrite (lt_int_rounds true _ _ z (binary_round_correct true p e He))
      by (try apply round53_nonneg; lia).
    cbn [cond_Zopp]. unfold round_signed.
    destruct (Z.ltb_spec (Zneg p * 2 ^ (e + 1074)) 0); [|lia].
    replace (- (Zneg p * 2 ^ (e + 1074))) with (Zpos p * 2 ^ (e + 1074))
      by lia.
    reflexivity.
Qed.

(** What the comparison of a difference of two doubles with an integer
    computes: the exact difference, in units of [2 ^ -1074], is rounded to
    53 significant bits and then compared. *)
Lemma lt_int_sub (a b : Float.float) (z : Z) :
  Float.is_double a = true -> Float.is_double b = true ->
  Z.abs z <= 2 ^ 53 ->
  Float.lt_int (Float.sub a b) z
  = (round_signed (scaled a - scaled b) <? z * 2 ^ 1074).
Proof.
  intros Ha Hb Hz.
  destruct a as [sa|sa| |sa ma ea]; try discriminate;
    destruct b as [sb|sb| |sb mb eb]; try discriminate.
  - assert (E : forall s, Float.lt_int (S754_zero s) z
                          = (round_signed (0 - 0) <? z * 2 ^ 1074)).
    { intros s. apply (lt_int_double (S754_zero s)). reflexivity. }
    destruct sa, sb; apply E.
  - cbn [Float.sub SFsub].
    destruct (double_finite sb mb eb Hb) as [He Hm].
    rewrite lt_int_finite by lia. cbn [scaled].
    replace (0 - cond_Zopp sb (Zpos mb) * 2 ^ (eb + 1074))
      with (cond_Zopp (negb sb) (Zpos mb) * 2 ^ (eb + 1074))
      by (destruct sb; cbn [cond_Zopp negb]; lia).
    rewrite round_signed_fix; [reflexivity| |lia].
    destruct sb; cbn [cond_Zopp negb]; lia.
  - cbn [Float.sub SFsub].
    rewrite (lt_int_double _ z Ha).
    cbn [scaled]. rewrite Z.sub_0_r.
    change (cond_Zopp sa (Zpos ma) * 2 ^ (ea + 1074))
      with (scaled (S754_finite sa ma ea)).
    rewrite (scaled_double _ Ha). reflexivity.
  - destruct (double_finite sa ma ea Ha) as [Hea Hma].
    destruct (double_finite sb mb eb Hb) as [Heb Hmb].
    unfold Float.sub, SFsub. cbv zeta.
    rewrite lt_int_normalize by lia.
    do 2 f_equal. cbn [scaled].
    rewrite !shl_align_fst by lia.
    set (ez := Z.min ea eb).
    assert (Ea : 2 ^ (ea + 1074) = 2 ^ (ea - ez) * 2 ^ (ez + 1074)).
    { rewrite <- Z.pow_add_r by lia. f_equal. lia. }
    assert (Eb : 2 ^ (eb + 1074) = 2 ^ (eb - ez) * 2 ^ (ez + 1074)).
    { rewrite <- Z.pow_add_r by lia. f_equal. lia. }
    rewrite Ea, Eb.
    destruct sa, sb; cbn [cond_Zopp]; ring.
Qed.

(** *** Exact values *)

Lemma to_Q_scaled (x : Float.float) :
  Float.is_double x = true ->
  (Float.to_Q x == scaled x # (2 ^ 1074))%Q.
Proof.
  intros Hx. destruct x as [s|s| |s m e]; try discriminate.
  - reflexivity.
  - destruct (double_finite s m e Hx) as [He Hm].
    cbn [Float.to_Q scaled]. cbv zeta.
    set (n := cond_Zopp s (Zpos m)).
    unfold Qeq.
    assert (EP : Zpos (2 ^ 1074) = 2 ^ 1074) by (apply Pos2Z.inj_pow).
    destruct e as [|p|p]; cbn [Qnum Qden inject_Z]; rewrite ?EP.
    + rewrite Z.add_0_l. ring.
    + rewrite Z.pow_add_r by lia. ring.
    + rewrite Pos2Z.inj_pow.
      replace (2 ^ 1074) with (2 ^ (Zneg p + 1074) * 2 ^ Zpos p) at 1.
      * ring.
      * rewrite <- Z.pow_add_r by lia. f_equal. lia.
Qed.

Lemma diff_Q (a b : Float.float) :
  Float.is_double a = true -> Float.is_double b = true ->
  (Float.to_Q a - Float.to_Q b == (scaled a - scaled b) # (2 ^ 1074))%Q.
Proof.
  intros Ha Hb. rewrite (to_Q_scaled a Ha), (to_Q_scaled b Hb).
  unfold Qeq, Qminus, Qplus, Qopp. cbn [Qnum Qden].
  rewrite Pos2Z.inj_mul. ring.
Qed.

Lemma diff_Q_ge (a b : Float.float) (z : Z) :
  Float.is_double a = true -> Float.is_double b = true ->
  (inject_Z z <= Float.to_Q a - Float.to_Q b)%Q ->
  z * 2 ^ 1074 <= scaled a - scaled b.
Proof.
  intros Ha Hb H. rewrite (diff_Q a b Ha Hb) in H.
  unfold Qle in H. cbn [Qnum Qden inject_Z] in H.
  rewrite Pos2Z.inj_pow in H. lia.
Qed.

Lemma diff_Q_lt (a b : Float.float) (c : Q) :
  Float.is_double a = true -> Float.is_double b = true ->
  (Float.to_Q a - Float.to_Q b < c)%Q <->
  (scaled a - scaled b) * Zpos (Qden c) < Qnum c * 2 ^ 1074.
Proof.
  intros Ha Hb. rewrite (diff_Q a b Ha Hb).
  unfold Qlt. cbn [Qnum Qden]. rewrite Pos2Z.inj_pow. reflexivity.
Qed.

Lemma round_signed_opp (d : Z) : round_signed (- d) = - round_signed d.
Proof.
  unfold round_signed.
  destruct (Z.ltb_spec (- d) 0), (Z.ltb_spec d 0); try lia.
  - rewrite Z.opp_involutive. reflexivity.
  - replace d with 0 by lia. reflexivity.
Qed.

Lemma round_signed_int (z : Z) :
  Z.abs z <= 2 ^ 53 -> round_signed (z * 2 ^ 1074) = z * 2 ^ 1074.
Proof.
  intros Hz.
  destruct (Z.eq_dec z (2 ^ 53)) as [->|Hp];
    [apply round_signed_pow53; lia|].
  destruct (Z.eq_dec z (- 2 ^ 53)) as [->|Hn].
  - replace (- 2 ^ 53 * 2 ^ 1074) with (- (2 ^ 53 * 2 ^ 1074)) by ring.
    rewrite round_signed_opp. rewrite round_signed_pow53 by lia.
    reflexivity.
  - apply round_signed_fix; lia.
Qed.

(** An exact difference of at least [z] is never computed as less than
    [z], for an integer [z] that is a double. *)
Lemma age_not_below (a b : Float.float) (z : Z) :
  Float.is_double a = true -> Float.is_double b = true ->
  Z.abs z <= 2 ^ 53 ->
  (inject_Z z <= Float.to_Q a - Float.to_Q b)%Q ->
  Float.lt_int (Float.sub a b) z = false.
Proof.
  intros Ha Hb Hz Hage.
  rewrite lt_int_sub by assumption.
  apply Z.ltb_ge. rewrite <- (round_signed_int z Hz).
  apply round_signed_mono. apply diff_Q_ge; assumption.
Qed.

(** The computed difference is less than 300 exactly when the exact one
    is less than [300 - 2 ^ -45], half a unit in the last place below 300. *)
Lemma age_below_300 (a b : Float.float) :
  Float.is_double a = true -> Float.is_double b = true ->
  Float.lt_int (Float.sub a b) 300 = true <->
  (Float.to_Q a - Float.to_Q b < 300 - (1 # 2 ^ 45))%Q.
Proof.
  intros Ha Hb.
  rewrite lt_int_sub by (try assumption; lia).
  rewrite Z.ltb_lt, round_signed_300.
  rewrite (diff_Q_lt a b _ Ha Hb).
  change (Qnum (300 - (1 # 2 ^ 45))) with (300 * 2 ^ 45 - 1).
  change (Zpos (Qden (300 - (1 # 2 ^ 45)))) with (2 ^ 45).
  change (2 ^ 1074) with (2 ^ 1029 * 2 ^ 45). lia.
Qed.

End FloatFacts.

(* ===================================================================== *)
(** ** The profile cache *)
(* ===================================================================== *)

Section Cache.

Import EnhancedChatbot.

Lemma requests_after_issue (w : world) (rq : request) :
  requests_between w (issue w rq) = 1%nat.
Proof. unfold requests_between, issue. simpl. rewrite length_app. simpl. lia. Qed.

(** A call that finds no fresh entry fetches the profile, issuing one
    request, and stores what it got when that is truthy. *)
Lemma cache_miss (self : t) (username : str) (w : world) :
  cached self username (clock w (reads w)) = None ->
  exists rq,
    let p := PersonalizationHelper.decoded (next_reply w) in
    let w' := issue {| net := net w; sent := sent w; clock := clock w;
                       reads := S (reads w) |} rq in
    _get_cached_profile self username w
    = (Ok (p,
           if truthy p
           then {| personalization := personalization self;
                   profile_cache :=
                     <[username := (p, clock w (reads w))]>
                       (profile_cache self);
                   cache_ttl := cache_ttl self |}
           else self),
       w').
Proof.
  intros Hmiss.
  destruct (get_user_profile_run (personalization self) username
              {| net := net w; sent := sent w; clock := clock w;
                 reads := S (reads w) |}) as [rq E].
  exists rq. cbv zeta.
  unfold _get_cached_profile, bind, time_time. cbv beta iota.
  rewrite Hmiss. rewrite E.
  change (next_reply {| net := net w; sent := sent w; clock := clock w;
                        reads := S (reads w) |}) with (next_reply w).
  destruct (truthy (PersonalizationHelper.decoded (next_reply w)));
    reflexivity.
Qed.

(** A call that finds a fresh entry returns it and issues no request. *)
Lemma cache_hit (self : t) (username : str) (w : world) (p : json) :
  cached self username (clock w (reads w)) = Some p ->
  _get_cached_profile self username w
  = (Ok (p, self),
     {| net := net w; sent := sent w; clock := clock w;
        reads := S (reads w) |}).
Proof.
  intros Hhit. unfold _get_cached_profile, bind, time_time.
  cbv beta iota. rewrite Hhit. reflexivity.
Qed.

End Cache.

(** C1, as the specification states it, fails, and for two reasons.  A
    fetch answered with status 200 and the empty object is successful, yet
    the empty profile is falsy and is not stored, so the second call issues
    a second request.  And a non-empty profile fetched at the reading
    [2 ** -60] is fetched again at the reading [300.0], less than 300
    seconds later: the difference the code computes is a float, and it is
    rounded to [300.0]. *)
Lemma cache_refetches_within_ttl :
  ~ (forall (bot : EnhancedChatbot.t) (username : str) (w : world)
            (body : json),
        EnhancedChatbot.cache_ttl bot = 300%Z ->
        EnhancedChatbot.cached bot username (clock w (reads w)) = None ->
        next_reply w = Response 200 (Some body) ->
        Float.is_double (clock w (reads w)) = true ->
        Float.is_double (clock w (S (reads w))) = true ->
        (Float.to_Q (clock w (S (reads w))) - Float.to_Q (clock w (reads w))
         < 300)%Q ->
        exists bot1 w1 bot2 w2,
          EnhancedChatbot._get_cached_profile bot username w
          = (Ok (body, bot1), w1) /\
          EnhancedChatbot._get_cached_profile bot1 username w1
          = (Ok (body, bot2), w2) /\
          requests_between w w2 = 1%nat) /\
  ~ (forall (bot : EnhancedChatbot.t) (username : str) (w : world)
            (body : json),
        EnhancedChatbot.cache_ttl bot = 300%Z ->
        EnhancedChatbot.cached bot username (clock w (reads w)) = None ->
        next_reply w = Response 200 (Some body) ->
        truthy body = true ->
        Float.is_double (clock w (reads w)) = true ->
        Float.is_double (clock w (S (reads w))) = true ->
        (Float.to_Q (clock w (S (reads w))) - Float.to_Q (clock w (reads w))
         < 300)%Q ->
        exists bot1 w1 bot2 w2,
          EnhancedChatbot._get_cached_profile bot username w
          = (Ok (body, bot1), w1) /\
          EnhancedChatbot._get_cached_profile bot1 username w1
          = (Ok (body, bot2), w2) /\
          requests_between w w2 = 1%nat).
Proof.
  split; intros H.
  - destruct (H EnhancedChatbot.init (lit "asha")
                (sample_world [Response 200 (Some (JObj []));
                               Response 200 (Some (JObj []))])
                (JObj []) eq_refl eq_refl eq_refl eq_refl eq_refl eq_refl)
      as (bot1 & w1 & bot2 & w2 & H1 & H2 & Hn).
    vm_compute in H1. injection H1 as <- <-.
    vm_compute in H2. injection H2 as _ <-.
    vm_compute in Hn. discriminate.
  - destruct (H EnhancedChatbot.init (lit "asha")
                (rounding_world [Response 200 (Some new_user_profile);
                                 Response 200 (Some new_user_profile)])
                new_user_profile eq_refl eq_refl eq_refl eq_refl eq_refl
                eq_refl eq_refl)
      as (bot1 & w1 & bot2 & w2 & H1 & H2 & Hn).
    vm_compute in H1. injection H1 as <- <-.
    vm_compute in H2. injection H2 as _ <-.
    vm_compute in Hn. discriminate.
Qed.

(** C1 (amended): when the first call of [_get_cached_profile] for a username
    performs a fetch that is answered with status 200 and a non-empty
    (truthy) profile, a second call whose clock reading, minus the first
    one's, is less than [300 - 2 ** -45] seconds returns that profile from
    the cache and issues no request: one request is made across the two
    calls.  The bound is exact: by [age_below_300] these are the readings
    whose difference, computed as a float, is less than 300. *)
Theorem cache_hit_within_ttl
  (bot : EnhancedChatbot.t) (username : str) (w : world) (body : json) :
  EnhancedChatbot.cache_ttl bot = 300%Z ->
  EnhancedChatbot.cached bot username (clock w (reads w)) = None ->
  next_reply w = Response 200 (Some body) ->
  truthy body = true ->
  Float.is_double (clock w (reads w)) = true ->
  Float.is_double (clock w (S (reads w))) = true ->
  (Float.to_Q (clock w (S (reads w))) - Float.to_Q (clock w (reads w))
   < 300 - (1 # 2 ^ 45))%Q ->
  exists bot1 w1 w2,
    EnhancedChatbot._get_cached_profile bot username w
    = (Ok (body, bot1), w1) /\
    EnhancedChatbot._get_cached_profile bot1 username w1
    = (Ok (body, bot1), w2) /\
    requests_between w w1 = 1%nat /\
    requests_between w1 w2 = 0%nat /\
    requests_between w w2 = 1%nat.
Proof.
  intros Httl Hmiss Hreply Htruthy Hfirst Hsecond Hsoon.
  destruct (cache_miss bot username w Hmiss) as [rq E]. cbv zeta in E.
  rewrite Hreply in E. cbn [PersonalizationHelper.decoded Z.eqb Pos.eqb] in E.
  rewrite Htruthy in E.
  eexists. eexists. eexists. split; [exact E|].
  split; [|split; [|split]].
  - apply cache_hit. unfold EnhancedChatbot.cached.
    cbn [EnhancedChatbot.profile_cache EnhancedChatbot.cache_ttl issue clock
           reads].
    rewrite lookup_insert_eq. rewrite Httl.
    rewrite (proj2 (age_below_300 _ _ Hsecond Hfirst) Hsoon). reflexivity.
  - unfold requests_between, issue. cbn [sent]. rewrite length_app.
    simpl. lia.
  - unfold requests_between, issue. cbn [sent]. lia.
  - unfold requests_between, issue. cbn [sent]. rewrite length_app.
    simpl. lia.
Qed.

Lemma cache_hit_witness :
  EnhancedChatbot.cache_ttl EnhancedChatbot.init = 300%Z /\
  truthy new_user_profile = true /\
  (Float.to_Q (Float.of_int 100) - Float.to_Q (Float.of_int 0)
   < 300 - (1 # 2 ^ 45))%Q /\
  exists bot1 w1 w2,
    EnhancedChatbot._get_cached_profile EnhancedChatbot.init (lit "asha")
      (sample_world [Response 200 (Some new_user_profile)])
    = (Ok (new_user_profile, bot1), w1) /\
    EnhancedChatbot._get_cached_profile bot1 (lit "asha") w1
    = (Ok (new_user_profile, bot1), w2) /\
    requests_between (sample_world [Response 200 (Some new_user_profile)]) w1
    = 1%nat /\
    requests_between w1 w2 = 0%nat /\
    requests_between (sample_world [Response 200 (Some new_user_profile)]) w2
    = 1%nat.
Proof.
  split; [reflexivity|]. split; [reflexivity|]. split; [reflexivity|].
  apply (cache_hit_within_ttl EnhancedChatbot.init (lit "asha")
           (sample_world [Response 200 (Some new_user_profile)])
           new_user_profile); reflexivity.
Defined.

(* ===================================================================== *)
(** ** The model on the scenarios of the specification *)
(* ===================================================================== *)

Example replace_is_greedy :
  replace (lit "aaaa") (lit "aa") (lit "b") = lit "bb".
Proof. reflexivity. Qed.

Example replace_empty_pattern :
  replace (lit "ab") [] (lit "-") = lit "-a-b-".
Proof. reflexivity. Qed.

Example formal_text_sample :
  formal_text (lit "Hey! I'm gonna go, wanna come? I wanna gonna")
  = lit "Hello. I'm going to go, want to come? I want to gonna".
Proof. vm_compute. reflexivity. Qed.

(** The summary of the scenario profile holds both scores, the trend and
    the sentence of the highest tier; the report request fails and adds
    nothing. *)
Example scenario_summary :
  exists s,
    fst (@PersonalizationHelper.get_resume_summary_for_chat sample_format
           sample_helper (lit "asha") scenario_world) = Ok s /\
    contains (lit "82%") s = true /\
    contains (lit "85%") s = true /\
    contains (lit "Improving") s = true /\
    contains (lit "Your resume is in excellent shape!") s = true.
Proof. eexists. split; [vm_compute; reflexivity|]. vm_compute. auto. Qed.

Example scenario_context :
  fst (@PersonalizationHelper.build_personalization_context sample_format
         sample_helper (lit "asha") scenario_world)
  = Ok ([PersonalizationHelper.nl] ++ lit "[PERSONALIZATION INSIGHTS:]"
        ++ [PersonalizationHelper.nl]
        ++ lit "Communication style: formal, moderate"
        ++ [PersonalizationHelper.nl]
        ++ lit "Topics of interest: ml, ai"
        ++ [PersonalizationHelper.nl]
        ++ lit "Resume performance: 82% average score, Improving trend"
        ++ [PersonalizationHelper.nl]
        ++ lit "[END PERSONALIZATION INSIGHTS]"
        ++ [PersonalizationHelper.nl]).
Proof. vm_compute. reflexivity. Qed.

Example scenario_greeting :
  fst (@PersonalizationHelper.get_personalized_greeting sample_format
         sample_helper (lit "asha") scenario_world)
  = Ok (lit "Hello asha, Ready to explore ml today?").
Proof. vm_compute. reflexivity. Qed.

(** A POST answered with status 500 gives false. *)
Example scenario_update_500 :
  fst (PersonalizationHelper.trigger_profile_update sample_helper
         (lit "asha") (sample_world [Response 500 None]))
  = Ok false.
Proof. reflexivity. Qed.

(** A profile whose [communication_style] is null makes the helper raise;
    the chatbot answers with its fallback greeting. *)
Example fallback_greeting :
  fst (@EnhancedChatbot.get_personalized_greeting sample_format
         EnhancedChatbot.init (lit "asha")
         (sample_world
            [Response 200
               (Some (JObj [(lit "data_available", JBool true);
                            (lit "communication_style", JNull)]))]))
  = Ok (lit "Hi asha! " ++ EnhancedChatbot.fallback_marker
        ++ lit " How can I help you today?").
Proof. vm_compute. reflexivity. Qed.

(** With a clock that advances 100 seconds per reading, the entry stored by
    the first call serves the second and the third; the fourth call, 300
    seconds after the first, fetches again. *)
Example cache_expires :
  four_cached_calls EnhancedChatbot.init (lit "asha")
    (sample_world [Response 200 (Some new_user_profile);
                   Response 200 (Some scenario_profile)])
  = ([new_user_profile; new_user_profile; new_user_profile;
      scenario_profile], 2%nat).
Proof. vm_compute. reflexivity. Qed.

(** The age of an entry is a float: stored at the reading [2 ** -60] and
    looked up at the reading [300.0], an entry is less than 300 seconds old,
    yet its age is computed as [300.0] and the time to live of 300 has
    passed. *)
Example age_is_rounded :
  (Float.to_Q (Float.of_int 300) - Float.to_Q two_pow_minus_60 < 300)%Q /\
  Float.sub (Float.of_int 300) two_pow_minus_60 = Float.of_int 300 /\
  Float.lt_int (Float.sub (Float.of_int 300) two_pow_minus_60) 300 = false.
Proof. split; [reflexivity|]. split; reflexivity. Qed.

(** Rounding can also bring an age below a time to live that is not itself
    a float: with a time to live of [2 ** 53 + 1], an entry stored at the
    reading [1.0] and looked up at the reading [2.0 ** 53 + 2.0] is exactly
    as old as the time to live, and its age is computed as [2.0 ** 53]. *)
Example age_below_odd_ttl :
  (inject_Z (2 ^ 53 + 1)
   <= Float.to_Q (Float.of_int (2 ^ 53 + 2)) - Float.to_Q (Float.of_int 1))%Q
  /\
  Float.is_double (Float.of_int (2 ^ 53 + 2)) = true /\
  Float.lt_int (Float.sub (Float.of_int (2 ^ 53 + 2)) (Float.of_int 1))
    (2 ^ 53 + 1) = true.
Proof. split; [vm_compute; discriminate|]. split; reflexivity. Qed.

(* ===================================================================== *)
(** ** More on the style adaptation *)
(* ===================================================================== *)

Section Style.

Lemma str_eqb_eq (s t : str) : Str.eqb s t = true -> s = t.
Proof.
  revert t. induction s as [|a s IH]; intros [|b t] H; try discriminate.
  - reflexivity.
  - simpl in H. apply andb_prop in H. destruct H as [Hab H].
    apply N.eqb_eq in Hab. subst b. f_equal. exact (IH t H).
Qed.

Lemma contains_char_app (c : char) (a b : str) :
  contains [c] (a ++ b) = contains [c] a || contains [c] b.
Proof.
  induction a as [|x a IH].
  - simpl. destruct b; reflexivity.
  - change ((x :: a) ++ b) with (x :: (a ++ b)). cbn [contains].
    rewrite IH. cbn [starts_with]. rewrite orb_assoc. reflexivity.
Qed.

Lemma replace_length_le (s old new : str) :
  old <> [] -> (length old <= length new)%nat ->
  (length s <= length (replace s old new))%nat.
Proof.
  intros Hne Hlen. revert s.
  apply (replace_ind old new
           (fun s out => (length s <= length out)%nat) Hne).
  - intros s _. lia.
  - intros u rest out _ IH. rewrite !length_app. lia.
Qed.

Lemma adapt_casual (response : str) (profile : json) :
  is_casual profile = true ->
  EnhancedChatbot._adapt_response_style response profile
  = Ok (casual_text response).
Proof.
  unfold is_casual, formality_of, EnhancedChatbot._adapt_response_style,
    casual_text.
  destruct (get profile _ _) as [cs|]; cbn [rbind]; [|discriminate].
  destruct (get cs _ _) as [f|]; [|discriminate].
  intros Hc. destruct f as [| | | |s| |]; try discriminate.
  cbn [eq_str] in Hc. apply str_eqb_eq in Hc. subst s.
  cbn [rbind].
  change (eq_str (JStr (lit "casual")) (lit "formal")) with false.
  change (eq_str (JStr (lit "casual")) (lit "casual")) with true.
  cbv iota. destruct (negb _ && _); reflexivity.
Qed.

Lemma casual_replaced_no_hello (t : str) :
  contains (lit "Hello") (replace t (lit "Hello") (lit "Hey")) = false.
Proof. apply replace_removes; [discriminate|reflexivity]. Qed.

Lemma casual_no_hello (t : str) :
  contains (lit "Hello") (casual_text t) = false.
Proof.
  unfold casual_text. cbv zeta.
  destruct (negb _ && _); [|apply casual_replaced_no_hello].
  destruct (contains (lit "Hello")
              (replace t (lit "Hello") (lit "Hey")
               ++ lit " " ++ EnhancedChatbot.casual_marker)) eqn:E;
    [|reflexivity].
  exfalso.
  rewrite <- (app_nil_r (lit " " ++ EnhancedChatbot.casual_marker)) in E.
  apply contains_no_touch in E; [|reflexivity].
  destruct E as [E|E]; [|discriminate].
  rewrite casual_replaced_no_hello in E. discriminate.
Qed.

End Style.

(** X1: for a profile whose formality is "formal", the text
    [_adapt_response_style] returns contains neither "Hey" nor "!", whatever
    the input. *)
Theorem formal_mode_no_hey_no_bang (t : str) (profile : json) :
  is_formal profile = true ->
  exists r,
    EnhancedChatbot._adapt_response_style t profile = Ok r /\
    contains (lit "Hey") r = false /\
    contains (lit "!") r = false.
Proof.
  intros Hf. exists (formal_text t).
  split; [apply adapt_formal; exact Hf|].
  split; [apply formal_no_hey|apply formal_no_bang].
Qed.

Lemma formal_mode_no_hey_witness :
  is_formal formal_profile = true /\
  exists r,
    EnhancedChatbot._adapt_response_style (lit "Hey there! HeHeyy!!")
      formal_profile = Ok r /\
    contains (lit "Hey") r = false /\
    contains (lit "!") r = false.
Proof.
  split; [reflexivity|].
  apply (formal_mode_no_hey_no_bang (lit "Hey there! HeHeyy!!")
           formal_profile).
  reflexivity.
Defined.

(** X2: for a profile whose formality is "formal", the adapted text is never
    shorter than the input. *)
Theorem formal_mode_never_shortens (t : str) (profile : json) :
  is_formal profile = true ->
  exists r,
    EnhancedChatbot._adapt_response_style t profile = Ok r /\
    (length t <= length r)%nat.
Proof.
  intros Hf. exists (formal_text t).
  split; [apply adapt_formal; exact Hf|].
  unfold formal_text.
  pose proof (replace_length_le t (lit "Hey") (lit "Hello")) as L1.
  pose proof (replace_length_le (replace t (lit "Hey") (lit "Hello"))
                (lit "!") (lit ".")) as L2.
  pose proof (replace_length_le
                (replace (replace t (lit "Hey") (lit "Hello"))
                   (lit "!") (lit "."))
                (lit " gonna ") (lit " going to ")) as L3.
  pose proof (replace_length_le
                (replace
                   (replace (replace t (lit "Hey") (lit "Hello"))
                      (lit "!") (lit "."))
                   (lit " gonna ") (lit " going to "))
                (lit " wanna ") (lit " want to ")) as L4.
  specialize (L1 ltac:(discriminate) ltac:(simpl; lia)).
  specialize (L2 ltac:(discriminate) ltac:(simpl; lia)).
  specialize (L3 ltac:(discriminate) ltac:(simpl; lia)).
  specialize (L4 ltac:(discriminate) ltac:(simpl; lia)).
  lia.
Qed.

Lemma formal_mode_never_shortens_witness :
  is_formal formal_profile = true /\
  exists r,
    EnhancedChatbot._adapt_response_style (lit "Hey, I wanna go!")
      formal_profile = Ok r /\
    (length (lit "Hey, I wanna go!") <= length r)%nat.
Proof.
  split; [reflexivity|].
  apply (formal_mode_never_shortens (lit "Hey, I wanna go!") formal_profile).
  reflexivity.
Defined.

(** X3: for a profile whose formality is "casual", the text
    [_adapt_response_style] returns never contains "Hello". *)
Theorem casual_mode_no_hello (t : str) (profile : json) :
  is_casual profile = true ->
  exists r,
    EnhancedChatbot._adapt_response_style t profile = Ok r /\
    contains (lit "Hello") r = false.
Proof.
  intros Hc. exists (casual_text t).
  split; [apply adapt_casual; exact Hc|apply casual_no_hello].
Qed.

Lemma casual_mode_no_hello_witness :
  is_casual casual_profile = true /\
  exists r,
    EnhancedChatbot._adapt_response_style (lit "Hello HelHellolo")
      casual_profile = Ok r /\
    contains (lit "Hello") r = false.
Proof.
  split; [reflexivity|].
  apply (casual_mode_no_hello (lit "Hello HelHellolo") casual_profile).
  reflexivity.
Defined.

(** X4: casual adaptation is repeatable only when it appends nothing: a
    second pass over an adapted text returns it unchanged exactly when that
    text holds a "!" or has at most 50 characters; otherwise the second pass
    appends the marker once more. *)
Theorem casual_mode_appends_again (t : str) (profile : json) :
  is_casual profile = true ->
  exists r1 r2,
    EnhancedChatbot._adapt_response_style t profile = Ok r1 /\
    EnhancedChatbot._adapt_response_style r1 profile = Ok r2 /\
    (r2 = r1 <->
     contains (lit "!") r1 = true \/ (length r1 <= 50)%nat) /\
    (r2 <> r1 -> r2 = r1 ++ lit " " ++ EnhancedChatbot.casual_marker).
Proof.
  intros Hc. exists (casual_text t), (casual_text (casual_text t)).
  split; [apply adapt_casual; exact Hc|].
  split; [apply adapt_casual; exact Hc|].
  assert (Hsame : replace (casual_text t) (lit "Hello") (lit "Hey")
                  = casual_text t).
  { apply replace_none; [discriminate|apply casual_no_hello]. }
  set (r := casual_text t) in *. unfold casual_text. cbv zeta.
  rewrite Hsame.
  destruct (contains (lit "!") r) eqn:Hbang; cbn [negb andb].
  - split; [|congruence]. split; auto.
  - destruct (50 <? length r)%nat eqn:Hlen.
    + apply Nat.ltb_lt in Hlen. split; [|reflexivity]. split.
      * intros E. apply (f_equal (@length _)) in E.
        rewrite !length_app in E. simpl in E. lia.
      * intros [E|E]; [discriminate|lia].
    + apply Nat.ltb_ge in Hlen. split; [|congruence]. split; auto.
Qed.

Lemma casual_mode_appends_witness :
  is_casual casual_profile = true /\
  exists r1 r2,
    EnhancedChatbot._adapt_response_style
      (lit "Hello, here is a list of engineering colleges you could visit")
      casual_profile = Ok r1 /\
    EnhancedChatbot._adapt_response_style r1 casual_profile = Ok r2 /\
    (r2 = r1 <->
     contains (lit "!") r1 = true \/ (length r1 <= 50)%nat) /\
    (r2 <> r1 -> r2 = r1 ++ lit " " ++ EnhancedChatbot.casual_marker).
Proof.
  split; [reflexivity|].
  apply (casual_mode_appends_again
           (lit "Hello, here is a list of engineering colleges you could visit")
           casual_profile).
  reflexivity.
Defined.

(** X5: a profile without [communication_style], or whose
    [communication_style] has no [formality], leaves the response as it is;
    a [communication_style] that is not an object makes
    [_adapt_response_style] raise [AttributeError]. *)
Theorem adapt_style_without_formality (t : str) (fs : list (str * json)) :
  (lookup (lit "communication_style") fs = None ->
   EnhancedChatbot._adapt_response_style t (JObj fs) = Ok t) /\
  (forall cs,
      lookup (lit "communication_style") fs = Some (JObj cs) ->
      lookup (lit "formality") cs = None ->
      EnhancedChatbot._adapt_response_style t (JObj fs) = Ok t) /\
  (forall v,
      lookup (lit "communication_style") fs = Some v ->
      (forall cs, v <> JObj cs) ->
      EnhancedChatbot._adapt_response_style t (JObj fs)
      = Raise AttributeError).
Proof.
  unfold EnhancedChatbot._adapt_response_style, get.
  split; [|split].
  - intros ->. reflexivity.
  - intros cs -> Hf. cbn [rbind]. rewrite Hf. reflexivity.
  - intros v -> Hv. cbn [rbind].
    destruct v; try reflexivity. exfalso. exact (Hv _ eq_refl).
Qed.

(* ===================================================================== *)
(** ** More on the profile cache *)
(* ===================================================================== *)

Section CacheFacts.

Import EnhancedChatbot.

(** What a call does, by whether it finds a fresh entry. *)
Lemma cached_call (self : t) (username : str) (w : world) :
  match cached self username (clock w (reads w)) with
  | Some p =>
      _get_cached_profile self username w
      = (Ok (p, self),
         {| net := net w; sent := sent w; clock := clock w;
            reads := S (reads w) |})
  | None =>
      exists rq,
        _get_cached_profile self username w
        = (Ok (PersonalizationHelper.decoded (next_reply w),
               if truthy (PersonalizationHelper.decoded (next_reply w))
               then {| personalization := personalization self;
                       profile_cache :=
                         <[username :=
                             (PersonalizationHelper.decoded (next_reply w),
                              clock w (reads w))]> (profile_cache self);
                       cache_ttl := cache_ttl self |}
               else self),
           issue {| net := net w; sent := sent w; clock := clock w;
                    reads := S (reads w) |} rq)
  end.
Proof.
  destruct (cached self username (clock w (reads w))) as [p|] eqn:E.
  - apply cache_hit. exact E.
  - apply (cache_miss self username w E).
Qed.

Lemma stale_not_cached (self : t) (username : str) (now : Float.float)
  (p : json) (ts : Float.float) :
  profile_cache self !! username = Some (p, ts) ->
  Float.is_double now = true ->
  Float.is_double ts = true ->
  (Z.abs (cache_ttl self) <= 2 ^ 53)%Z ->
  (inject_Z (cache_ttl self) <= Float.to_Q now - Float.to_Q ts)%Q ->
  cached self username now = None.
Proof.
  intros Hc Hnow Hts Httl Hold. unfold cached. rewrite Hc.
  rewrite (age_not_below now ts _ Hnow Hts Httl Hold). reflexivity.
Qed.

End CacheFacts.

(** X6: a call of [_get_cached_profile] issues no request when the cache
    holds an entry for the username whose age, the float the code computes
    as [now - timestamp], is less than the time to live, and exactly one
    request otherwise. *)
Theorem cached_call_requests (bot : EnhancedChatbot.t) (username : str)
  (w : world) :
  requests_between w (world_after bot username w)
  = match EnhancedChatbot.cached bot username (clock w (reads w)) with
    | Some _ => 0%nat
    | None => 1%nat
    end.
Proof.
  unfold world_after.
  pose proof (cached_call bot username w) as H.
  destruct (EnhancedChatbot.cached bot username (clock w (reads w))).
  - rewrite H. unfold requests_between. simpl. lia.
  - destruct H as [rq ->]. unfold requests_between, issue. simpl.
    rewrite length_app. simpl. lia.
Qed.

(** X7: an entry as old as the time to live or older is not served: the call
    fetches and returns what the fetch returns.  When the fetch gives
    nothing the chatbot is left as it was, the old entry still in the cache;
    when it gives a non-empty profile, that profile replaces the entry, with
    the clock reading taken before the fetch as its timestamp.  The age is
    the exact difference of the reading and the timestamp, both floats that
    are numbers; the time to live is an integer that is exactly a float, as
    300 is, so that rounding the difference cannot bring it below. *)
Theorem stale_entry_not_served (bot : EnhancedChatbot.t) (username : str)
  (w : world) (p : json) (ts : Float.float) :
  EnhancedChatbot.profile_cache bot !! username = Some (p, ts) ->
  Float.is_double (clock w (reads w)) = true ->
  Float.is_double ts = true ->
  (Z.abs (EnhancedChatbot.cache_ttl bot) <= 2 ^ 53)%Z ->
  (inject_Z (EnhancedChatbot.cache_ttl bot)
   <= Float.to_Q (clock w (reads w)) - Float.to_Q ts)%Q ->
  exists bot',
    fst (EnhancedChatbot._get_cached_profile bot username w)
    = Ok (PersonalizationHelper.decoded (next_reply w), bot') /\
    (truthy (PersonalizationHelper.decoded (next_reply w)) = false ->
     bot' = bot) /\
    (truthy (PersonalizationHelper.decoded (next_reply w)) = true ->
     EnhancedChatbot.profile_cache bot' !! username
     = Some (PersonalizationHelper.decoded (next_reply w),
             clock w (reads w))).
Proof.
  intros Hc Hnow Hts Httl Hold.
  pose proof (cached_call bot username w) as H.
  rewrite (stale_not_cached bot username _ p ts Hc Hnow Hts Httl Hold) in H.
  destruct H as [rq ->]. cbn [fst]. eexists. split; [reflexivity|].
  destruct (truthy (PersonalizationHelper.decoded (next_reply w))).
  - split; [discriminate|]. intros _.
    cbn [EnhancedChatbot.profile_cache]. apply lookup_insert_eq.
  - split; [reflexivity|discriminate].
Qed.

Lemma stale_entry_witness :
  EnhancedChatbot.profile_cache warm_bot !! lit "asha"
  = Some (new_user_profile, Float.of_int 0) /\
  (Z.abs (EnhancedChatbot.cache_ttl warm_bot) <= 2 ^ 53)%Z /\
  (inject_Z (EnhancedChatbot.cache_ttl warm_bot)
   <= Float.to_Q (clock offline_world (reads offline_world))
      - Float.to_Q (Float.of_int 0))%Q /\
  exists bot',
    fst (EnhancedChatbot._get_cached_profile warm_bot (lit "asha")
           offline_world)
    = Ok (JNull, bot') /\
    (truthy JNull = false -> bot' = warm_bot).
Proof.
  assert (H1 : EnhancedChatbot.profile_cache warm_bot !! lit "asha"
               = Some (new_user_profile, Float.of_int 0)) by reflexivity.
  assert (H2 : (Z.abs (EnhancedChatbot.cache_ttl warm_bot) <= 2 ^ 53)%Z)
    by (vm_compute; discriminate).
  assert (H3 : (inject_Z (EnhancedChatbot.cache_ttl warm_bot)
                <= Float.to_Q (clock offline_world (reads offline_world))
                   - Float.to_Q (Float.of_int 0))%Q)
    by (vm_compute; discriminate).
  split; [exact H1|]. split; [exact H2|]. split; [exact H3|].
  destruct (stale_entry_not_served warm_bot (lit "asha") offline_world
              new_user_profile (Float.of_int 0) H1 eq_refl eq_refl H2 H3)
    as (bot' & E & Hkeep & _).
  exists bot'. split; [exact E|exact Hkeep].
Defined.

(** X8: a call for one username leaves the cache entries of every other
    username, the helper and the time to live as they were. *)
Theorem cache_call_isolated (bot : EnhancedChatbot.t)
  (username other : str) (w : world) :
  username <> other ->
  EnhancedChatbot.profile_cache (bot_after bot username w) !! other
  = EnhancedChatbot.profile_cache bot !! other /\
  EnhancedChatbot.personalization (bot_after bot username w)
  = EnhancedChatbot.personalization bot /\
  EnhancedChatbot.cache_ttl (bot_after bot username w)
  = EnhancedChatbot.cache_ttl bot.
Proof.
  intros Hne. unfold bot_after.
  pose proof (cached_call bot username w) as H.
  destruct (EnhancedChatbot.cached bot username (clock w (reads w))).
  - rewrite H. cbn [fst]. auto.
  - destruct H as [rq ->]. cbn [fst].
    destruct (truthy _); cbn; auto.
    split; [|auto]. apply lookup_insert_ne. exact Hne.
Qed.

Lemma cache_call_isolated_witness :
  lit "asha" <> lit "ravi" /\
  EnhancedChatbot.profile_cache
    (bot_after EnhancedChatbot.init (lit "asha")
       (sample_world [Response 200 (Some new_user_profile)])) !! lit "ravi"
  = EnhancedChatbot.profile_cache EnhancedChatbot.init !! lit "ravi".
Proof.
  split; [discriminate|].
  apply (cache_call_isolated EnhancedChatbot.init (lit "asha") (lit "ravi")
           (sample_world [Response 200 (Some new_user_profile)])).
  discriminate.
Defined.

(** X9: that the cache holds non-empty profiles only is an invariant of
    [_get_cached_profile]: a call keeps it, and a profile served from a cache
    that has it is never [None].  The empty cache of [__init__] has it, as
    the example after the theorem shows. *)
Theorem cache_holds_truthy (bot : EnhancedChatbot.t) (username : str)
  (w : world) :
  cache_sound bot ->
  cache_sound (bot_after bot username w) /\
  (forall p,
      EnhancedChatbot.cached bot username (clock w (reads w)) = Some p ->
      truthy p = true).
Proof.
  intros Hs. split.
  - unfold bot_after.
    pose proof (cached_call bot username w) as H.
    destruct (EnhancedChatbot.cached bot username (clock w (reads w))).
    + rewrite H. exact Hs.
    + destruct H as [rq ->]. cbn [fst].
      destruct (truthy (PersonalizationHelper.decoded (next_reply w)))
        eqn:Ht; [|exact Hs].
      intros u p ts. cbn [EnhancedChatbot.profile_cache].
      destruct (decide (username = u)) as [->|Hne].
      * rewrite lookup_insert_eq. intros [= <- _]. exact Ht.
      * rewrite lookup_insert_ne by exact Hne. apply Hs.
  - intros p. unfold EnhancedChatbot.cached.
    destruct (EnhancedChatbot.profile_cache bot !! username)
      as [[q ts]|] eqn:E; [|discriminate].
    destruct (Float.lt_int _ _); [|discriminate].
    intros [= <-]. exact (Hs _ _ _ E).
Qed.

Lemma cache_holds_truthy_witness :
  cache_sound EnhancedChatbot.init /\
  cache_sound
    (bot_after EnhancedChatbot.init (lit "asha")
       (sample_world [Response 200 (Some new_user_profile)])).
Proof.
  assert (H0 : cache_sound EnhancedChatbot.init).
  { intros u p ts H. cbn in H. rewrite lookup_empty in H. discriminate. }
  split; [exact H0|].
  apply (cache_holds_truthy EnhancedChatbot.init (lit "asha")
           (sample_world [Response 200 (Some new_user_profile)]) H0).
Defined.

(* ===================================================================== *)
(** ** More on the helper's methods *)
(* ===================================================================== *)

Section HelperFacts.
Context `{Formatter}.

Import PersonalizationHelper.

Lemma join_cons (sep h : str) (l : list str) :
  l <> [] -> join sep (h :: l) = h ++ sep ++ join sep l.
Proof. destruct l; [congruence|reflexivity]. Qed.

Lemma join_snoc (sep f : str) (l : list str) :
  l <> [] -> join sep (l ++ [f]) = join sep l ++ sep ++ f.
Proof.
  induction l as [|h l IH]; [congruence|]. intros _.
  destruct l as [|h' l].
  - reflexivity.
  - change ((h :: h' :: l) ++ [f]) with (h :: ((h' :: l) ++ [f])).
    rewrite join_cons by (destruct l; discriminate).
    rewrite IH by discriminate.
    rewrite (join_cons sep h (h' :: l)) by discriminate.
    rewrite <- !app_assoc. reflexivity.
Qed.

(** A joined list with a first and a last element starts with the one and
    ends with the other. *)
Lemma join_framed (sep h f : str) (mid : list str) :
  exists body, join sep (h :: mid ++ [f]) = h ++ body ++ sep ++ f.
Proof.
  change (h :: mid ++ [f]) with ((h :: mid) ++ [f]).
  rewrite join_snoc by discriminate.
  destruct mid as [|m mid].
  - exists []. reflexivity.
  - rewrite join_cons by discriminate.
    exists (sep ++ join sep (m :: mid)). rewrite <- !app_assoc. reflexivity.
Qed.

Lemma get_user_profile_exact (self : t) (username : str) (w : world) :
  get_user_profile self username w
  = (Ok (decoded (next_reply w)), issue w (profile_request self username)).
Proof. reflexivity. Qed.

Lemma get_user_report_exact (self : t) (username : str) (w : world) :
  get_user_report self username w
  = (Ok (decoded (next_reply w)), issue w (report_request self username)).
Proof. reflexivity. Qed.

(** The ways [get_resume_summary_for_chat] ends: with an exception, with
    one of the fixed messages after the profile request, or with a summary
    after the profile and the report requests. *)
Lemma resume_summary_runs (self : t) (username : str) (w : world) :
  (exists e w',
      get_resume_summary_for_chat self username w = (Raise e, w') /\
      (w' = issue w (profile_request self username) \/
       w' = issue (issue w (profile_request self username))
              (report_request self username)))
  \/
  (get_resume_summary_for_chat self username w
   = (Ok no_access_message, issue w (profile_request self username)) \/
   get_resume_summary_for_chat self username w
   = (Ok no_upload_message, issue w (profile_request self username)))
  \/
  (exists ri summary extra,
      score_summary ri = Ok summary /\
      get_resume_summary_for_chat self username w
      = (Ok (summary ++ extra),
         issue (issue w (profile_request self username))
           (report_request self username))).
Proof.
  remember (get_resume_summary_for_chat self username w) as run eqn:Hrun.
  unfold get_resume_summary_for_chat in Hrun.
  rewrite (bind_run _ _ _ _ _ (get_user_profile_exact self username w))
    in Hrun.
  destruct (negb (truthy (decoded (next_reply w)))); [right; left; auto|].
  unfold bind at 1 in Hrun. unfold lift at 1 in Hrun.
  destruct (get _ _ _) as [ri|e]; [|left; eauto].
  unfold bind at 1 in Hrun. unfold lift at 1 in Hrun.
  match type of Hrun with
  | context [if negb (truthy ri) then Ok true else ?r] =>
      destruct (if negb (truthy ri) then Ok true else r) as [[|]|e]
  end; [right; left; auto| |left; eauto].
  unfold bind at 1 in Hrun. unfold lift at 1 in Hrun.
  destruct (score_summary ri) as [summary|e] eqn:Hsum; [|left; eauto].
  rewrite (bind_run _ _ _ _ _
             (get_user_report_exact self username
                (issue w (profile_request self username)))) in Hrun.
  unfold bind, lift, ret in Hrun.
  destruct (focus_areas _) as [extra|e]; [|left; eauto].
  right. right. exists ri, summary, extra. auto.
Qed.

(** Whatever it returns, [build_personalization_context] has issued the
    profile request and nothing else. *)
Lemma build_context_world (self : t) (username : str) (w : world) :
  snd (build_personalization_context self username w)
  = issue w (profile_request self username).
Proof.
  unfold build_personalization_context.
  rewrite (bind_run _ _ _ _ _ (get_user_profile_exact self username w)).
  unfold bind, lift, ret.
  destruct (no_data _) as [[|]|e]; reflexivity.
Qed.

Lemma trigger_world (self : t) (username : str) (w : world) :
  snd (trigger_profile_update self username w)
  = issue w (update_request self username).
Proof.
  unfold trigger_profile_update, bind, http, ret.
  destruct (net w (length (sent w))); reflexivity.
Qed.

End HelperFacts.

(** X10: when the fetched profile has data, the string
    [build_personalization_context] returns starts with the line
    "[PERSONALIZATION INSIGHTS:]" after a newline and ends with the line
    "[END PERSONALIZATION INSIGHTS]" and a newline. *)
Theorem context_block_framed `{Formatter}
  (self : PersonalizationHelper.t) (username : str) (w : world)
  (p : json) (s : str) :
  fst (PersonalizationHelper.get_user_profile self username w) = Ok p ->
  PersonalizationHelper.no_data p = Ok false ->
  fst (PersonalizationHelper.build_personalization_context self username w)
  = Ok s ->
  exists body,
    s = [PersonalizationHelper.nl] ++ lit "[PERSONALIZATION INSIGHTS:]"
        ++ body ++ [PersonalizationHelper.nl]
        ++ lit "[END PERSONALIZATION INSIGHTS]" ++ [PersonalizationHelper.nl].
Proof.
  intros Hp Hd. destruct (fetched _ _ _ _ Hp) as [w' E].
  unfold PersonalizationHelper.build_personalization_context.
  rewrite (bind_run _ _ _ _ _ E).
  unfold bind, lift. rewrite Hd. cbv beta iota. cbn [fst].
  repeat match goal with
         | |- context [rbind ?r _] =>
             destruct r as [?|?]; cbn [rbind]; [|discriminate]
         end.
  intros Hs. apply Ok_inj in Hs. subst s. cbv zeta.
  match goal with
  | |- context [[?h] ++ ?a ++ ?a0 ++ ?a1 ++ ?a2 ++ ?a3 ++ ?a4 ++ [?f]] =>
      replace ([h] ++ a ++ a0 ++ a1 ++ a2 ++ a3 ++ a4 ++ [f])
        with (h :: (a ++ a0 ++ a1 ++ a2 ++ a3 ++ a4) ++ [f])
        by (rewrite <- !app_assoc; reflexivity);
      destruct (join_framed [PersonalizationHelper.nl] h f
                  (a ++ a0 ++ a1 ++ a2 ++ a3 ++ a4)) as [body Hb]
  end.
  exists body. etransitivity; [exact Hb|]. reflexivity.
Qed.

Lemma context_block_framed_witness :
  fst (PersonalizationHelper.get_user_profile sample_helper (lit "asha")
         scenario_world) = Ok scenario_profile /\
  PersonalizationHelper.no_data scenario_profile = Ok false /\
  exists body,
    [PersonalizationHelper.nl] ++ lit "[PERSONALIZATION INSIGHTS:]"
    ++ [PersonalizationHelper.nl]
    ++ lit "Communication style: formal, moderate"
    ++ [PersonalizationHelper.nl]
    ++ lit "Topics of interest: ml, ai"
    ++ [PersonalizationHelper.nl]
    ++ lit "Resume performance: 82% average score, Improving trend"
    ++ [PersonalizationHelper.nl]
    ++ lit "[END PERSONALIZATION INSIGHTS]"
    ++ [PersonalizationHelper.nl]
    = [PersonalizationHelper.nl] ++ lit "[PERSONALIZATION INSIGHTS:]"
      ++ body ++ [PersonalizationHelper.nl]
      ++ lit "[END PERSONALIZATION INSIGHTS]" ++ [PersonalizationHelper.nl].
Proof.
  split; [reflexivity|]. split; [reflexivity|].
  apply (@context_block_framed sample_format sample_helper (lit "asha")
           scenario_world scenario_profile).
  - reflexivity.
  - reflexivity.
  - vm_compute. reflexivity.
Defined.

(** X11: [get_resume_summary_for_chat] asks for the report only when it
    renders a summary: when it returns one of the two fixed messages it has
    issued the profile request alone; when it returns anything else it has
    issued the profile request and then the report request. *)
Theorem report_fetched_for_summaries `{Formatter}
  (self : PersonalizationHelper.t) (username : str) (w : world) :
  (fst (PersonalizationHelper.get_resume_summary_for_chat self username w)
   = Ok PersonalizationHelper.no_access_message \/
   fst (PersonalizationHelper.get_resume_summary_for_chat self username w)
   = Ok PersonalizationHelper.no_upload_message ->
   sent (snd (PersonalizationHelper.get_resume_summary_for_chat self
                username w))
   = sent w ++ [profile_request self username]) /\
  (forall s,
      fst (PersonalizationHelper.get_resume_summary_for_chat self username w)
      = Ok s ->
      s <> PersonalizationHelper.no_access_message ->
      s <> PersonalizationHelper.no_upload_message ->
      sent (snd (PersonalizationHelper.get_resume_summary_for_chat self
                   username w))
      = sent w ++ [profile_request self username;
                   report_request self username]).
Proof.
  destruct (resume_summary_runs self username w)
    as [(e & w' & -> & _)|[[-> | ->]|(ri & summary & extra & Hsum & ->)]];
    cbn [fst snd].
  - split; [intros [E|E]; discriminate|discriminate].
  - split; [reflexivity|]. intros s Hs. apply Ok_inj in Hs. congruence.
  - split; [reflexivity|]. intros s Hs. apply Ok_inj in Hs. congruence.
  - destruct (canned_not_scores ri summary extra Hsum) as [N1 N2]. split.
    + intros [E|E]; apply Ok_inj in E; congruence.
    + intros s _ _ _. unfold issue. cbn [sent]. rewrite <- app_assoc.
      reflexivity.
Qed.

Lemma report_fetched_witness :
  fst (@PersonalizationHelper.get_resume_summary_for_chat sample_format
         sample_helper (lit "asha")
         (sample_world [Response 200 (Some zero_analyses_profile)]))
  = Ok PersonalizationHelper.no_upload_message /\
  sent (snd (@PersonalizationHelper.get_resume_summary_for_chat sample_format
               sample_helper (lit "asha")
               (sample_world [Response 200 (Some zero_analyses_profile)])))
  = [] ++ [profile_request sample_helper (lit "asha")].
Proof.
  assert (E : fst (@PersonalizationHelper.get_resume_summary_for_chat
                     sample_format sample_helper (lit "asha")
                     (sample_world
                        [Response 200 (Some zero_analyses_profile)]))
              = Ok PersonalizationHelper.no_upload_message)
    by (vm_compute; reflexivity).
  split; [exact E|].
  apply (proj1 (@report_fetched_for_summaries sample_format sample_helper
                  (lit "asha")
                  (sample_world
                     [Response 200 (Some zero_analyses_profile)]))).
  right. exact E.
Defined.

(** X12: when the fetched profile holds a [total_interactions] that is not a
    number (null, a string, a list), [should_personalize_response] raises
    [TypeError]. *)
Theorem should_personalize_type_error
  (self : PersonalizationHelper.t) (username : str) (w : world)
  (fs : list (str * json)) (v : json) :
  fst (PersonalizationHelper.get_user_profile self username w)
  = Ok (JObj fs) ->
  lookup (lit "total_interactions") fs = Some v ->
  is_number v = false ->
  fst (PersonalizationHelper.should_personalize_response self username w)
  = Raise TypeError.
Proof.
  intros Hp Hv Hn. destruct (fetched _ _ _ _ Hp) as [w' E].
  unfold PersonalizationHelper.should_personalize_response.
  rewrite (bind_run _ _ _ _ _ E).
  destruct fs as [|kv fs]; [discriminate|].
  cbn [truthy negb]. unfold bind, lift, get. rewrite Hv.
  unfold ge. unfold is_number in Hn.
  destruct (num v); [discriminate|reflexivity].
Qed.

Lemma should_personalize_type_error_witness :
  fst (PersonalizationHelper.get_user_profile sample_helper (lit "asha")
         (sample_world
            [Response 200
               (Some (JObj [(lit "total_interactions", JStr (lit "7"))]))]))
  = Ok (JObj [(lit "total_interactions", JStr (lit "7"))]) /\
  is_number (JStr (lit "7")) = false /\
  fst (PersonalizationHelper.should_personalize_response sample_helper
         (lit "asha")
         (sample_world
            [Response 200
               (Some (JObj [(lit "total_interactions", JStr (lit "7"))]))]))
  = Raise TypeError.
Proof.
  split; [reflexivity|]. split; [reflexivity|].
  apply (should_personalize_type_error sample_helper (lit "asha")
           (sample_world
              [Response 200
                 (Some (JObj [(lit "total_interactions", JStr (lit "7"))]))])
           [(lit "total_interactions", JStr (lit "7"))] (JStr (lit "7")));
    reflexivity.
Defined.

Section GreetingValue.
Context `{Formatter}.

(** The greeting of the helper for a profile with data, typed as the data
    model says: a salutation chosen by the formality, then a sentence about
    the first topic, or else about the resume, or else a general one. *)
Lemma helper_greeting_value
  (self : PersonalizationHelper.t) (username : str) (w : world)
  (fs : list (str * json)) :
  fst (PersonalizationHelper.get_user_profile self username w)
  = Ok (JObj fs) ->
  PersonalizationHelper.no_data (JObj fs) = Ok false ->
  typed_for_greeting (JObj fs) = true ->
  fst (PersonalizationHelper.get_personalized_greeting self username w)
  = Ok ((if is_formal (JObj fs)
         then lit "Hello " ++ username ++ lit ","
         else lit "Hey " ++ username ++ lit "! "
              ++ [PersonalizationHelper.waving_hand])
        ++ match lookup (lit "topics_of_interest") fs with
           | Some (JArr (topic :: _)) =>
               lit " Ready to explore " ++ fmt topic ++ lit " today?"
           | _ =>
               if has_analyses fs
               then lit " How can I help you with your academic or career goals today?"
               else lit " What would you like to learn about today?"
           end).
Proof.
  intros Hp Hd Ht. destruct (fetched _ _ _ _ Hp) as [w' E].
  unfold PersonalizationHelper.get_personalized_greeting.
  rewrite (bind_run _ _ _ _ _ E).
  unfold bind, lift. rewrite Hd. cbv beta iota. cbn [fst].
  unfold typed_for_greeting in Ht.
  apply andb_prop in Ht. destruct Ht as [Ht Htopics].
  apply andb_prop in Ht. destruct Ht as [Hstyle Hresume].
  unfold is_formal, has_analyses, get.
  destruct (lookup (lit "communication_style") fs) as [[| | | | | |cs]|];
    try discriminate Hstyle;
    (destruct (lookup (lit "resume_insights") fs) as [[| | | | | |ri]|];
     try discriminate Hresume);
    (destruct (lookup (lit "topics_of_interest") fs)
       as [[| | | | |[|topic l]|]|];
     try discriminate Htopics);
    cbn [rbind truthy negb len first length Nat.ltb Nat.leb lookup];
    try (destruct (lookup (lit "total_analyses") ri) as [v|];
         [unfold gt; unfold is_number in Hresume;
          destruct (num v); [|discriminate Hresume]|];
         cbn [rbind gt num]);
    try reflexivity;
    try (destruct (negb _); reflexivity).
Qed.

End GreetingValue.

(** X13: for a fetched profile with data, typed as the data model says, the
    helper's greeting starts with "Hello {username}," when the formality is
    "formal", and with "Hey {username}! " and the waving hand otherwise. *)
Theorem greeting_salutation `{Formatter}
  (self : PersonalizationHelper.t) (username : str) (w : world)
  (fs : list (str * json)) :
  fst (PersonalizationHelper.get_user_profile self username w)
  = Ok (JObj fs) ->
  PersonalizationHelper.no_data (JObj fs) = Ok false ->
  typed_for_greeting (JObj fs) = true ->
  exists g,
    fst (PersonalizationHelper.get_personalized_greeting self username w)
    = Ok g /\
    (is_formal (JObj fs) = true ->
     starts_with (lit "Hello " ++ username ++ lit ",") g = true) /\
    (is_formal (JObj fs) = false ->
     starts_with (lit "Hey " ++ username ++ lit "! " ++ [128075%N]) g = true).
Proof.
  intros Hp Hd Ht. eexists.
  split; [apply (helper_greeting_value self username w fs Hp Hd Ht)|].
  split; intros ->; apply starts_with_app.
Qed.

Lemma greeting_salutation_witness :
  fst (PersonalizationHelper.get_user_profile sample_helper (lit "asha")
         scenario_world) = Ok (JObj scenario_fields) /\
  PersonalizationHelper.no_data (JObj scenario_fields) = Ok false /\
  typed_for_greeting (JObj scenario_fields) = true /\
  exists g,
    fst (@PersonalizationHelper.get_personalized_greeting sample_format
           sample_helper (lit "asha") scenario_world) = Ok g /\
    (is_formal (JObj scenario_fields) = true ->
     starts_with (lit "Hello " ++ lit "asha" ++ lit ",") g = true) /\
    (is_formal (JObj scenario_fields) = false ->
     starts_with (lit "Hey " ++ lit "asha" ++ lit "! " ++ [128075%N]) g
     = true).
Proof.
  split; [reflexivity|]. split; [reflexivity|]. split; [reflexivity|].
  apply (@greeting_salutation sample_format sample_helper (lit "asha")
           scenario_world scenario_fields); reflexivity.
Defined.

(** X14: for a fetched profile with data, typed as the data model says, the
    greeting ends with the question about the first topic whenever the
    profile lists a topic, whether or not it records resume analyses; only a
    profile without topics gets the sentence about career goals (when it has
    analyses) or the general one. *)
Theorem greeting_follow_up `{Formatter}
  (self : PersonalizationHelper.t) (username : str) (w : world)
  (fs : list (str * json)) :
  fst (PersonalizationHelper.get_user_profile self username w)
  = Ok (JObj fs) ->
  PersonalizationHelper.no_data (JObj fs) = Ok false ->
  typed_for_greeting (JObj fs) = true ->
  exists g,
    fst (PersonalizationHelper.get_personalized_greeting self username w)
    = Ok g /\
    (forall topic others,
        lookup (lit "topics_of_interest") fs
        = Some (JArr (JStr topic :: others)) ->
        exists salutation,
          g = salutation ++ lit " Ready to explore " ++ topic
              ++ lit " today?") /\
    (lookup (lit "topics_of_interest") fs = None \/
     lookup (lit "topics_of_interest") fs = Some (JArr []) ->
     exists salutation,
       g = salutation
           ++ if has_analyses fs
              then lit " How can I help you with your academic or career goals today?"
              else lit " What would you like to learn about today?").
Proof.
  intros Hp Hd Ht. eexists.
  split; [apply (helper_greeting_value self username w fs Hp Hd Ht)|].
  split.
  - intros topic others ->. eexists. reflexivity.
  - intros [-> | ->]; eexists; reflexivity.
Qed.

Lemma greeting_follow_up_witness :
  fst (PersonalizationHelper.get_user_profile sample_helper (lit "asha")
         scenario_world) = Ok (JObj scenario_fields) /\
  PersonalizationHelper.no_data (JObj scenario_fields) = Ok false /\
  typed_for_greeting (JObj scenario_fields) = true /\
  has_analyses scenario_fields = true /\
  exists g,
    fst (@PersonalizationHelper.get_personalized_greeting sample_format
           sample_helper (lit "asha") scenario_world) = Ok g /\
    exists salutation,
      g = salutation ++ lit " Ready to explore " ++ lit "ml"
          ++ lit " today?".
Proof.
  split; [reflexivity|]. split; [reflexivity|]. split; [reflexivity|].
  split; [reflexivity|].
  destruct (@greeting_follow_up sample_format sample_helper (lit "asha")
              scenario_world scenario_fields eq_refl eq_refl eq_refl)
    as (g & Hg & Htopic & _).
  exists g. split; [exact Hg|].
  apply (Htopic (lit "ml") [JStr (lit "ai")]). reflexivity.
Defined.

(* ===================================================================== *)
(** ** The remaining methods of the chatbot *)
(* ===================================================================== *)

(** X15: [_should_update_profile] is true exactly for the positive multiples
    of 10, whatever the username: never for 0, never for a negative count. *)
Theorem should_update_every_tenth (username : str) (message_count : Z) :
  EnhancedChatbot._should_update_profile username message_count = true <->
  exists k, (0 < k)%Z /\ message_count = (10 * k)%Z.
Proof.
  unfold EnhancedChatbot._should_update_profile. split.
  - intros H. apply andb_prop in H. destruct H as [Hpos Hmod].
    apply Z.ltb_lt in Hpos. apply Z.eqb_eq in Hmod.
    exists (message_count / 10)%Z.
    pose proof (Z.div_mod message_count 10 ltac:(lia)) as Hdm. lia.
  - intros (k & Hk & ->). apply andb_true_intro. split.
    + apply Z.ltb_lt. lia.
    + apply Z.eqb_eq. rewrite Z.mul_comm. apply Z_mod_mult.
Qed.

Section Personality.
Context `{EnhancedChatbot.Interpreter}.

Import EnhancedChatbot.

(** On numbers, the list of marked traits is computed without an error, and
    each of its names comes from a trait above 0.7. *)
Lemma high_traits_numeric (its : list (str * json)) :
  forallb (fun kv => is_number (snd kv)) its = true ->
  exists names,
    high_traits its = Ok names /\
    forall n, In n names ->
      exists k v,
        In (k, v) its /\
        n = str_title (replace k (lit "_") (lit " ")) /\
        gt_float v seven_tenths = Ok true.
Proof.
  induction its as [|[k v] its IH]; intros Hn.
  - exists []. split; [reflexivity|]. intros n [].
  - cbn [forallb snd] in Hn. apply andb_prop in Hn. destruct Hn as [Hv Hn].
    destruct (IH Hn) as (names & Hnames & Hall).
    cbn [high_traits]. rewrite Hnames.
    unfold is_number in Hv. unfold gt_float.
    destruct (num v) as [x|] eqn:Hx; [|discriminate]. cbn [rbind].
    destruct (negb (Qle_bool x seven_tenths)) eqn:Hhigh.
    + eexists. split; [reflexivity|]. intros n [<-|Hin].
      * exists k, v. split; [left; reflexivity|]. split; [reflexivity|].
        unfold gt_float. rewrite Hx, Hhigh. reflexivity.
      * destruct (Hall n Hin) as (k' & v' & Hin' & Hrest).
        exists k', v'. split; [right; exact Hin'|exact Hrest].
    + exists names. split; [reflexivity|]. intros n Hin.
      destruct (Hall n Hin) as (k' & v' & Hin' & Hrest).
      exists k', v'. split; [right; exact Hin'|exact Hrest].
Qed.

Lemma forallb_values (f : json -> bool) (its : list (str * json)) :
  forallb f (List.map snd its) = forallb (fun kv => f (snd kv)) its.
Proof.
  induction its as [|kv its IH]; [reflexivity|].
  cbn [List.map forallb]. rewrite IH. reflexivity.
Qed.

End Personality.

(** X16: on a profile whose traits are all numbers,
    [_format_personality_type] does not raise and returns "Still learning
    about you...", "Balanced learner", or "You show strong " followed by one
    or two names, each the title of a trait whose value is above 0.7. *)
Theorem personality_type_cases `{EnhancedChatbot.Interpreter}
  (fs its : list (str * json)) :
  lookup (lit "personality_traits") fs = Some (JObj its) ->
  forallb (fun kv => is_number (snd kv)) its = true ->
  exists s,
    EnhancedChatbot._format_personality_type (JObj fs) = Ok s /\
    (s = lit "Still learning about you..." \/
     s = lit "Balanced learner" \/
     exists names,
       names <> [] /\ (length names <= 2)%nat /\
       s = lit "You show strong " ++ join (lit ", ") names /\
       forall n, In n names ->
         exists k v,
           In (k, v) its /\
           n = EnhancedChatbot.str_title (replace k (lit "_") (lit " ")) /\
           EnhancedChatbot.gt_float v EnhancedChatbot.seven_tenths
           = Ok true).
Proof.
  intros Ht Hn.
  destruct (high_traits_numeric its Hn) as (names & Hnames & Hall).
  unfold EnhancedChatbot._format_personality_type, get. rewrite Ht.
  cbn [rbind]. unfold EnhancedChatbot.values, items. cbn [rbind].
  destruct (negb (truthy (JObj its))); cbn [rbind]; [eauto|].
  destruct (forallb (fun v => EnhancedChatbot.eq_float v
                                EnhancedChatbot.half) _);
    cbn [rbind]; [eauto|].
  rewrite Hnames. cbn [rbind].
  destruct names as [|n1 names]; [eauto|].
  eexists. split; [reflexivity|]. right. right.
  exists (firstn 2 (n1 :: names)).
  split; [discriminate|]. split; [apply firstn_le_length|].
  split; [reflexivity|].
  intros n Hin. apply Hall.
  rewrite <- (firstn_skipn 2 (n1 :: names)). apply in_or_app. left.
  exact Hin.
Qed.

Lemma personality_type_witness :
  lookup (lit "personality_traits") traits_fields
  = Some (JObj [(lit "openness", JFloat (3 # 4));
                (lit "risk_taking", JFloat (1 # 2));
                (lit "curiosity", JInt 1)]) /\
  @EnhancedChatbot._format_personality_type sample_interpreter
    (JObj traits_fields)
  = Ok (lit "You show strong Openness, Curiosity") /\
  exists s,
    @EnhancedChatbot._format_personality_type sample_interpreter
      (JObj traits_fields) = Ok s /\
    (s = lit "Still learning about you..." \/
     s = lit "Balanced learner" \/
     exists names,
       names <> [] /\ (length names <= 2)%nat /\
       s = lit "You show strong " ++ join (lit ", ") names).
Proof.
  split; [reflexivity|]. split; [vm_compute; reflexivity|].
  destruct (@personality_type_cases sample_interpreter traits_fields
              [(lit "openness", JFloat (3 # 4));
               (lit "risk_taking", JFloat (1 # 2));
               (lit "curiosity", JInt 1)] eq_refl eq_refl)
    as (s & Hs & Hcases).
  exists s. split; [exact Hs|].
  destruct Hcases as [Hc|[Hc|(names & H1 & H2 & H3 & _)]]; auto.
  right. right. exists names. auto.
Defined.

(** X17: a profile without traits, with an empty traits object, or whose
    traits are all equal to 0.5 is reported as "Still learning about
    you...". *)
Theorem personality_type_unknown `{EnhancedChatbot.Interpreter}
  (fs : list (str * json)) :
  (lookup (lit "personality_traits") fs = None ->
   EnhancedChatbot._format_personality_type (JObj fs)
   = Ok (lit "Still learning about you...")) /\
  (forall its,
      lookup (lit "personality_traits") fs = Some (JObj its) ->
      forallb (fun kv => EnhancedChatbot.eq_float (snd kv)
                           EnhancedChatbot.half) its = true ->
      EnhancedChatbot._format_personality_type (JObj fs)
      = Ok (lit "Still learning about you...")).
Proof.
  unfold EnhancedChatbot._format_personality_type, get. split.
  - intros ->. reflexivity.
  - intros its -> Hall. cbn [rbind].
    destruct (negb (truthy (JObj its))); [reflexivity|].
    unfold EnhancedChatbot.values, items. cbn [rbind].
    rewrite forallb_values. cbn [rbind]. rewrite Hall. reflexivity.
Qed.

Section InsightsFacts.
Context `{EnhancedChatbot.Interpreter}.

Import EnhancedChatbot.

(** The insights are either the fixed "no insights" object or an object that
    starts with [has_insights] true. *)
Lemma insights_of_shape (p v : json) :
  insights_of p = Ok v ->
  v = no_insights \/
  exists rest, v = JObj ((lit "has_insights", JBool true) :: rest).
Proof.
  unfold insights_of.
  destruct (if negb (truthy p) then Ok true else _) as [[|]|e];
    cbn [rbind]; [intros E; apply Ok_inj in E; auto| |discriminate].
  repeat match goal with
         | |- context [rbind ?r _] =>
             destruct r as [?|?]; cbn [rbind]; [|discriminate]
         end.
  intros E. apply Ok_inj in E. subst v. right. eauto.
Qed.

Lemma insights_of_hidden (p : json) :
  p = JNull \/
  (exists fs, p = JObj fs /\
              (lookup (lit "data_available") fs = None \/
               lookup (lit "data_available") fs = Some (JBool false))) ->
  insights_of p = Ok no_insights.
Proof.
  intros [->|(fs & -> & Hd)]; [reflexivity|].
  unfold insights_of. destruct (negb (truthy (JObj fs))); [reflexivity|].
  unfold get. destruct Hd as [-> | ->]; reflexivity.
Qed.

End InsightsFacts.

(** X18: when the profile [_get_cached_profile] gives is absent, or has no
    [data_available] field, or has it false, [get_user_insights_for_ui]
    returns the object with [has_insights] false and the invitation to chat
    more. *)
Theorem insights_hidden_without_data `{EnhancedChatbot.Interpreter}
  (bot bot' : EnhancedChatbot.t) (username : str) (w : world) (p : json) :
  fst (EnhancedChatbot._get_cached_profile bot username w) = Ok (p, bot') ->
  p = JNull \/
  (exists fs, p = JObj fs /\
              (lookup (lit "data_available") fs = None \/
               lookup (lit "data_available") fs = Some (JBool false))) ->
  fst (fst (EnhancedChatbot.get_user_insights_for_ui bot username w))
  = Ok (JObj [(lit "has_insights", JBool false);
              (lit "message",
               JStr (lit "Chat with me more to unlock personalized insights!"))])
  /\ snd (fst (EnhancedChatbot.get_user_insights_for_ui bot username w))
     = bot'.
Proof.
  intros Hp Hcase. unfold EnhancedChatbot.get_user_insights_for_ui.
  destruct (EnhancedChatbot._get_cached_profile bot username w)
    as [[[q b]|e] w'] eqn:E; cbn [fst] in Hp; [|discriminate].
  apply Ok_inj in Hp. injection Hp as -> ->. cbn [fst snd].
  split; [|reflexivity]. apply insights_of_hidden. exact Hcase.
Qed.

Lemma insights_hidden_witness :
  fst (EnhancedChatbot._get_cached_profile EnhancedChatbot.init (lit "asha")
         offline_world) = Ok (JNull, EnhancedChatbot.init) /\
  fst (fst (@EnhancedChatbot.get_user_insights_for_ui sample_interpreter
              EnhancedChatbot.init (lit "asha") offline_world))
  = Ok (JObj [(lit "has_insights", JBool false);
              (lit "message",
               JStr (lit "Chat with me more to unlock personalized insights!"))])
  /\ snd (fst (@EnhancedChatbot.get_user_insights_for_ui sample_interpreter
                 EnhancedChatbot.init (lit "asha") offline_world))
     = EnhancedChatbot.init.
Proof.
  split; [reflexivity|].
  apply (@insights_hidden_without_data sample_interpreter
           EnhancedChatbot.init EnhancedChatbot.init (lit "asha")
           offline_world JNull).
  - reflexivity.
  - left. reflexivity.
Defined.

(** X19: for a profile with data, typed as the data model says and whose
    personality type is computed, the insights hold [has_insights] true, at
    most the first three topics, and a [resume_score] that is [None] when
    the profile records no analysis and the average score otherwise. *)
Theorem insights_of_profile `{EnhancedChatbot.Interpreter}
  (fs : list (str * json)) (personality : str) :
  lookup (lit "data_available") fs = Some (JBool true) ->
  typed_for_greeting (JObj fs) = true ->
  EnhancedChatbot._format_personality_type (JObj fs) = Ok personality ->
  exists out,
    EnhancedChatbot.insights_of (JObj fs) = Ok (JObj out) /\
    lookup (lit "has_insights") out = Some (JBool true) /\
    lookup (lit "personality_type") out = Some (JStr personality) /\
    lookup (lit "topics_of_interest") out
    = Some (JArr (firstn 3
                    match lookup (lit "topics_of_interest") fs with
                    | Some (JArr topics) => topics
                    | _ => []
                    end)) /\
    (has_analyses fs = false ->
     lookup (lit "resume_score") out = Some JNull) /\
    (forall ri,
        has_analyses fs = true ->
        lookup (lit "resume_insights") fs = Some (JObj ri) ->
        lookup (lit "resume_score") out
        = Some match lookup (lit "average_score") ri with
               | Some v => v
               | None => JInt 0
               end).
Proof.
  intros Hd Ht Hpt. unfold EnhancedChatbot.insights_of.
  destruct fs as [|kv fs]; [discriminate|]. cbn [truthy negb].
  unfold get at 1. rewrite Hd. cbn [rbind truthy negb].
  rewrite Hpt. unfold typed_for_greeting in Ht.
  apply andb_prop in Ht. destruct Ht as [Ht Htopics].
  apply andb_prop in Ht. destruct Ht as [Hstyle Hresume].
  unfold has_analyses, get.
  destruct (lookup (lit "communication_style") (kv :: fs))
    as [[| | | | | |cs]|];
    try discriminate Hstyle;
    (destruct (lookup (lit "resume_insights") (kv :: fs))
       as [[| | | | | |ri]|];
     try discriminate Hresume);
    (destruct (lookup (lit "topics_of_interest") (kv :: fs))
       as [[| | | | |l|]|];
     try discriminate Htopics);
    cbn [rbind slice_to lookup gt num];
    try (destruct (lookup (lit "total_analyses") ri) as [v|];
         [unfold gt; unfold is_number in Hresume;
          destruct (num v); [|discriminate Hresume]|];
         cbn [rbind gt num]);
    try (change (Qle_bool (inject_Z 0) (inject_Z 0)) with true;
         cbn [negb]);
    try (destruct (negb _); cbn [rbind]);
    (eexists; split; [reflexivity|];
     split; [reflexivity|]; split; [reflexivity|]; split; [reflexivity|];
     split; [intros; try discriminate; reflexivity|];
     intros ri0 Ha Hr; try discriminate;
       try (injection Hr as <-); reflexivity).
Qed.

Lemma insights_of_profile_witness :
  lookup (lit "data_available") scenario_fields = Some (JBool true) /\
  typed_for_greeting (JObj scenario_fields) = true /\
  has_analyses scenario_fields = true /\
  exists out,
    @EnhancedChatbot.insights_of sample_interpreter (JObj scenario_fields)
    = Ok (JObj out) /\
    lookup (lit "has_insights") out = Some (JBool true) /\
    lookup (lit "topics_of_interest") out
    = Some (JArr [JStr (lit "ml"); JStr (lit "ai")]) /\
    lookup (lit "resume_score") out = Some (JInt 82).
Proof.
  split; [reflexivity|]. split; [reflexivity|]. split; [reflexivity|].
  destruct (@insights_of_profile sample_interpreter scenario_fields
              (lit "Still learning about you...") eq_refl eq_refl eq_refl)
    as (out & Hout & H1 & _ & H3 & _ & H5).
  exists out. split; [exact Hout|]. split; [exact H1|].
  split; [exact H3|].
  exact (H5 _ eq_refl eq_refl).
Defined.

(** X20: the insights endpoint never fails: it always returns an object with
    a boolean [has_insights], and when the chatbot raised, that object is
    [has_insights] false with the text of the exception under [error]. *)
Theorem insights_endpoint_total `{EnhancedChatbot.Interpreter}
  (chatbot : EnhancedChatbot.t) (username : str) (w : world) :
  (exists out b,
      fst (fst (Endpoints.get_user_insights chatbot username w)) = JObj out
      /\ lookup (lit "has_insights") out = Some (JBool b)) /\
  (forall e,
      fst (fst (EnhancedChatbot.get_user_insights_for_ui chatbot username w))
      = Raise e ->
      fst (fst (Endpoints.get_user_insights chatbot username w))
      = JObj [(lit "has_insights", JBool false);
              (lit "error", JStr (EnhancedChatbot.exn_str e))]).
Proof.
  unfold Endpoints.get_user_insights.
  destruct (EnhancedChatbot.get_user_insights_for_ui chatbot username w)
    as [[[v|e] bot'] w'] eqn:E; cbn [fst].
  - split; [|discriminate].
    unfold EnhancedChatbot.get_user_insights_for_ui in E.
    destruct (EnhancedChatbot._get_cached_profile chatbot username w)
      as [[[p b]|e] w0]; [|discriminate].
    injection E as E _ _.
    destruct (insights_of_shape p v E) as [->|[rest ->]].
    + eexists. exists false. split; reflexivity.
    + eexists. exists true. split; reflexivity.
  - split.
    + eexists. exists false. split; reflexivity.
    + intros e' [= <-]. reflexivity.
Qed.

(** X21: [safe_get_personalization] never raises and never returns [None]:
    it returns the fetched profile when that is truthy and the empty dict
    otherwise. *)
Theorem safe_get_never_none
  (personalization : PersonalizationHelper.t) (username : str) (w : world) :
  exists v,
    fst (Endpoints.safe_get_personalization personalization username w)
    = Ok v /\
    v <> JNull /\
    (truthy (PersonalizationHelper.decoded (next_reply w)) = true ->
     v = PersonalizationHelper.decoded (next_reply w)) /\
    (truthy (PersonalizationHelper.decoded (next_reply w)) = false ->
     v = JObj []).
Proof.
  unfold Endpoints.safe_get_personalization, try_except.
  rewrite (bind_run _ _ _ _ _
             (get_user_profile_exact personalization username w)).
  unfold ret. cbn [fst].
  destruct (truthy (PersonalizationHelper.decoded (next_reply w))) eqn:Ht.
  - eexists. split; [reflexivity|]. split; [|split; [reflexivity|discriminate]].
    intros E. rewrite E in Ht. discriminate.
  - eexists. split; [reflexivity|].
    split; [discriminate|split; [discriminate|reflexivity]].
Qed.

(** X22: the greeting endpoint always returns an object whose only field,
    [greeting], is a string that contains the username. *)
Theorem greeting_endpoint_total `{Formatter}
  (chatbot : EnhancedChatbot.t) (username : str) (w : world) :
  exists g,
    fst (Endpoints.get_greeting chatbot username w)
    = Ok (JObj [(lit "greeting", JStr g)]) /\
    contains username g = true.
Proof.
  unfold Endpoints.get_greeting, try_except, bind, ret,
    EnhancedChatbot.get_personalized_greeting, try_except.
  destruct (PersonalizationHelper.get_personalized_greeting _ _ _)
    as [[g|e] w'] eqn:E; cbn [fst].
  - exists g. split; [reflexivity|].
    apply (helper_greeting_contains
             (EnhancedChatbot.personalization chatbot) username w).
    rewrite E. reflexivity.
  - eexists. split; [reflexivity|]. apply contains_intro.
Qed.

(* ===================================================================== *)
(** ** The chat method *)
(* ===================================================================== *)

Section Chat.
Context `{Formatter} `{EnhancedChatbot.Interpreter}.
Context {db : Type} `{EnhancedChatbot.Host db}.

Import EnhancedChatbot.

(** The cache call never raises and keeps the helper. *)
Lemma cached_call_ok (self : t) (username : str) (w : world) :
  exists p self' w',
    _get_cached_profile self username w = (Ok (p, self'), w') /\
    personalization self' = personalization self.
Proof.
  pose proof (cached_call self username w) as Hc.
  destruct (cached self username (clock w (reads w))) as [p|].
  - rewrite Hc. eauto.
  - destruct Hc as [rq ->]. eexists. eexists. eexists.
    split; [reflexivity|]. destruct (truthy _); reflexivity.
Qed.

(** What the call leaves when the message is not about the resume, by the
    outcome of its steps. *)
Lemma chat_normal_run (self : t) (store : db)
  (username user_message chat_id : str) (w : world) :
  asks_about_resume user_message = false ->
  exists p self1 w2,
    _get_cached_profile self username
      (issue w (profile_request (personalization self) username))
    = (Ok (p, self1), w2) /\
    personalization self1 = personalization self /\
    match fst (PersonalizationHelper.build_personalization_context
                 (personalization self) username w) with
    | Raise e =>
        chat_with_personalization self store username user_message chat_id w
        = (Raise e, self, store,
           issue w (profile_request (personalization self) username))
    | Ok context =>
        let answer :=
          llm_invoke (system_prompt context (_get_chat_history store chat_id))
            user_message in
        match adapted answer p with
        | Raise e =>
            chat_with_personalization self store username user_message
              chat_id w
            = (Raise e, self1, store, w2)
        | Ok text =>
            let store1 :=
              _save_message_to_db store chat_id username user_message text
            in
            let w3 :=
              if _should_update_profile username
                   (Z.of_nat (count_messages store1 chat_id))
              then issue w2 (update_request (personalization self) username)
              else w2 in
            chat_with_personalization self store username user_message
              chat_id w
            = (match personalized_flag p with
               | Ok flag =>
                   Ok {| response := text;
                         is_recommendation := false;
                         timestamp := isoformat_now;
                         personalized := flag |}
               | Raise e => Raise e
               end, self1, store1, w3)
        end
    end.
Proof.
  intros Hasks.
  destruct (cached_call_ok self username
              (issue w (profile_request (personalization self) username)))
    as (p & self1 & w2 & Hc & Hpers).
  exists p, self1, w2. split; [exact Hc|]. split; [exact Hpers|].
  unfold chat_with_personalization. rewrite Hasks.
  pose proof (build_context_world (personalization self) username w) as Hw.
  destruct (PersonalizationHelper.build_personalization_context
              (personalization self) username w) as [[context|e] w1].
  - cbn [fst snd] in *. subst w1. rewrite Hc. cbv zeta.
    destruct (adapted _ p) as [text|e]; [|reflexivity].
    rewrite trigger_world, Hpers.
    destruct (personalized_flag p); reflexivity.
  - cbn [fst snd] in *. subst w1. reflexivity.
Qed.

End Chat.

(** X23: when a message that is not about the resume gets a reply, the
    exchange has been saved once, with exactly the response returned; the
    reply is not a recommendation. *)
Theorem chat_saves_what_it_returns
  `{Formatter} `{EnhancedChatbot.Interpreter}
  {db : Type} `{EnhancedChatbot.Host db}
  (bot : EnhancedChatbot.t) (store : db)
  (username user_message chat_id : str) (w : world)
  (reply : EnhancedChatbot.chat_reply) :
  EnhancedChatbot.asks_about_resume user_message = false ->
  chat_result (EnhancedChatbot.chat_with_personalization bot store username
                 user_message chat_id w) = Ok reply ->
  chat_store (EnhancedChatbot.chat_with_personalization bot store username
                user_message chat_id w)
  = EnhancedChatbot._save_message_to_db store chat_id username user_message
      (EnhancedChatbot.response reply) /\
  EnhancedChatbot.is_recommendation reply = false.
Proof.
  intros Hasks.
  destruct (chat_normal_run bot store username user_message chat_id w Hasks)
    as (p & bot1 & w2 & _ & _ & Hrun).
  destruct (fst (PersonalizationHelper.build_personalization_context _ _ _))
    as [context|e]; [|rewrite Hrun; discriminate].
  cbv zeta in Hrun.
  destruct (EnhancedChatbot.adapted _ p) as [text|e];
    [|rewrite Hrun; discriminate].
  rewrite Hrun. unfold chat_result, chat_store. cbn [fst snd].
  destruct (EnhancedChatbot.personalized_flag p); [|discriminate].
  intros E. apply Ok_inj in E. subst reply. split; reflexivity.
Qed.

Lemma chat_saves_witness :
  @EnhancedChatbot.asks_about_resume sample_interpreter
    (lit "Tell me about colleges") = false /\
  exists reply,
    chat_result (sample_chat EnhancedChatbot.init
                   (lit "Tell me about colleges") formal_world) = Ok reply /\
    chat_store (sample_chat EnhancedChatbot.init
                  (lit "Tell me about colleges") formal_world)
    = [(lit "Tell me about colleges", EnhancedChatbot.response reply)].
Proof.
  split; [reflexivity|].
  eexists. split; [vm_compute; reflexivity|].
  apply (@chat_saves_what_it_returns sample_format sample_interpreter
           (list (str * str)) sample_host EnhancedChatbot.init []
           (lit "asha") (lit "Tell me about colleges") (lit "chat-1")
           formal_world).
  - reflexivity.
  - vm_compute. reflexivity.
Defined.

(** X24: for a user whose cached profile has data and the formality
    "formal", the response of a chat that is not about the resume is the
    model's answer after the four formal replacements: it contains neither
    "Hey" nor "!", and the reply is marked personalized. *)
Theorem chat_formal_reply
  `{Formatter} `{EnhancedChatbot.Interpreter}
  {db : Type} `{EnhancedChatbot.Host db}
  (bot bot1 : EnhancedChatbot.t) (store : db)
  (username user_message chat_id context : str) (w : world)
  (fs : list (str * json)) :
  EnhancedChatbot.asks_about_resume user_message = false ->
  fst (PersonalizationHelper.build_personalization_context
         (EnhancedChatbot.personalization bot) username w) = Ok context ->
  fst (EnhancedChatbot._get_cached_profile bot username
         (issue w (profile_request (EnhancedChatbot.personalization bot)
                     username)))
  = Ok (JObj fs, bot1) ->
  lookup (lit "data_available") fs = Some (JBool true) ->
  is_formal (JObj fs) = true ->
  exists reply,
    chat_result (EnhancedChatbot.chat_with_personalization bot store username
                   user_message chat_id w) = Ok reply /\
    EnhancedChatbot.response reply
    = formal_text
        (EnhancedChatbot.llm_invoke
           (EnhancedChatbot.system_prompt context
              (EnhancedChatbot._get_chat_history store chat_id))
           user_message) /\
    contains (lit "Hey") (EnhancedChatbot.response reply) = false /\
    contains (lit "!") (EnhancedChatbot.response reply) = false /\
    EnhancedChatbot.personalized reply = JBool true.
Proof.
  intros Hasks Hctx Hc Hd Hf.
  destruct (chat_normal_run bot store username user_message chat_id w Hasks)
    as (p & b1 & w2 & Hc' & _ & Hrun).
  rewrite Hc' in Hc. cbn [fst] in Hc. apply Ok_inj in Hc.
  injection Hc as -> ->.
  rewrite Hctx in Hrun. cbv zeta in Hrun.
  unfold EnhancedChatbot.adapted in Hrun.
  destruct fs as [|kv fs]; [discriminate|]. cbn [truthy] in Hrun.
  unfold get at 1 in Hrun. rewrite Hd in Hrun. cbn [rbind truthy] in Hrun.
  rewrite (adapt_formal _ _ Hf) in Hrun.
  unfold EnhancedChatbot.personalized_flag, get in Hrun. rewrite Hd in Hrun.
  rewrite Hrun. unfold chat_result. cbn [fst].
  eexists. split; [reflexivity|]. cbn [EnhancedChatbot.response
                                        EnhancedChatbot.personalized].
  split; [reflexivity|]. split; [apply formal_no_hey|].
  split; [apply formal_no_bang|reflexivity].
Qed.

Lemma chat_formal_witness :
  @EnhancedChatbot.asks_about_resume sample_interpreter
    (lit "Tell me about colleges") = false /\
  lookup (lit "data_available") formal_fields = Some (JBool true) /\
  is_formal (JObj formal_fields) = true /\
  exists reply,
    chat_result (sample_chat EnhancedChatbot.init
                   (lit "Tell me about colleges") formal_world) = Ok reply /\
    EnhancedChatbot.response reply
    = lit "Hello. We are going to look at colleges.".
Proof.
  split; [reflexivity|]. split; [reflexivity|]. split; [reflexivity|].
  destruct (@chat_formal_reply sample_format sample_interpreter
              (list (str * str)) sample_host EnhancedChatbot.init
              (bot_after EnhancedChatbot.init (lit "asha")
                 (issue formal_world
                    (profile_request
                       (EnhancedChatbot.personalization EnhancedChatbot.init)
                       (lit "asha"))))
              [] (lit "asha") (lit "Tell me about colleges") (lit "chat-1")
              (fst (match
                      @PersonalizationHelper.build_personalization_context
                        sample_format
                        (EnhancedChatbot.personalization EnhancedChatbot.init)
                        (lit "asha") formal_world
                    with
                    | (Ok s, w') => (s, w')
                    | (Raise _, w') => ([], w')
                    end))
              formal_world formal_fields)
    as (reply & Hr & Hresp & _).
  - reflexivity.
  - vm_compute. reflexivity.
  - vm_compute. reflexivity.
  - reflexivity.
  - reflexivity.
  - exists reply. split; [exact Hr|]. rewrite Hresp. vm_compute. reflexivity.
Defined.

(** X25: when the profile the cache call gives is absent, or lacks
    [data_available], or has it false, a chat that is not about the resume
    returns the model's answer as it is, marked as not personalized. *)
Theorem chat_without_data_verbatim
  `{Formatter} `{EnhancedChatbot.Interpreter}
  {db : Type} `{EnhancedChatbot.Host db}
  (bot bot1 : EnhancedChatbot.t) (store : db)
  (username user_message chat_id context : str) (w : world) (p : json) :
  EnhancedChatbot.asks_about_resume user_message = false ->
  fst (PersonalizationHelper.build_personalization_context
         (EnhancedChatbot.personalization bot) username w) = Ok context ->
  fst (EnhancedChatbot._get_cached_profile bot username
         (issue w (profile_request (EnhancedChatbot.personalization bot)
                     username)))
  = Ok (p, bot1) ->
  p = JNull \/
  (exists fs, p = JObj fs /\
              (lookup (lit "data_available") fs = None \/
               lookup (lit "data_available") fs = Some (JBool false))) ->
  chat_result (EnhancedChatbot.chat_with_personalization bot store username
                 user_message chat_id w)
  = Ok {| EnhancedChatbot.response :=
            EnhancedChatbot.llm_invoke
              (EnhancedChatbot.system_prompt context
                 (EnhancedChatbot._get_chat_history store chat_id))
              user_message;
          EnhancedChatbot.is_recommendation := false;
          EnhancedChatbot.timestamp := EnhancedChatbot.isoformat_now;
          EnhancedChatbot.personalized := JBool false |}.
Proof.
  intros Hasks Hctx Hc Hcase.
  destruct (chat_normal_run bot store username user_message chat_id w Hasks)
    as (q & b1 & w2 & Hc' & _ & Hrun).
  rewrite Hc' in Hc. cbn [fst] in Hc. apply Ok_inj in Hc.
  injection Hc as -> ->.
  rewrite Hctx in Hrun. cbv zeta in Hrun.
  unfold EnhancedChatbot.adapted, EnhancedChatbot.personalized_flag in Hrun.
  destruct Hcase as [->|(fs & -> & Hd)].
  - cbn [truthy] in Hrun. rewrite Hrun. reflexivity.
  - unfold get in Hrun.
    destruct (truthy (JObj fs));
      destruct Hd as [Hd|Hd]; rewrite Hd in Hrun;
      cbn [rbind truthy] in Hrun; rewrite Hrun; reflexivity.
Qed.

Lemma chat_without_data_witness :
  @EnhancedChatbot.asks_about_resume sample_interpreter
    (lit "Tell me about colleges") = false /\
  chat_result (sample_chat EnhancedChatbot.init
                 (lit "Tell me about colleges") offline_world)
  = Ok {| EnhancedChatbot.response :=
            lit "Hey! We are gonna look at colleges.";
          EnhancedChatbot.is_recommendation := false;
          EnhancedChatbot.timestamp := lit "2025-01-01T00:00:00";
          EnhancedChatbot.personalized := JBool false |}.
Proof.
  split; [reflexivity|].
  apply (@chat_without_data_verbatim sample_format sample_interpreter
           (list (str * str)) sample_host EnhancedChatbot.init
           EnhancedChatbot.init [] (lit "asha")
           (lit "Tell me about colleges") (lit "chat-1") []
           offline_world JNull).
  - reflexivity.
  - reflexivity.
  - reflexivity.
  - left. reflexivity.
Defined.

(** X26: after the cache call, a chat that returns a reply issues one more
    request, the POST of the update, exactly when the number of messages of
    the chat after saving is a positive multiple of 10, and none
    otherwise. *)
Theorem chat_update_trigger
  `{Formatter} `{EnhancedChatbot.Interpreter}
  {db : Type} `{EnhancedChatbot.Host db}
  (bot : EnhancedChatbot.t) (store : db)
  (username user_message chat_id : str) (w : world)
  (reply : EnhancedChatbot.chat_reply) :
  EnhancedChatbot.asks_about_resume user_message = false ->
  chat_result (EnhancedChatbot.chat_with_personalization bot store username
                 user_message chat_id w) = Ok reply ->
  sent (chat_world (EnhancedChatbot.chat_with_personalization bot store
                      username user_message chat_id w))
  = sent (world_after bot username
            (issue w (profile_request (EnhancedChatbot.personalization bot)
                        username)))
    ++ (if EnhancedChatbot._should_update_profile username
             (Z.of_nat
                (EnhancedChatbot.count_messages
                   (chat_store
                      (EnhancedChatbot.chat_with_personalization bot store
                         username user_message chat_id w)) chat_id))
        then [update_request (EnhancedChatbot.personalization bot) username]
        else []).
Proof.
  intros Hasks.
  destruct (chat_normal_run bot store username user_message chat_id w Hasks)
    as (p & bot1 & w2 & Hc & _ & Hrun).
  unfold world_after. rewrite Hc. cbn [snd].
  destruct (fst (PersonalizationHelper.build_personalization_context _ _ _))
    as [context|e]; [|rewrite Hrun; discriminate].
  cbv zeta in Hrun.
  destruct (EnhancedChatbot.adapted _ p) as [text|e];
    [|rewrite Hrun; discriminate].
  rewrite Hrun. unfold chat_result, chat_world, chat_store. cbn [fst snd].
  intros _.
  destruct (EnhancedChatbot._should_update_profile _ _).
  - reflexivity.
  - rewrite app_nil_r. reflexivity.
Qed.

Lemma chat_update_witness :
  @EnhancedChatbot.asks_about_resume sample_interpreter
    (lit "Tell me about colleges") = false /\
  (exists reply,
      chat_result (sample_chat EnhancedChatbot.init
                     (lit "Tell me about colleges") formal_world)
      = Ok reply) /\
  sent (chat_world (sample_chat EnhancedChatbot.init
                      (lit "Tell me about colleges") formal_world))
  = sent (world_after EnhancedChatbot.init (lit "asha")
            (issue formal_world
               (profile_request
                  (EnhancedChatbot.personalization EnhancedChatbot.init)
                  (lit "asha"))))
    ++ [].
Proof.
  split; [reflexivity|].
  assert (Hr : exists reply,
             chat_result (sample_chat EnhancedChatbot.init
                            (lit "Tell me about colleges") formal_world)
             = Ok reply) by (eexists; vm_compute; reflexivity).
  split; [exact Hr|]. destruct Hr as [reply Hr].
  apply (@chat_update_trigger sample_format sample_interpreter
           (list (str * str)) sample_host EnhancedChatbot.init []
           (lit "asha") (lit "Tell me about colleges") (lit "chat-1")
           formal_world reply).
  - reflexivity.
  - exact Hr.
Defined.

(** X27: whatever the message and whatever the cache holds, the first
    request a chat issues is the GET of the user's profile: neither the
    resume summary nor the context block is served from the cache. *)
Theorem chat_first_request
  `{Formatter} `{EnhancedChatbot.Interpreter}
  {db : Type} `{EnhancedChatbot.Host db}
  (bot : EnhancedChatbot.t) (store : db)
  (username user_message chat_id : str) (w : world) :
  exists rest,
    sent (chat_world (EnhancedChatbot.chat_with_personalization bot store
                        username user_message chat_id w))
    = sent w
      ++ profile_request (EnhancedChatbot.personalization bot) username
         :: rest.
Proof.
  destruct (EnhancedChatbot.asks_about_resume user_message) eqn:Hasks.
  - unfold EnhancedChatbot.chat_with_personalization. rewrite Hasks.
    destruct (resume_summary_runs (EnhancedChatbot.personalization bot)
                username w)
      as [(e & w' & -> & [-> | ->])
         |[[-> | ->]|(ri & summary & extra & _ & ->)]];
      unfold chat_world, issue; cbn [snd sent];
      rewrite <- ?app_assoc; eexists; reflexivity.
  - destruct (chat_normal_run bot store username user_message chat_id w
                Hasks) as (p & bot1 & w2 & Hc & _ & Hrun).
    assert (Hw2 : exists rest,
               sent w2
               = sent w
                 ++ profile_request (EnhancedChatbot.personalization bot)
                      username :: rest).
    { pose proof (cached_call bot username
                    (issue w (profile_request
                                (EnhancedChatbot.personalization bot)
                                username))) as Hcc.
      destruct (EnhancedChatbot.cached _ _ _).
      - rewrite Hcc in Hc. injection Hc as _ _ <-.
        unfold issue. cbn [sent]. eexists. reflexivity.
      - destruct Hcc as [rq Hcc]. rewrite Hcc in Hc.
        injection Hc as _ _ <-. unfold issue. cbn [sent].
        rewrite <- app_assoc. eexists. reflexivity. }
    destruct Hw2 as [rest Hw2].
    destruct (fst (PersonalizationHelper.build_personalization_context
                     _ _ _)) as [context|e].
    + cbv zeta in Hrun.
      destruct (EnhancedChatbot.adapted _ p) as [text|e]; rewrite Hrun;
        unfold chat_world; cbn [snd]; [|eauto].
      destruct (EnhancedChatbot._should_update_profile _ _); [|eauto].
      unfold issue. cbn [sent]. rewrite Hw2, <- app_assoc.
      eexists. reflexivity.
    + rewrite Hrun. unfold chat_world, issue. cbn [snd sent].
      eexists. reflexivity.
Qed.

(** X28: a message about the resume is answered by the resume summary alone:
    the cache and the message store are left as they were, and a reply, when
    there is one, carries the summary and is marked personalized. *)
Theorem chat_resume_route
  `{Formatter} `{EnhancedChatbot.Interpreter}
  {db : Type} `{EnhancedChatbot.Host db}
  (bot : EnhancedChatbot.t) (store : db)
  (username user_message chat_id : str) (w : world) :
  EnhancedChatbot.asks_about_resume user_message = true ->
  chat_bot (EnhancedChatbot.chat_with_personalization bot store username
              user_message chat_id w) = bot /\
  chat_store (EnhancedChatbot.chat_with_personalization bot store username
                user_message chat_id w) = store /\
  (forall reply,
      chat_result (EnhancedChatbot.chat_with_personalization bot store
                     username user_message chat_id w) = Ok reply ->
      fst (PersonalizationHelper.get_resume_summary_for_chat
             (EnhancedChatbot.personalization bot) username w)
      = Ok (EnhancedChatbot.response reply) /\
      EnhancedChatbot.personalized reply = JBool true) /\
  (forall e,
      fst (PersonalizationHelper.get_resume_summary_for_chat
             (EnhancedChatbot.personalization bot) username w) = Raise e ->
      chat_result (EnhancedChatbot.chat_with_personalization bot store
                     username user_message chat_id w) = Raise e).
Proof.
  intros Hasks. unfold EnhancedChatbot.chat_with_personalization.
  rewrite Hasks.
  destruct (PersonalizationHelper.get_resume_summary_for_chat _ _ _)
    as [[s|e] w1]; unfold chat_bot, chat_store, chat_result; cbn [fst snd].
  - split; [reflexivity|]. split; [reflexivity|]. split; [|discriminate].
    intros reply E. apply Ok_inj in E. subst reply. split; reflexivity.
  - split; [reflexivity|]. split; [reflexivity|]. split; [discriminate|].
    intros e' E. injection E as <-. reflexivity.
Qed.

Lemma chat_resume_witness :
  @EnhancedChatbot.asks_about_resume sample_interpreter
    (lit "How is my Resume doing?") = true /\
  chat_bot (sample_chat warm_bot (lit "How is my Resume doing?")
              scenario_world) = warm_bot /\
  chat_store (sample_chat warm_bot (lit "How is my Resume doing?")
                scenario_world) = [].
Proof.
  split; [reflexivity|].
  destruct (@chat_resume_route sample_format sample_interpreter
              (list (str * str)) sample_host warm_bot []
              (lit "asha") (lit "How is my Resume doing?") (lit "chat-1")
              scenario_world eq_refl) as (Hb & Hs & _).
  split; [exact Hb|exact Hs].
Defined.

(** X29: when the profile the cache call gives is falsy without being [None]
    or a dict (an empty list, zero, an empty string, false), a chat that is
    not about the resume raises [AttributeError] when it builds its reply,
    after the exchange has been saved with the model's unadapted answer. *)
Theorem chat_falsy_profile_raises
  `{Formatter} `{EnhancedChatbot.Interpreter}
  {db : Type} `{EnhancedChatbot.Host db}
  (bot bot1 : EnhancedChatbot.t) (store : db)
  (username user_message chat_id context : str) (w : world) (p : json) :
  EnhancedChatbot.asks_about_resume user_message = false ->
  fst (PersonalizationHelper.build_personalization_context
         (EnhancedChatbot.personalization bot) username w) = Ok context ->
  fst (EnhancedChatbot._get_cached_profile bot username
         (issue w (profile_request (EnhancedChatbot.personalization bot)
                     username)))
  = Ok (p, bot1) ->
  truthy p = false ->
  p <> JNull ->
  (forall fs, p <> JObj fs) ->
  chat_result (EnhancedChatbot.chat_with_personalization bot store username
                 user_message chat_id w) = Raise AttributeError /\
  chat_store (EnhancedChatbot.chat_with_personalization bot store username
                user_message chat_id w)
  = EnhancedChatbot._save_message_to_db store chat_id username user_message
      (EnhancedChatbot.llm_invoke
         (EnhancedChatbot.system_prompt context
            (EnhancedChatbot._get_chat_history store chat_id))
         user_message).
Proof.
  intros Hasks Hctx Hc Hfalsy Hnone Hdict.
  destruct (chat_normal_run bot store username user_message chat_id w Hasks)
    as (q & b1 & w2 & Hc' & _ & Hrun).
  rewrite Hc' in Hc. cbn [fst] in Hc. apply Ok_inj in Hc.
  injection Hc as -> ->.
  rewrite Hctx in Hrun. cbv zeta in Hrun.
  unfold EnhancedChatbot.adapted in Hrun. rewrite Hfalsy in Hrun.
  rewrite Hrun. unfold chat_result, chat_store. cbn [fst snd].
  split; [|reflexivity].
  destruct p; try reflexivity; [congruence|exfalso; exact (Hdict _ eq_refl)].
Qed.

Lemma chat_falsy_profile_witness :
  @EnhancedChatbot.asks_about_resume sample_interpreter
    (lit "Tell me about colleges") = false /\
  truthy (JArr []) = false /\
  chat_result (sample_chat EnhancedChatbot.init
                 (lit "Tell me about colleges") empty_list_world)
  = Raise AttributeError /\
  chat_store (sample_chat EnhancedChatbot.init
                (lit "Tell me about colleges") empty_list_world)
  = [(lit "Tell me about colleges",
      lit "Hey! We are gonna look at colleges.")].
Proof.
  split; [reflexivity|]. split; [reflexivity|].
  apply (@chat_falsy_profile_raises sample_format sample_interpreter
           (list (str * str)) sample_host EnhancedChatbot.init
           EnhancedChatbot.init [] (lit "asha")
           (lit "Tell me about colleges") (lit "chat-1") []
           empty_list_world (JArr [])).
  - reflexivity.
  - reflexivity.
  - reflexivity.
  - reflexivity.
  - discriminate.
  - discriminate.
Defined.

(** X30: for a fetched profile that has data but none of the six fields the
    context block renders, [build_personalization_context] returns the two
    frame lines alone, not the empty string. *)
Theorem context_block_minimal `{Formatter}
  (self : PersonalizationHelper.t) (username : str) (w : world)
  (fs : list (str * json)) :
  fst (PersonalizationHelper.get_user_profile self username w)
  = Ok (JObj fs) ->
  lookup (lit "data_available") fs = Some (JBool true) ->
  lookup (lit "personality_traits") fs = None ->
  lookup (lit "communication_style") fs = None ->
  lookup (lit "topics_of_interest") fs = None ->
  lookup (lit "skill_levels") fs = None ->
  lookup (lit "recommendations") fs = None ->
  lookup (lit "resume_insights") fs = None ->
  fst (PersonalizationHelper.build_personalization_context self username w)
  = Ok ([PersonalizationHelper.nl] ++ lit "[PERSONALIZATION INSIGHTS:]"
        ++ [PersonalizationHelper.nl]
        ++ lit "[END PERSONALIZATION INSIGHTS]"
        ++ [PersonalizationHelper.nl]).
Proof.
  intros Hp Hd H1 H2 H3 H4 H5 H6. destruct (fetched _ _ _ _ Hp) as [w' E].
  unfold PersonalizationHelper.build_personalization_context.
  rewrite (bind_run _ _ _ _ _ E).
  unfold bind, lift, PersonalizationHelper.no_data.
  destruct fs as [|kv fs]; [discriminate|]. cbn [truthy negb].
  unfold get at 1. rewrite Hd. cbn [rbind truthy negb]. cbv beta iota.
  unfold PersonalizationHelper.traits_lines,
    PersonalizationHelper.style_lines, PersonalizationHelper.topics_lines,
    PersonalizationHelper.skills_lines, PersonalizationHelper.recs_lines,
    PersonalizationHelper.resume_lines, get.
  rewrite H1, H2, H3, H4, H5, H6. reflexivity.
Qed.

Lemma context_block_minimal_witness :
  fst (PersonalizationHelper.get_user_profile sample_helper (lit "asha")
         (sample_world [Response 200 (Some no_insights_profile)]))
  = Ok no_insights_profile /\
  fst (@PersonalizationHelper.build_personalization_context sample_format
         sample_helper (lit "asha")
         (sample_world [Response 200 (Some no_insights_profile)]))
  = Ok ([PersonalizationHelper.nl] ++ lit "[PERSONALIZATION INSIGHTS:]"
        ++ [PersonalizationHelper.nl]
        ++ lit "[END PERSONALIZATION INSIGHTS]"
        ++ [PersonalizationHelper.nl]).
Proof.
  split; [reflexivity|].
  apply (@context_block_minimal sample_format sample_helper (lit "asha")
           (sample_world [Response 200 (Some no_insights_profile)])
           [(lit "username", JStr (lit "asha"));
            (lit "data_available", JBool true)]); reflexivity.
Defined.
